(** * mlbv: game selection and live-start synchronisation

    A shallow embedding of [main] of [mlbam/mlbv.py] as an interaction tree
    over the calls it makes to its collaborators ([mlbam.gamedata],
    [mlbam.stream], [mlbam.util], [mlbam.standings], [mlbam.config], [time],
    [print] and the logger), with a trace semantics and an executable
    interpreter against a simulated clock. *)

From Stdlib Require Import ZArith List String Ascii Bool Lia DecimalString.
From ITree Require Import ITree Eq.Shallow.
Import ListNotations.
Import ITreeNotations.

Local Open Scope string_scope.
Local Open Scope list_scope.
Local Open Scope itree_scope.
Local Open Scope Z_scope.

Set Implicit Arguments.

(* ===================================================================== *)
(** ** Data *)
(* ===================================================================== *)

(** Modelled from the spec: the game record, a dict built by
    [mlbam.gamedata] (not part of this file).  [main] reads only the key
    ['mlbdate'], the scheduled start, an absolute time in seconds. *)
Record GameRecord : Type := mkGameRecord {
  away_abbrev : string;
  home_abbrev : string;
  game_number : string;
  mlbdate : Z;
  abstract_game_state : string;
  feed : list (string * string)
}.

(** Modelled from the spec: one day of the catalog, the records of that day
    in catalog order.  [retrieve_and_display_game_data] returns a list of
    them, one per day of the span. *)
Definition GameDay : Type := list GameRecord.

(** The namespace built by [parser.parse_args()]. *)
Module args.
Record t : Type := mk {
  date : option string;
  inning : option string;
  inning_offset : option Z;
  from_start : bool;
  days : Z;
  tomorrow : bool;
  yesterday : bool;
  team : option string;
  feed : option string;
  favs : option string;
  filter : bool;
  game : string;
  resolution : option string;
  scores : bool;
  no_scores : bool;
  linescore : bool;
  username : option string;
  password : option string;
  fetch : bool;
  wait : bool;
  standings : option string;
  verbose : bool;
  debug : bool
}.
End args.

(** Python truth value of an optional string ([None] and [''] are false)
    and of an optional int ([None] and [0] are false): [Some] of the value
    when it is true. *)
Definition truthy_str (o : option string) : option string :=
  match o with
  | Some s => if (s =? "")%string then None else Some s
  | None => None
  end.

Definition truthy_int (o : option Z) : option Z :=
  match o with
  | Some n => if (n =? 0)%Z then None else Some n
  | None => None
  end.

(** [str.lower()] on ASCII text. *)
Definition lower_ascii (c : ascii) : ascii :=
  let n := nat_of_ascii c in
  if ((65 <=? n) && (n <=? 90))%nat then ascii_of_nat (n + 32) else c.

Fixpoint lower (s : string) : string :=
  match s with
  | EmptyString => EmptyString
  | String c s' => String (lower_ascii c) (lower s')
  end.

(** Whether a string is written in ASCII: there [lower] is
    [str.lower()]. *)
Definition ascii_only (s : string) : bool :=
  forallb (fun c => (nat_of_ascii c <? 128)%nat) (list_ascii_of_string s).

(** [str(n)] for an int. *)
Definition str (n : Z) : string := NilZero.string_of_int (Z.to_int n).

(** [x in codes] for a tuple of strings. *)
Definition str_in (x : string) (codes : list string) : bool :=
  existsb (String.eqb x) codes.

(* ===================================================================== *)
(** ** Calls to the collaborators *)
(* ===================================================================== *)

Variant level : Type := info | warn | error.

(** What [time.sleep] does: it returns, or the user's Ctrl-c raises
    [KeyboardInterrupt] in it. *)
Variant sleep_result : Type := Woke | Interrupted.

Variant exn : Type := KeyboardInterrupt.

(** How [main] ends: it returns an exit code or an exception leaves it. *)
Variant completion : Type :=
| Returned (code : Z)
| Raised (e : exn).

(** The calls that [main] makes, each with the type of its answer:
    - [MLBConfig]: [config.CONFIG = config.MLBConfig()];
    - [init_logging]: [util.init_logging(...)];
    - [GameData]: [mlb_gamedata = gamedata.GameData()];
    - [config_set key value]: [config.CONFIG.parser[key] = value];
    - [LOG l msg]: [LOG.info], [LOG.warn], [LOG.error];
    - [today_plus_days d]:
      [datetime.strftime(datetime.today() + timedelta(days=d), "%Y-%m-%d")];
    - [print s]: [print(s, end='', flush=True)];
    - [sleep secs]: [time.sleep(secs)];
    - the others are the functions of the same name of [mlbam.gamedata],
      [mlbam.standings], [mlbam.stream] and [mlbam.util]. *)
Variant mlbvE : Type -> Type :=
| MLBConfig : mlbvE unit
| init_logging : mlbvE unit
| GameData : mlbvE unit
| config_set (key value : string) : mlbvE unit
| LOG (l : level) (msg : string) : mlbvE unit
| convert_to_long_feedtype (f : string) : mlbvE string
| today_plus_days (delta : Z) : mlbvE string
| get_standings (category date : string) : mlbvE unit
| retrieve_and_display_game_data (date : string) (days : Z) (show : bool)
    : mlbvE (list GameDay)
| get_game_rec (gd : GameDay) (team_to_play game_number_str : string)
    : mlbvE GameRecord
| has_reached_time (t : Z) : mlbvE bool
| convert_time_to_local (t : Z) : mlbvE string
| print (s : string) : mlbvE unit
| sleep (secs : Z) : mlbvE sleep_result
| play_stream (rec : GameRecord) (team_to_play : string)
    (feedtype : option string) (date : string)
    (fetch from_start : bool) (inning : option string) : mlbvE Z.

Notation "'call' e" := (ITree.trigger e) (at level 10, e at level 9).

(* ===================================================================== *)
(** ** [main] *)
(* ===================================================================== *)

Definition when (b : bool) (t : itree mlbvE unit) : itree mlbvE unit :=
  if b then t else Ret tt.

Definition when_some {A} (o : option A) (f : A -> itree mlbvE unit)
  : itree mlbvE unit :=
  match o with Some x => f x | None => Ret tt end.

Section Main.

(** [gamedata.TEAM_CODES], defined outside this file. *)
Variable TEAM_CODES : list string.

(** Lines 115-119. *)
Definition read_team (a : args.t) : itree mlbvE (option string) :=
  match truthy_str (args.team a) with
  | Some t =>
      let team_to_play := lower t in
      when (negb (str_in team_to_play TEAM_CODES))
           (call (LOG warn ("Unexpected team code: " ++ team_to_play)%string)) ;;
      Ret (Some team_to_play)
  | None => Ret None
  end.

(** Lines 120-121. *)
Definition read_feed (a : args.t) : itree mlbvE (option string) :=
  match truthy_str (args.feed a) with
  | Some f =>
      l <- call (convert_to_long_feedtype (lower f)) ;; Ret (Some l)
  | None => Ret None
  end.

(** Lines 135-140. *)
Definition read_date (a : args.t) : itree mlbvE string :=
  if args.yesterday a then call (today_plus_days (-1))
  else if args.tomorrow a then call (today_plus_days 1)
  else match args.date a with
       | None => call (today_plus_days 0)
       | Some d => Ret d
       end.

(** One turn of the loop of lines 166-170, from the test of its
    condition; [inl] goes round again with the new [count]. *)
Definition poll (start : Z) (count : Z)
  : itree mlbvE (Z + option exn) :=
  reached <- call (has_reached_time start) ;;
  if reached : bool then Ret (inr None)
  else
    s <- call (sleep 10) ;;
    match s with
    | Interrupted => Ret (inr (Some KeyboardInterrupt))
    | Woke =>
        let count := count + 1 in
        when (count mod 6 =? 0)%Z (call (print ".")) ;;
        Ret (inl count)
    end.

(** Lines 163-181: the wait and the refresh.  [inl] leaves [main] (a
    [return] or an exception), [inr] is the value of [game_rec] at
    line 183. *)
Definition wait_for_start (a : args.t) (team_to_play : string)
    (date : string) (game_rec : GameRecord)
  : itree mlbvE (completion + GameRecord) :=
  local <- call (convert_time_to_local (mlbdate game_rec)) ;;
  call (LOG info
          ("Waiting for game to start. Local start time is " ++ local)%string) ;;
  call (print "Use Ctrl-c to quit .") ;;
  interrupted <- ITree.iter (poll (mlbdate game_rec)) 0 ;;
  match interrupted with
  | Some e => Ret (inl (Raised e))
  | None =>
      call (LOG info "Game time. Refreshing game data after wait...") ;;
      game_data_list <- call (retrieve_and_display_game_data date 1 false) ;;
      match game_data_list with
      | game_data :: _ =>
          game_rec <- call (get_game_rec game_data team_to_play (args.game a)) ;;
          Ret (inr game_rec)
      | [] =>
          call (LOG error
                  "Unexpected error: no game data found after refresh on wait") ;;
          Ret (inl (Returned 0))
      end
  end.

(** Lines 160-183. *)
Definition select_and_play (a : args.t) (team_to_play : string)
    (feedtype : option string) (date : string) (game_data : GameDay)
  : itree mlbvE completion :=
  game_rec <- call (get_game_rec game_data team_to_play (args.game a)) ;;
  waiting <- (if args.wait a
              then reached <- call (has_reached_time (mlbdate game_rec)) ;;
                   Ret (negb reached)
              else Ret false) ;;
  after <- (if waiting : bool
            then wait_for_start a team_to_play date game_rec
            else Ret (inr game_rec)) ;;
  match after with
  | inl c => Ret c
  | inr game_rec =>
      code <- call (play_stream game_rec team_to_play feedtype date
                      (args.fetch a) (args.from_start a) (args.inning a)) ;;
      Ret (Returned code)
  end.

(** Lines 94-133: the configuration, the team and the feed. *)
Definition read_options (a : args.t)
  : itree mlbvE (option string * option string) :=
  call MLBConfig ;;
  call init_logging ;;
  call GameData ;;
  when (args.debug a) (call (config_set "debug" "true")) ;;
  when (args.verbose a) (call (config_set "verbose" "true")) ;;
  when_some (truthy_str (args.username a))
    (fun u => call (config_set "username" u)) ;;
  when_some (truthy_str (args.password a))
    (fun p => call (config_set "password" p)) ;;
  when_some (truthy_int (args.inning_offset a))
    (fun n => call (config_set "stream_start_offset_secs" (str n))) ;;
  team_to_play <- read_team a ;;
  feedtype <- read_feed a ;;
  when_some (truthy_str (args.resolution a))
    (fun r => call (config_set "resolution" r)) ;;
  (if args.scores a then call (config_set "scores" "true")
   else when (args.no_scores a) (call (config_set "scores" "false"))) ;;
  when (args.linescore a) (call (config_set "linescore" "true")) ;;
  when_some (truthy_str (args.favs a))
    (fun f => call (config_set "favs" f)) ;;
  when (args.filter a) (call (config_set "filter" "true")) ;;
  Ret (team_to_play, feedtype).

(** Lines 142-183. *)
Definition run_games (a : args.t) (team_to_play feedtype : option string)
    (date : string) : itree mlbvE completion :=
  match truthy_str (args.standings a) with
  | Some category =>
      call (get_standings category date) ;;
      Ret (Returned 0)
  | None =>
      game_data_list <-
        call (retrieve_and_display_game_data date (args.days a)
                (match team_to_play with None => true | Some _ => false end)) ;;
      match team_to_play with
      | None => Ret (Returned 0)
      | Some team_to_play =>
          match game_data_list with
          | game_data :: _ =>
              select_and_play a team_to_play feedtype date game_data
          | [] => Ret (Returned 0)
          end
      end
  end.

Definition main (a : args.t) : itree mlbvE completion :=
  '(team_to_play, feedtype) <- read_options a ;;
  date <- read_date a ;;
  run_games a team_to_play feedtype date.

End Main.

(* ===================================================================== *)
(** ** Runs *)
(* ===================================================================== *)

(** A call together with what the collaborator answered. *)
Inductive obs : Type :=
| Obs : forall T, mlbvE T -> T -> obs.

Definition trace : Type := list obs.

(** [runs t tr r]: [t] makes the calls of [tr], in this order and with
    these answers, and ends with [r]. *)
Inductive runs {R : Type} : itree mlbvE R -> trace -> R -> Prop :=
| runs_ret t r :
    observe t = RetF r -> runs t [] r
| runs_tau t t' tr r :
    observe t = TauF t' -> runs t' tr r -> runs t tr r
| runs_vis t T (e : mlbvE T) k x tr r :
    observe t = VisF e k -> runs (k x) tr r -> runs t (Obs e x :: tr) r.

(* ===================================================================== *)
(** ** A simulated world *)
(* ===================================================================== *)

(** The collaborators against a simulated clock.  Time passes in
    [time.sleep] only; [sigint] is the time at which the user presses
    Ctrl-c, if ever.  [catalog t date days] is what the catalog answers at
    time [t]; the other fields are the functions that answer the calls of
    the same kind. *)
Record World : Type := mkWorld {
  now : Z;
  sigint : option Z;
  catalog : Z -> string -> Z -> list GameDay;
  selector : GameDay -> string -> string -> GameRecord;
  player : GameRecord -> string -> option string -> string ->
           bool -> bool -> option string -> Z;
  long_feedtype : string -> string;
  calendar : Z -> string;
  local_time : Z -> string
}.

Definition at_time (w : World) (t : Z) (s : option Z) : World :=
  mkWorld t s (catalog w) (selector w) (player w) (long_feedtype w)
          (calendar w) (local_time w).

(** Modelled from the spec: [util.has_reached_time] (not part of this
    file), "has current time reached scheduledStart". *)
Definition reached (start : Z) (w : World) : bool := start <=? now w.

(** [time.sleep secs] in the simulated world: Ctrl-c before the end of the
    sleep interrupts it, otherwise [secs] seconds pass. *)
Definition sleep_in (secs : Z) (w : World) : sleep_result * World :=
  match sigint w with
  | Some s =>
      if s <? now w + secs
      then (Interrupted, at_time w (Z.max (now w) s) None)
      else (Woke, at_time w (now w + secs) (sigint w))
  | None => (Woke, at_time w (now w + secs) None)
  end.

Definition answer {T} (e : mlbvE T) (w : World) : T * World :=
  match e in mlbvE T return T * World with
  | MLBConfig => (tt, w)
  | init_logging => (tt, w)
  | GameData => (tt, w)
  | config_set _ _ => (tt, w)
  | LOG _ _ => (tt, w)
  | convert_to_long_feedtype f => (long_feedtype w f, w)
  | today_plus_days d => (calendar w d, w)
  | get_standings _ _ => (tt, w)
  | retrieve_and_display_game_data d n _ => (catalog w (now w) d n, w)
  | get_game_rec gd t g => (selector w gd t g, w)
  | has_reached_time t => (reached t w, w)
  | convert_time_to_local t => (local_time w t, w)
  | print _ => (tt, w)
  | sleep secs => sleep_in secs w
  | play_stream r t f d fe fs i => (player w r t f d fe fs i, w)
  end.

(** [exec fuel t w]: run [t] in [w] for at most [fuel] steps. *)
Fixpoint exec {R} (fuel : nat) (t : itree mlbvE R) (w : World)
  : option (R * trace * World) :=
  match fuel with
  | O => None
  | S fuel =>
      match observe t with
      | RetF r => Some (r, [], w)
      | TauF t' => exec fuel t' w
      | VisF e k =>
          let (x, w') := answer e w in
          match exec fuel (k x) w' with
          | Some (r, tr, w'') => Some (r, Obs e x :: tr, w'')
          | None => None
          end
      end
  end.

(** The calls and the result of [t] in [w], when [fuel] steps are enough. *)
Definition trace_in {R} (fuel : nat) (w : World) (t : itree mlbvE R) : trace :=
  match exec fuel t w with
  | Some (_, tr, _) => tr
  | None => []
  end.

Definition result_in {R} (fuel : nat) (w : World) (t : itree mlbvE R)
  : option R :=
  match exec fuel t w with
  | Some (r, _, _) => Some r
  | None => None
  end.

(** [answers w tr w']: the answers of [tr] are those of the world [w],
    which the calls leave as [w']. *)
Fixpoint answers (w : World) (tr : trace) (w' : World) : Prop :=
  match tr with
  | [] => w' = w
  | Obs e x :: tr => x = fst (answer e w) /\ answers (snd (answer e w)) tr w'
  end.

(** Projections of a trace: the calls of one kind, in order, each with its
    arguments and its answer. *)
Fixpoint collect {A} (f : obs -> option A) (tr : trace) : list A :=
  match tr with
  | [] => []
  | o :: tr => match f o with
               | Some x => x :: collect f tr
               | None => collect f tr
               end
  end.

Definition fetch_of (o : obs) : option (string * Z * bool * list GameDay) :=
  match o with
  | Obs e x =>
      match e in mlbvE T return T -> option _ with
      | retrieve_and_display_game_data d n s => fun x => Some (d, n, s, x)
      | _ => fun _ => None
      end x
  end.

Definition select_of (o : obs)
  : option (GameDay * string * string * GameRecord) :=
  match o with
  | Obs e x =>
      match e in mlbvE T return T -> option _ with
      | get_game_rec gd t g => fun x => Some (gd, t, g, x)
      | _ => fun _ => None
      end x
  end.

Definition play_of (o : obs)
  : option (GameRecord * string * option string * string) :=
  match o with
  | Obs (play_stream r t f d _ _ _) _ => Some (r, t, f, d)
  | _ => None
  end.

Definition sleep_of (o : obs) : option (Z * sleep_result) :=
  match o with
  | Obs e x =>
      match e in mlbvE T return T -> option _ with
      | sleep secs => fun x => Some (secs, x)
      | _ => fun _ => None
      end x
  end.

Definition check_of (o : obs) : option (Z * bool) :=
  match o with
  | Obs e x =>
      match e in mlbvE T return T -> option _ with
      | has_reached_time t => fun x => Some (t, x)
      | _ => fun _ => None
      end x
  end.

Definition standings_of (o : obs) : option (string * string) :=
  match o with
  | Obs (get_standings c d) _ => Some (c, d)
  | _ => None
  end.

Definition log_of (o : obs) : option (level * string) :=
  match o with
  | Obs (LOG l m) _ => Some (l, m)
  | _ => None
  end.

Definition print_of (o : obs) : option string :=
  match o with
  | Obs (print s) _ => Some s
  | _ => None
  end.

(** A run in a world: the calls of [tr] are answered by [w]. *)
Definition runs_in {R} (w : World) (t : itree mlbvE R) (tr : trace) (r : R)
    (w' : World) : Prop :=
  runs t tr r /\ answers w tr w'.

(* ===================================================================== *)
(** ** The calls of the polling loop *)
(* ===================================================================== *)

(** The calls of one completed turn of the loop of lines 166-170, entered
    with the counter at [count]. *)
Definition turn (start count : Z) : trace :=
  [Obs (has_reached_time start) false; Obs (sleep 10) Woke] ++
  (if (count + 1) mod 6 =? 0 then [Obs (print ".") tt] else []).

(** [n] completed turns in a row. *)
Fixpoint turns (start count : Z) (n : nat) : trace :=
  match n with
  | O => []
  | S n => turn start count ++ turns start (count + 1) n
  end.

(** How the loop is left: the start is reached, or Ctrl-c ends a sleep. *)
Definition leave (start : Z) (e : option exn) : trace :=
  match e with
  | None => [Obs (has_reached_time start) true]
  | Some _ => [Obs (has_reached_time start) false; Obs (sleep 10) Interrupted]
  end.

(** The number of sleeps of 10 that take the clock from [t] to [start]. *)
Definition polls_needed (start t : Z) : nat := Z.to_nat ((start - t + 9) / 10).

(** What the options evaluate to in a world. *)
Definition team_of (a : args.t) : option string :=
  option_map lower (truthy_str (args.team a)).

Definition feed_in (w : World) (a : args.t) : option string :=
  option_map (fun f => long_feedtype w (lower f)) (truthy_str (args.feed a)).

Definition date_in (w : World) (a : args.t) : string :=
  if args.yesterday a then calendar w (-1)
  else if args.tomorrow a then calendar w 1
  else match args.date a with
       | None => calendar w 0
       | Some d => d
       end.

(** The calls of lines 94-140: configuration, logging, the feed name and
    today's date. *)
Definition is_setup (o : obs) : bool :=
  match o with
  | Obs MLBConfig _ | Obs init_logging _ | Obs GameData _
  | Obs (config_set _ _) _ | Obs (LOG warn _) _
  | Obs (convert_to_long_feedtype _) _ | Obs (today_plus_days _) _ => true
  | _ => false
  end.

(* ===================================================================== *)
(** ** The calls of [main] *)
(* ===================================================================== *)

Section Calls.

Variable TEAM_CODES : list string.
Variable a : args.t.

(** The warning of line 119. *)
Definition warning : trace :=
  match team_of a with
  | Some t =>
      if str_in t TEAM_CODES then []
      else [Obs (LOG warn ("Unexpected team code: " ++ t)%string) tt]
  | None => []
  end.

(** The call of line 183. *)
Definition play (team_to_play : string) (feedtype : option string)
    (date : string) (game_rec : GameRecord) (code : Z) : obs :=
  Obs (play_stream game_rec team_to_play feedtype date
         (args.fetch a) (args.from_start a) (args.inning a)) code.

(** The calls of lines 163-170: the announcement, [n] completed turns of
    the loop and the way out. *)
Definition waiting (start : Z) (local : string) (n : nat) (e : option exn)
  : trace :=
  [Obs (convert_time_to_local start) local;
   Obs (LOG info
          ("Waiting for game to start. Local start time is " ++ local)%string) tt;
   Obs (print "Use Ctrl-c to quit .") tt] ++
  turns start 0 n ++ leave start e.

(** The calls of lines 173-174. *)
Definition refresh (date : string) (game_data_list : list GameDay) : trace :=
  [Obs (LOG info "Game time. Refreshing game data after wait...") tt;
   Obs (retrieve_and_display_game_data date 1 false) game_data_list].

(** The runs of lines 160-183, case by case. *)
Inductive play_run (team_to_play : string) (feedtype : option string)
    (date : string) (game_data : GameDay) : trace -> completion -> Prop :=
| play_no_wait game_rec code :
    args.wait a = false ->
    play_run team_to_play feedtype date game_data
      [Obs (get_game_rec game_data team_to_play (args.game a)) game_rec;
       play team_to_play feedtype date game_rec code]
      (Returned code)
| play_started game_rec code :
    args.wait a = true ->
    play_run team_to_play feedtype date game_data
      [Obs (get_game_rec game_data team_to_play (args.game a)) game_rec;
       Obs (has_reached_time (mlbdate game_rec)) true;
       play team_to_play feedtype date game_rec code]
      (Returned code)
| play_interrupted game_rec local n e :
    args.wait a = true ->
    play_run team_to_play feedtype date game_data
      ([Obs (get_game_rec game_data team_to_play (args.game a)) game_rec;
        Obs (has_reached_time (mlbdate game_rec)) false] ++
       waiting (mlbdate game_rec) local n (Some e))
      (Raised e)
| play_refresh_empty game_rec local n :
    args.wait a = true ->
    play_run team_to_play feedtype date game_data
      ([Obs (get_game_rec game_data team_to_play (args.game a)) game_rec;
        Obs (has_reached_time (mlbdate game_rec)) false] ++
       waiting (mlbdate game_rec) local n None ++
       refresh date [] ++
       [Obs (LOG error
               "Unexpected error: no game data found after refresh on wait") tt])
      (Returned 0)
| play_refreshed game_rec local n game_data' rest game_rec' code :
    args.wait a = true ->
    play_run team_to_play feedtype date game_data
      ([Obs (get_game_rec game_data team_to_play (args.game a)) game_rec;
        Obs (has_reached_time (mlbdate game_rec)) false] ++
       waiting (mlbdate game_rec) local n None ++
       refresh date (game_data' :: rest) ++
       [Obs (get_game_rec game_data' team_to_play (args.game a)) game_rec';
        play team_to_play feedtype date game_rec' code])
      (Returned code).

(** The runs of lines 142-183, case by case. *)
Inductive games_run (team_to_play feedtype : option string) (date : string)
  : trace -> completion -> Prop :=
| games_standings category :
    truthy_str (args.standings a) = Some category ->
    games_run team_to_play feedtype date
      [Obs (get_standings category date) tt] (Returned 0)
| games_no_team game_data_list :
    truthy_str (args.standings a) = None ->
    team_to_play = None ->
    games_run team_to_play feedtype date
      [Obs (retrieve_and_display_game_data date (args.days a) true)
           game_data_list]
      (Returned 0)
| games_none t :
    truthy_str (args.standings a) = None ->
    team_to_play = Some t ->
    games_run team_to_play feedtype date
      [Obs (retrieve_and_display_game_data date (args.days a) false) []]
      (Returned 0)
| games_play t game_data rest tr r :
    truthy_str (args.standings a) = None ->
    team_to_play = Some t ->
    play_run t feedtype date game_data tr r ->
    games_run team_to_play feedtype date
      (Obs (retrieve_and_display_game_data date (args.days a) false)
           (game_data :: rest) :: tr)
      r.

(** The runs of [main]: the calls of lines 94-140, then those of lines
    142-183. *)
Inductive main_run : trace -> completion -> Prop :=
| main_run_intro pre1 pre2 feedtype date tr r :
    runs (read_options TEAM_CODES a) pre1 (team_of a, feedtype) ->
    runs (read_date a) pre2 date ->
    Forall (fun o => is_setup o = true) (pre1 ++ pre2) ->
    games_run (team_of a) feedtype date tr r ->
    main_run ((pre1 ++ pre2) ++ tr) r.

End Calls.

(* ===================================================================== *)
(** ** What lines 142-183 come to in a world without Ctrl-c *)
(* ===================================================================== *)

Section Plan.

Variable a : args.t.
Variable w : World.

(** Lines 172-183 in the world [w1] that the wait has led to. *)
Definition after_wait (w1 : World) (team : string) : trace * completion :=
  let date := date_in w a in
  let feedtype := feed_in w a in
  let game_data_list := catalog w1 (now w1) date 1 in
  match game_data_list with
  | [] =>
      (refresh date [] ++
       [Obs (LOG error
               "Unexpected error: no game data found after refresh on wait") tt],
       Returned 0)
  | game_data :: _ =>
      let game_rec := selector w1 game_data team (args.game a) in
      let code := player w1 game_rec team feedtype date
                    (args.fetch a) (args.from_start a) (args.inning a) in
      (refresh date game_data_list ++
       [Obs (get_game_rec game_data team (args.game a)) game_rec;
        play a team feedtype date game_rec code],
       Returned code)
  end.

(** Lines 160-183. *)
Definition plan_play (team : string) (game_data : GameDay)
  : trace * completion * World :=
  let date := date_in w a in
  let feedtype := feed_in w a in
  let game_rec := selector w game_data team (args.game a) in
  let start := mlbdate game_rec in
  let select := Obs (get_game_rec game_data team (args.game a)) game_rec in
  if args.wait a && negb (reached start w) then
    let n := polls_needed start (now w) in
    let w1 := at_time w (now w + 10 * Z.of_nat n) None in
    (([select; Obs (has_reached_time start) false] ++
      waiting start (local_time w start) n None ++
      fst (after_wait w1 team)),
     snd (after_wait w1 team), w1)
  else
    let code := player w game_rec team feedtype date
                  (args.fetch a) (args.from_start a) (args.inning a) in
    (select ::
     (if args.wait a then [Obs (has_reached_time start) true] else []) ++
     [play a team feedtype date game_rec code],
     Returned code, w).

(** Lines 142-183. *)
Definition plan : trace * completion * World :=
  let date := date_in w a in
  match truthy_str (args.standings a) with
  | Some category => ([Obs (get_standings category date) tt], Returned 0, w)
  | None =>
      let game_data_list := catalog w (now w) date (args.days a) in
      let fetch :=
        Obs (retrieve_and_display_game_data date (args.days a)
               (match team_of a with None => true | Some _ => false end))
            game_data_list in
      match team_of a, game_data_list with
      | Some team, game_data :: _ =>
          (fetch :: fst (fst (plan_play team game_data)),
           snd (fst (plan_play team game_data)),
           snd (plan_play team game_data))
      | _, _ => ([fetch], Returned 0, w)
      end
  end.

(** Whether lines 163-181, the wait and the refresh, are entered. *)
Definition waits : bool :=
  match truthy_str (args.standings a), team_of a,
        catalog w (now w) (date_in w a) (args.days a) with
  | None, Some team, game_data :: _ =>
      args.wait a &&
      negb (reached (mlbdate (selector w game_data team (args.game a))) w)
  | _, _, _ => false
  end.

End Plan.

(** [quiet w t x]: in [w], [t] ends with [x] after setup calls only. *)
Definition quiet {R} (w : World) (t : itree mlbvE R) (x : R) : Prop :=
  exists tr, runs_in w t tr x w /\ Forall (fun o => is_setup o = true) tr.

(* ===================================================================== *)
(** ** Sample invocations *)
(* ===================================================================== *)

Module Sample.

Definition codes : list string := ["bos"; "nyy"; "tor"].

Definition game (start : Z) : GameRecord :=
  mkGameRecord "bos" "nyy" "1" start "Preview" [("HOME", "a1"); ("AWAY", "a2")].

Definition other (start : Z) : GameRecord :=
  mkGameRecord "tor" "bos" "1" start "Preview" [("HOME", "b1")].

Definition with_team (t : string) (wait : bool) (days : Z) : args.t :=
  args.mk (Some "2018-06-01") None None false days false false (Some t)
          None None false "1" None false false false None None false wait
          None false false.

Definition with_standings (c : string) : args.t :=
  args.mk (Some "2018-06-01") None None false 1 false false (Some "BOS")
          None None false "1" None false false false None None false true
          (Some c) false false.

(** A world in which the catalog has the game of the given start on the
    first day and another game on the day after, the selector takes the
    first record of the day and the player returns 0. *)
Definition world (t : Z) (s : option Z) (start : Z) : World :=
  mkWorld t s
    (fun _ _ days =>
       if days =? 1 then [[game start]]
       else [[game start]; [other (start + 86400)]])
    (fun gd _ _ => hd (game 0) gd)
    (fun _ _ _ _ _ _ _ => 0)
    (fun f => f)
    (fun _ => "2018-06-01")
    (fun _ => "19:05").

(** A world whose catalog empties at time [t0]. *)
Definition vanishing_world (t t0 start : Z) : World :=
  mkWorld t None
    (fun now _ _ => if now <? t0 then [[game start]] else [])
    (fun gd _ _ => hd (game 0) gd)
    (fun _ _ _ _ _ _ _ => 0) (fun f => f) (fun _ => "2018-06-01")
    (fun _ => "19:05").

End Sample.

(* ===================================================================== *)
(** ** More projections, and arguments that [main] cannot tell apart *)
(* ===================================================================== *)

(** The configuration writes [config.CONFIG.parser[key] = value]. *)
Definition config_of (o : obs) : option (string * string) :=
  match o with
  | Obs (config_set k v) _ => Some (k, v)
  | _ => None
  end.

(** The date given to [get_standings], to
    [retrieve_and_display_game_data] and to [play_stream]. *)
Definition date_of (o : obs) : option string :=
  match o with
  | Obs (get_standings _ d) _ => Some d
  | Obs (retrieve_and_display_game_data d _ _) _ => Some d
  | Obs (play_stream _ _ _ d _ _ _) _ => Some d
  | _ => None
  end.

(** The readings of today's date, each with its offset in days. *)
Definition today_of (o : obs) : option Z :=
  match o with
  | Obs (today_plus_days d) _ => Some d
  | _ => None
  end.

(** The conversions of the feed name, each with its answer. *)
Definition feed_conv_of (o : obs) : option (string * string) :=
  match o with
  | Obs e x =>
      match e in mlbvE T return T -> option _ with
      | convert_to_long_feedtype f => fun x => Some (f, x)
      | _ => fun _ => None
      end x
  end.

(** The calls of [play_stream], each with all its arguments and its
    answer. *)
Definition play_call_of (o : obs)
  : option (GameRecord * string * option string * string *
            (bool * bool * option string) * Z) :=
  match o with
  | Obs e x =>
      match e in mlbvE T return T -> option _ with
      | play_stream r t f d fe fs i => fun x => Some (r, t, f, d, (fe, fs, i), x)
      | _ => fun _ => None
      end x
  end.

(** The conversions of a start time to local time, each with its
    answer. *)
Definition local_of (o : obs) : option (Z * string) :=
  match o with
  | Obs e x =>
      match e in mlbvE T return T -> option _ with
      | convert_time_to_local t => fun x => Some (t, x)
      | _ => fun _ => None
      end x
  end.

(** The messages logged at level [warn]. *)
Definition warn_of (o : obs) : option string :=
  match o with
  | Obs (LOG warn m) _ => Some m
  | _ => None
  end.

(** The messages logged at level [info]. *)
Definition info_of (o : obs) : option string :=
  match o with
  | Obs (LOG info m) _ => Some m
  | _ => None
  end.

(** The calls after the setup: standings, catalog, selection, clock,
    output, playing, and the log messages of lines 163-178. *)
Definition is_work (o : obs) : bool :=
  match o with
  | Obs (get_standings _ _) _
  | Obs (retrieve_and_display_game_data _ _ _) _
  | Obs (get_game_rec _ _ _) _
  | Obs (has_reached_time _) _
  | Obs (convert_time_to_local _) _
  | Obs (print _) _
  | Obs (sleep _) _
  | Obs (play_stream _ _ _ _ _ _ _) _
  | Obs (LOG info _) _
  | Obs (LOG error _) _ => true
  | _ => false
  end.

(** The calls of lines 94-114 and 122-133: the configuration, the logging
    and the catalog are made, and the configuration is written. *)
Definition is_config (o : obs) : bool :=
  match o with
  | Obs MLBConfig _ | Obs init_logging _ | Obs GameData _
  | Obs (config_set _ _) _ => true
  | _ => false
  end.

(** The calls of the loop of lines 166-170. *)
Definition is_poll (o : obs) : bool :=
  match o with
  | Obs (has_reached_time _) _ | Obs (sleep _) _ | Obs (print _) _ => true
  | _ => false
  end.

(** What lines 105-133 write to the configuration, in this order. *)
Definition config_plan (a : args.t) : list (string * string) :=
  (if args.debug a then [("debug", "true")] else []) ++
  (if args.verbose a then [("verbose", "true")] else []) ++
  match truthy_str (args.username a) with
  | Some u => [("username", u)] | None => []
  end ++
  match truthy_str (args.password a) with
  | Some p => [("password", p)] | None => []
  end ++
  match truthy_int (args.inning_offset a) with
  | Some n => [("stream_start_offset_secs", str n)] | None => []
  end ++
  match truthy_str (args.resolution a) with
  | Some r => [("resolution", r)] | None => []
  end ++
  (if args.scores a then [("scores", "true")]
   else if args.no_scores a then [("scores", "false")] else []) ++
  (if args.linescore a then [("linescore", "true")] else []) ++
  match truthy_str (args.favs a) with
  | Some f => [("favs", f)] | None => []
  end ++
  (if args.filter a then [("filter", "true")] else []).

(** Whether the strings of a list are all different. *)
Fixpoint distinct (l : list string) : bool :=
  match l with
  | [] => true
  | x :: l => negb (existsb (String.eqb x) l) && distinct l
  end.

(** The arguments with every option that Python takes as false (an empty
    string, an offset of 0) replaced by [None]. *)
Definition without_empty (a : args.t) : args.t :=
  args.mk (args.date a) (args.inning a) (truthy_int (args.inning_offset a))
          (args.from_start a) (args.days a) (args.tomorrow a)
          (args.yesterday a) (truthy_str (args.team a))
          (truthy_str (args.feed a)) (truthy_str (args.favs a))
          (args.filter a) (args.game a) (truthy_str (args.resolution a))
          (args.scores a) (args.no_scores a) (args.linescore a)
          (truthy_str (args.username a)) (truthy_str (args.password a))
          (args.fetch a) (args.wait a) (truthy_str (args.standings a))
          (args.verbose a) (args.debug a).

(** The arguments with the team and the feed in lower case. *)
Definition in_lower_case (a : args.t) : args.t :=
  args.mk (args.date a) (args.inning a) (args.inning_offset a)
          (args.from_start a) (args.days a) (args.tomorrow a)
          (args.yesterday a) (option_map lower (args.team a))
          (option_map lower (args.feed a)) (args.favs a)
          (args.filter a) (args.game a) (args.resolution a)
          (args.scores a) (args.no_scores a) (args.linescore a)
          (args.username a) (args.password a)
          (args.fetch a) (args.wait a) (args.standings a)
          (args.verbose a) (args.debug a).

(** The arguments with the flags and the date that lines 124-127 and
    135-140 do not look at switched off: [--no-scores] under [--scores],
    [--tomorrow] under [--yesterday], [--date] under either. *)
Definition without_overridden (a : args.t) : args.t :=
  args.mk (if args.yesterday a || args.tomorrow a then None else args.date a)
          (args.inning a) (args.inning_offset a)
          (args.from_start a) (args.days a)
          (args.tomorrow a && negb (args.yesterday a))
          (args.yesterday a) (args.team a) (args.feed a) (args.favs a)
          (args.filter a) (args.game a) (args.resolution a)
          (args.scores a) (args.no_scores a && negb (args.scores a))
          (args.linescore a) (args.username a) (args.password a)
          (args.fetch a) (args.wait a) (args.standings a)
          (args.verbose a) (args.debug a).

(* ===================================================================== *)
(** ** Runs of the combinators *)
(* ===================================================================== *)

Lemma runs_observe {R} (t u : itree mlbvE R) tr r :
  observe t = observe u -> runs t tr r -> runs u tr r.
Proof.
  intros E H. destruct H.
  - apply runs_ret. congruence.
  - eapply runs_tau; [|eassumption]. congruence.
  - eapply runs_vis; [|eassumption]. rewrite <- E. eassumption.
Qed.

Lemma runs_Ret_inv {R} (x : R) tr r :
  runs (Ret x) tr r -> tr = [] /\ r = x.
Proof.
  intros H. inversion H; subst; cbn in *; try discriminate.
  split; congruence.
Qed.

Lemma runs_Vis_inv {R T} (e : mlbvE T) (k : T -> itree mlbvE R) tr r :
  runs (Vis e k) tr r ->
  exists x tr', tr = Obs e x :: tr' /\ runs (k x) tr' r.
Proof.
  intros H. remember (Vis e k) as u eqn:Eu.
  destruct H as [u r Hu | u u' tr r Hu H | u T' e' k' x tr r Hu H];
    subst u; cbn in Hu; try discriminate.
  inv_Vis. eauto.
Qed.

Lemma runs_call_inv {T} (e : mlbvE T) tr r :
  runs (call e) tr r -> tr = [Obs e r].
Proof.
  intros H. apply runs_Vis_inv in H. destruct H as (x & tr' & -> & H).
  apply runs_Ret_inv in H. destruct H; subst. reflexivity.
Qed.

Lemma runs_call {T} (e : mlbvE T) (x : T) : runs (call e) [Obs e x] x.
Proof.
  eapply runs_vis; [reflexivity|]. apply runs_ret. reflexivity.
Qed.

Lemma runs_bind_inv {R S} (t : itree mlbvE R) (k : R -> itree mlbvE S) tr s :
  runs (ITree.bind t k) tr s ->
  exists tr1 x tr2, runs t tr1 x /\ runs (k x) tr2 s /\ tr = tr1 ++ tr2.
Proof.
  intros H. remember (ITree.bind t k) as u eqn:Eu.
  assert (E : observe u = observe (ITree.bind t k)) by (subst; reflexivity).
  clear Eu. revert t E.
  induction H as [u r Hu | u u' tr r Hu H IH | u T e ku x tr r Hu H IH];
    intros t E; rewrite observe_bind in E;
    destruct (observe t) as [x0 | t0 | X e0 k0] eqn:Et; cbn in E.
  - exists [], x0, []. repeat split.
    + apply runs_ret; assumption.
    + apply runs_ret. congruence.
  - congruence.
  - congruence.
  - exists [], x0, tr. repeat split.
    + apply runs_ret; assumption.
    + eapply runs_tau; [|eassumption]. congruence.
  - rewrite Hu in E. injection E as ->.
    destruct (IH t0 eq_refl) as (tr1 & y & tr2 & H1 & H2 & ->).
    exists tr1, y, tr2. repeat split; auto.
    eapply runs_tau; eassumption.
  - congruence.
  - exists [], x0, (Obs e x :: tr). repeat split.
    + apply runs_ret; assumption.
    + eapply runs_vis; [|eassumption]. congruence.
  - congruence.
  - rewrite Hu in E. apply eq_inv_VisF_weak in E.
    destruct E as (p & Ee & Ek). destruct p. cbn in Ee, Ek. subst e0 ku.
    destruct (IH (k0 x) eq_refl) as (tr1 & y & tr2 & H1 & H2 & ->).
    exists (Obs e x :: tr1), y, tr2. repeat split; auto.
    eapply runs_vis; eassumption.
Qed.

Lemma runs_bind {R S} (t : itree mlbvE R) (k : R -> itree mlbvE S)
      tr1 x tr2 s :
  runs t tr1 x -> runs (k x) tr2 s -> runs (ITree.bind t k) (tr1 ++ tr2) s.
Proof.
  intros H1 H2.
  induction H1 as [t r Ht | t t' tr r Ht H IH | t T e kt y tr r Ht H IH].
  - eapply runs_observe; [|exact H2].
    rewrite observe_bind, Ht. reflexivity.
  - eapply runs_tau; [|apply IH, H2].
    rewrite observe_bind, Ht. reflexivity.
  - cbn. eapply runs_vis with (k := fun v => ITree.bind (kt v) k);
      [|apply IH, H2].
    rewrite observe_bind, Ht. reflexivity.
Qed.

Lemma runs_call_bind {T S} (e : mlbvE T) (k : T -> itree mlbvE S) x tr s :
  runs (k x) tr s -> runs (ITree.bind (call e) k) (Obs e x :: tr) s.
Proof.
  intros H. change (Obs e x :: tr) with ([Obs e x] ++ tr).
  eapply runs_bind; [apply runs_call|exact H].
Qed.

Lemma runs_Ret {R} (x : R) : runs (Ret x : itree mlbvE R) [] x.
Proof. apply runs_ret. reflexivity. Qed.

Lemma runs_skip_bind {S} (k : unit -> itree mlbvE S) tr s :
  runs (k tt) tr s -> runs (ITree.bind (Ret tt) k) tr s.
Proof.
  intros H. change tr with ([] ++ tr).
  eapply runs_bind; [apply runs_Ret|exact H].
Qed.

Lemma runs_skip_bind_any {R S} (k : R -> itree mlbvE S) x tr s :
  runs (k x) tr s -> runs (ITree.bind (Ret x) k) tr s.
Proof.
  intros H. change tr with ([] ++ tr).
  eapply runs_bind; [apply runs_Ret|exact H].
Qed.

Lemma runs_iter_step {I R} (f : I -> itree mlbvE (I + R)) i j tr1 tr2 r :
  runs (f i) tr1 (inl j) -> runs (ITree.iter f j) tr2 r ->
  runs (ITree.iter f i) (tr1 ++ tr2) r.
Proof.
  intros H1 H2.
  eapply runs_observe; [symmetry; apply (observing_observe (unfold_aloop_ f i))|].
  eapply runs_bind; [exact H1|]. cbn.
  eapply runs_tau; [reflexivity|exact H2].
Qed.

Lemma runs_iter_stop {I R} (f : I -> itree mlbvE (I + R)) i tr r :
  runs (f i) tr (inr r) -> runs (ITree.iter f i) tr r.
Proof.
  intros H.
  eapply runs_observe; [symmetry; apply (observing_observe (unfold_aloop_ f i))|].
  rewrite <- (app_nil_r tr).
  eapply runs_bind; [exact H|]. cbn. apply runs_ret. reflexivity.
Qed.

(** Induction on the turns of a loop. *)
Lemma runs_iter_ind {I R} (f : I -> itree mlbvE (I + R))
      (P : I -> trace -> R -> Prop) :
  (forall i tr r, runs (f i) tr (inr r) -> P i tr r) ->
  (forall i j tr1 tr2 r,
      runs (f i) tr1 (inl j) -> runs (ITree.iter f j) tr2 r -> P j tr2 r ->
      P i (tr1 ++ tr2) r) ->
  forall i tr r, runs (ITree.iter f i) tr r -> P i tr r.
Proof.
  intros Hstop Hstep.
  set (K := fun lr : I + R =>
              ITree.on_left lr l (Tau (ITree.iter f l))).
  assert (G : forall (u : itree mlbvE R) tr r, runs u tr r ->
              forall t, observe u = observe (ITree.bind t K) ->
              exists tr1 x tr2, runs t tr1 x /\ tr = tr1 ++ tr2 /\
                match x with
                | inl j => runs (ITree.iter f j) tr2 r /\ P j tr2 r
                | inr r' => tr2 = [] /\ r = r'
                end).
  { assert (Piter : forall j tr r,
               (exists tr1 x tr2, runs (f j) tr1 x /\ tr = tr1 ++ tr2 /\
                 match x with
                 | inl j' => runs (ITree.iter f j') tr2 r /\ P j' tr2 r
                 | inr r' => tr2 = [] /\ r = r'
                 end) -> P j tr r).
    { intros j tr r (tr1 & x & tr2 & H1 & -> & Hx). destruct x as [j'|r'].
      - destruct Hx. eapply Hstep; eauto.
      - destruct Hx as [-> ->]. rewrite app_nil_r. auto. }
    induction 1 as [u r Hu | u u' tr r Hu H IH | u T e ku x tr r Hu H IH];
      intros t E; rewrite observe_bind in E;
      destruct (observe t) as [x0 | t0 | X e0 k0] eqn:Et; cbn in E;
      try (destruct x0 as [j|r']; cbn in E); try congruence.
    - exists [], (inr r'), [].
      split; [apply runs_ret; assumption|].
      split; [reflexivity|]. split; [reflexivity|congruence].
    - rewrite Hu in E. injection E as ->.
      exists [], (inl j), tr.
      split; [apply runs_ret; assumption|].
      split; [reflexivity|]. split; [assumption|].
      apply Piter. apply IH.
      apply (observing_observe (unfold_aloop_ f j)).
    - rewrite Hu in E. injection E as ->.
      destruct (IH t0 eq_refl) as (tr1 & y & tr2 & H1 & -> & Hy).
      exists tr1, y, tr2. split; [|split]; auto.
      eapply runs_tau; eassumption.
    - rewrite Hu in E. apply eq_inv_VisF_weak in E.
      destruct E as (p & Ee & Ek). destruct p. cbn in Ee, Ek. subst e0 ku.
      destruct (IH (k0 x) eq_refl) as (tr1 & y & tr2 & H1 & -> & Hy).
      exists (Obs e x :: tr1), y, tr2. split; [|split]; auto.
      eapply runs_vis; eassumption. }
  intros i tr r H.
  destruct (G _ _ _ H (f i) (observing_observe (unfold_aloop_ f i)))
    as (tr1 & x & tr2 & H1 & -> & Hx).
  destruct x as [j|r'].
  - destruct Hx. eapply Hstep; eauto.
  - destruct Hx as [-> ->]. rewrite app_nil_r. auto.
Qed.

Lemma runs_when_inv b t tr r :
  runs (when b t) tr r -> if b then runs t tr r else tr = [].
Proof.
  destruct b; cbn; auto. intros H. apply runs_Ret_inv in H. tauto.
Qed.

Lemma runs_when_some_inv {A} (o : option A) f tr r :
  runs (when_some o f) tr r ->
  match o with Some x => runs (f x) tr r | None => tr = [] end.
Proof.
  destruct o; cbn; auto. intros H. apply runs_Ret_inv in H. tauto.
Qed.

(** The interpreter produces runs, answered by the world. *)
Lemma exec_sound {R} fuel : forall (t : itree mlbvE R) w r tr w',
  exec fuel t w = Some (r, tr, w') -> runs t tr r /\ answers w tr w'.
Proof.
  induction fuel as [|fuel IH]; intros t w r tr w' H; [discriminate|].
  cbn in H. destruct (observe t) as [x | t' | X e k] eqn:Et.
  - injection H as <- <- <-. split; [apply runs_ret; auto | reflexivity].
  - apply IH in H. destruct H. split; auto. eapply runs_tau; eauto.
  - destruct (answer e w) as [x w1] eqn:Ea.
    destruct (exec fuel (k x) w1) as [[[r1 tr1] w2]|] eqn:Ex; [|discriminate].
    injection H as <- <- <-. apply IH in Ex. destruct Ex as [H1 H2].
    split; [eapply runs_vis; eauto|].
    cbn. rewrite Ea. cbn. auto.
Qed.

Lemma exec_runs {R} fuel w (t : itree mlbvE R) r :
  result_in fuel w t = Some r -> runs t (trace_in fuel w t) r.
Proof.
  unfold result_in, trace_in.
  destruct (exec fuel t w) as [[[r' tr] w']|] eqn:E; [|discriminate].
  intros H. injection H as <-. apply exec_sound in E. tauto.
Qed.

(* ===================================================================== *)
(** ** Runs of the polling loop *)
(* ===================================================================== *)

Lemma poll_inv start count tr x :
  runs (poll start count) tr x ->
  (tr = turn start count /\ x = inl (count + 1)) \/
  (exists e, tr = leave start e /\ x = inr e).
Proof.
  unfold poll. intros H.
  apply runs_bind_inv in H. destruct H as (tr1 & b & tr2 & H1 & H2 & ->).
  apply runs_call_inv in H1. subst tr1. destruct b.
  - apply runs_Ret_inv in H2. destruct H2 as [-> ->].
    right. exists None. auto.
  - apply runs_bind_inv in H2. destruct H2 as (tr1 & s & tr3 & H1 & H2 & ->).
    apply runs_call_inv in H1. subst tr1. destruct s.
    + apply runs_bind_inv in H2. destruct H2 as (tr1 & [] & tr4 & H1 & H2 & ->).
      apply runs_Ret_inv in H2. destruct H2 as [-> ->].
      apply runs_when_inv in H1. left. unfold turn.
      destruct ((count + 1) mod 6 =? 0).
      * apply runs_call_inv in H1. subst. auto.
      * subst. auto.
    + apply runs_Ret_inv in H2. destruct H2 as [-> ->].
      right. exists (Some KeyboardInterrupt). auto.
Qed.

Lemma poll_turn start count :
  runs (poll start count) (turn start count) (inl (count + 1)).
Proof.
  unfold poll, turn. cbn [app].
  apply runs_call_bind. apply runs_call_bind.
  destruct ((count + 1) mod 6 =? 0); cbn [when].
  - apply runs_call_bind. apply runs_Ret.
  - apply runs_skip_bind. apply runs_Ret.
Qed.

Lemma poll_leave start count e :
  runs (poll start count) (leave start e) (inr e).
Proof.
  unfold poll, leave. destruct e as [[]|].
  - apply runs_call_bind. apply runs_call_bind. apply runs_Ret.
  - apply runs_call_bind. apply runs_Ret.
Qed.

(** Every run of the loop is some number of completed turns and a way
    out. *)
Lemma loop_inv start count tr e :
  runs (ITree.iter (poll start) count) tr e ->
  exists n, tr = turns start count n ++ leave start e.
Proof.
  revert count tr e. apply runs_iter_ind.
  - intros i tr r H. apply poll_inv in H.
    destruct H as [[_ H] | (e & -> & H)]; [discriminate|].
    injection H as H. subst e. exists O. reflexivity.
  - intros i j tr1 tr2 r H _ (n & ->). apply poll_inv in H.
    destruct H as [[-> H] | (e & _ & H)]; [|discriminate].
    injection H as H. subst j.
    exists (S n). cbn [turns]. rewrite app_assoc. reflexivity.
Qed.

Lemma loop_runs start n : forall count e,
  runs (ITree.iter (poll start) count) (turns start count n ++ leave start e) e.
Proof.
  induction n as [|n IH]; intros count e; cbn [turns].
  - apply runs_iter_stop, poll_leave.
  - rewrite <- app_assoc. eapply runs_iter_step; [apply poll_turn|apply IH].
Qed.

(* ===================================================================== *)
(** ** Runs of [main] *)
(* ===================================================================== *)

Ltac inv_runs :=
  repeat match goal with
  | H : runs (ITree.bind _ _) _ _ |- _ =>
      apply runs_bind_inv in H;
      let tr1 := fresh "tr" in
      let x := fresh "x" in
      let tr2 := fresh "tr" in
      let H1 := fresh "Hr" in
      let E := fresh "Etr" in
      destruct H as (tr1 & x & tr2 & H1 & H & E); cbn beta in H
  | H : runs (ITree.trigger _) _ _ |- _ => apply runs_call_inv in H
  | H : runs (Ret _) _ _ |- _ =>
      apply runs_Ret_inv in H; destruct H
  | H : runs (when _ _) _ _ |- _ => apply runs_when_inv in H
  | H : runs (when_some _ _) _ _ |- _ => apply runs_when_some_inv in H
  end.

Create HintDb setup.
#[local] Hint Constructors Forall : setup.

Lemma read_team_inv codes a tr x :
  runs (read_team codes a) tr x -> x = team_of a /\ tr = warning codes a.
Proof.
  unfold read_team, warning, team_of.
  destruct (truthy_str (args.team a)) as [t|]; cbn; intros H; inv_runs.
  - subst. split; [reflexivity|].
    destruct (str_in (lower t) codes); cbn in *; inv_runs; subst.
    + reflexivity.
    + destruct x0. reflexivity.
  - subst. auto.
Qed.

Lemma warning_setup codes a :
  Forall (fun o => is_setup o = true) (warning codes a).
Proof.
  unfold warning. destruct (team_of a); auto with setup.
  destruct (str_in _ _); auto with setup.
Qed.

Lemma read_feed_inv a tr x :
  runs (read_feed a) tr x -> Forall (fun o => is_setup o = true) tr.
Proof.
  unfold read_feed. destruct (truthy_str (args.feed a)); intros H; inv_runs;
    subst; cbn; auto with setup.
Qed.

Lemma read_date_inv a tr x :
  runs (read_date a) tr x -> Forall (fun o => is_setup o = true) tr.
Proof.
  unfold read_date.
  destruct (args.yesterday a); [|destruct (args.tomorrow a);
                                 [|destruct (args.date a)]];
    intros H; inv_runs; subst; cbn; auto with setup.
Qed.

Lemma setup_call {T} (e : mlbvE T) tr x :
  (forall y, is_setup (Obs e y) = true) ->
  runs (call e) tr x -> Forall (fun o => is_setup o = true) tr.
Proof. intros He H. apply runs_call_inv in H. subst. auto with setup. Qed.

Lemma setup_when_call (b : bool) (e : mlbvE unit) tr x :
  (forall y, is_setup (Obs e y) = true) ->
  runs (when b (call e)) tr x -> Forall (fun o => is_setup o = true) tr.
Proof.
  intros He H. destruct b; cbn in H.
  - eapply setup_call; eauto.
  - apply runs_Ret_inv in H. destruct H; subst. auto with setup.
Qed.

Lemma setup_when_some_call {A} (o : option A) (f : A -> mlbvE unit) tr x :
  (forall v y, is_setup (Obs (f v) y) = true) ->
  runs (when_some o (fun v => call (f v))) tr x ->
  Forall (fun o => is_setup o = true) tr.
Proof.
  intros He H. destruct o; cbn in H.
  - eapply setup_call; eauto.
  - apply runs_Ret_inv in H. destruct H; subst. auto with setup.
Qed.

Tactic Notation "split_bind" hyp(H) "as" ident(p) ident(x) ident(H1) :=
  apply runs_bind_inv in H;
  let q := fresh "q" in
  let E := fresh "E" in
  destruct H as (p & x & q & H1 & H & E); subst; cbn beta in H.

Ltac setup_step :=
  first
    [ eapply read_feed_inv; eassumption
    | eapply setup_call; [|eassumption]; reflexivity
    | eapply setup_when_call; [|eassumption]; reflexivity
    | eapply (@setup_when_some_call _ _ (fun v => config_set _ v));
      [|eassumption]; reflexivity
    | eapply (@setup_when_some_call _ _ (fun v => config_set _ (str v)));
      [|eassumption]; reflexivity ].

(** The calls of lines 94-133: they are configuration calls, the team is
    the lowered [--team], and the team codes matter for the warning only. *)
Lemma read_options_inv codes a tr x :
  runs (read_options codes a) tr x ->
  exists tr1 tr2,
    fst x = team_of a /\
    tr = tr1 ++ warning codes a ++ tr2 /\
    Forall (fun o => is_setup o = true) tr1 /\
    Forall (fun o => is_setup o = true) tr2 /\
    forall codes',
      runs (read_options codes' a) (tr1 ++ warning codes' a ++ tr2) x.
Proof.
  unfold read_options. intros H.
  split_bind H as p1 x1 H1. split_bind H as p2 x2 H2.
  split_bind H as p3 x3 H3. split_bind H as p4 x4 H4.
  split_bind H as p5 x5 H5. split_bind H as p6 x6 H6.
  split_bind H as p7 x7 H7. split_bind H as p8 x8 H8.
  split_bind H as pt team Ht. split_bind H as pf feedtype Hf.
  split_bind H as p9 x9 H9. split_bind H as p10 x10 H10.
  split_bind H as p11 x11 H11. split_bind H as p12 x12 H12.
  split_bind H as p13 x13 H13.
  apply runs_Ret_inv in H. destruct H as [-> ->].
  apply read_team_inv in Ht. destruct Ht as [-> ->].
  exists (p1 ++ p2 ++ p3 ++ p4 ++ p5 ++ p6 ++ p7 ++ p8),
         (pf ++ p9 ++ p10 ++ p11 ++ p12 ++ p13).
  split; [reflexivity|]. split.
  { rewrite <- !app_assoc. rewrite app_nil_r. reflexivity. }
  split; [|split].
  - repeat (apply Forall_app; split); setup_step.
  - repeat (apply Forall_app; split); try setup_step.
    destruct (args.scores a); setup_step.
  - intros codes'. rewrite <- !app_assoc.
    repeat (eapply runs_bind; [eassumption|]; cbn beta).
    eapply runs_bind with (x := team_of a).
    { clear. unfold read_team, warning, team_of.
      destruct (truthy_str (args.team a)) as [t|]; cbn [option_map];
        [|apply runs_Ret].
      destruct (str_in (lower t) codes'); cbn [negb when].
      - apply runs_skip_bind, runs_Ret.
      - apply runs_call_bind, runs_Ret. }
    repeat (eapply runs_bind; [eassumption|]; cbn beta).
    rewrite <- (app_nil_r p13).
    eapply runs_bind; [eassumption|]. apply runs_Ret.
Qed.

Ltac same_run X :=
  let H := fresh "H" in
  pose proof X as H;
  unfold waiting, refresh, play in *;
  repeat rewrite <- app_assoc in H; repeat rewrite <- app_assoc;
  repeat rewrite app_nil_r in H; repeat rewrite app_nil_r;
  cbn [app] in H; cbn [app];
  exact H.

Lemma select_and_play_inv a team feedtype date gd tr r :
  runs (select_and_play a team feedtype date gd) tr r ->
  play_run a team feedtype date gd tr r.
Proof.
  unfold select_and_play. intros H.
  split_bind H as p1 game_rec H1. apply runs_call_inv in H1. subst p1.
  split_bind H as p2 waiting H2. split_bind H as p3 after H3.
  destruct (args.wait a) eqn:Ew.
  - split_bind H2 as p4 reached H4. apply runs_call_inv in H4. subst p4.
    apply runs_Ret_inv in H2. destruct H2 as [-> ->].
    destruct reached; cbn [negb] in H3.
    + apply runs_Ret_inv in H3. destruct H3 as [-> ->].
      split_bind H as p5 code H5. apply runs_call_inv in H5. subst p5.
      apply runs_Ret_inv in H. destruct H as [-> ->].
      same_run (play_started a team feedtype date gd game_rec code Ew).
    + unfold wait_for_start in H3.
      split_bind H3 as p5 local H5. apply runs_call_inv in H5. subst p5.
      split_bind H3 as p6 x6 H6. apply runs_call_inv in H6. subst p6.
      split_bind H3 as p7 x7 H7. apply runs_call_inv in H7. subst p7.
      split_bind H3 as p8 e H8. apply loop_inv in H8. destruct H8 as (n & ->).
      destruct x6, x7. destruct e as [e|].
      * apply runs_Ret_inv in H3. destruct H3 as [-> ->].
        apply runs_Ret_inv in H. destruct H as [-> ->].
        same_run (play_interrupted a team feedtype date gd game_rec local n e Ew).
      * split_bind H3 as p9 x9 H9. apply runs_call_inv in H9. subst p9.
        split_bind H3 as p10 gdl H10. apply runs_call_inv in H10. subst p10.
        destruct x9. destruct gdl as [|gd' rest].
        -- split_bind H3 as p11 x11 H11. apply runs_call_inv in H11. subst p11.
           apply runs_Ret_inv in H3. destruct H3 as [-> ->].
           apply runs_Ret_inv in H. destruct H as [-> ->]. destruct x11.
           same_run (play_refresh_empty a team feedtype date gd game_rec
                       local n Ew).
        -- split_bind H3 as p11 game_rec' H11.
           apply runs_call_inv in H11. subst p11.
           apply runs_Ret_inv in H3. destruct H3 as [-> ->].
           split_bind H as p12 code H12. apply runs_call_inv in H12. subst p12.
           apply runs_Ret_inv in H. destruct H as [-> ->].
           same_run (play_refreshed a team feedtype date gd game_rec
                       local n gd' rest game_rec' code Ew).
  - apply runs_Ret_inv in H2. destruct H2 as [-> ->].
    apply runs_Ret_inv in H3. destruct H3 as [-> ->].
    split_bind H as p5 code H5. apply runs_call_inv in H5. subst p5.
    apply runs_Ret_inv in H. destruct H as [-> ->].
    same_run (play_no_wait a team feedtype date gd game_rec code Ew).
Qed.

Lemma runs_bind_eq {R S} (t : itree mlbvE R) (k : R -> itree mlbvE S)
      tr1 x tr2 tr s :
  runs t tr1 x -> tr = tr1 ++ tr2 -> runs (k x) tr2 s ->
  runs (ITree.bind t k) tr s.
Proof. intros H1 -> H2. eapply runs_bind; eassumption. Qed.

Lemma wait_for_start_runs a team date game_rec local n e tr out :
  match e with
  | Some e => tr = [] /\ out = inl (Raised e)
  | None =>
      (tr = refresh date [] ++
            [Obs (LOG error
                    "Unexpected error: no game data found after refresh on wait")
                 tt] /\
       out = inl (Returned 0)) \/
      (exists game_data' rest game_rec',
          tr = refresh date (game_data' :: rest) ++
               [Obs (get_game_rec game_data' team (args.game a)) game_rec'] /\
          out = inr game_rec')
  end ->
  runs (wait_for_start a team date game_rec)
       (waiting (mlbdate game_rec) local n e ++ tr) out.
Proof.
  intros H. unfold wait_for_start, waiting. cbn [app].
  do 3 apply runs_call_bind.
  eapply runs_bind; [apply loop_runs|].
  destruct e as [e|].
  - destruct H as [-> ->]. apply runs_Ret.
  - destruct H as [[-> ->] | (gd' & rest & rec' & -> & ->)];
      unfold refresh; cbn [app]; repeat apply runs_call_bind; apply runs_Ret.
Qed.

Lemma select_and_play_runs a team feedtype date gd tr r :
  play_run a team feedtype date gd tr r ->
  runs (select_and_play a team feedtype date gd) tr r.
Proof.
  intros H. unfold select_and_play.
  destruct H as [rec code Ew | rec code Ew | rec local n e Ew
                | rec local n Ew | rec local n gd' rest rec' code Ew];
    cbn [app]; apply runs_call_bind; rewrite Ew.
  - apply runs_skip_bind_any with (x := false). cbv beta iota.
    apply runs_skip_bind_any with (x := inr rec).
    unfold play. apply runs_call_bind, runs_Ret.
  - eapply runs_bind_eq with (tr1 := [_]) (x := false);
      [apply runs_call_bind with (x := true), runs_Ret|reflexivity|].
    cbv beta iota.
    apply runs_skip_bind_any with (x := inr rec).
    unfold play. apply runs_call_bind, runs_Ret.
  - eapply runs_bind_eq with (tr1 := [_]) (x := true);
      [apply runs_call_bind with (x := false), runs_Ret|reflexivity|].
    cbv beta iota.
    eapply runs_bind_eq with (x := inl (Raised e))
      (tr1 := waiting (mlbdate rec) local n (Some e) ++ []) (tr2 := []).
    + apply (@wait_for_start_runs a team date rec local n (Some e) []).
      split; reflexivity.
    + rewrite !app_nil_r. reflexivity.
    + apply runs_Ret.
  - eapply runs_bind_eq with (tr1 := [_]) (x := true);
      [apply runs_call_bind with (x := false), runs_Ret|reflexivity|].
    cbv beta iota.
    eapply runs_bind_eq with (x := inl (Returned 0)) (tr2 := []);
      [|symmetry; apply app_nil_r|apply runs_Ret].
    apply (@wait_for_start_runs a team date rec local n None).
    left. split; reflexivity.
  - eapply runs_bind_eq with (tr1 := [_]) (x := true);
      [apply runs_call_bind with (x := false), runs_Ret|reflexivity|].
    cbv beta iota.
    eapply runs_bind_eq with (x := inr rec')
      (tr1 := waiting (mlbdate rec) local n None ++
              refresh date (gd' :: rest) ++
              [Obs (get_game_rec gd' team (args.game a)) rec'])
      (tr2 := [play a team feedtype date rec' code]).
    + apply (@wait_for_start_runs a team date rec local n None).
      right. eauto.
    + unfold refresh. rewrite <- !app_assoc. reflexivity.
    + unfold play. apply runs_call_bind, runs_Ret.
Qed.

Lemma run_games_iff a team feedtype date tr r :
  runs (run_games a team feedtype date) tr r <->
  games_run a team feedtype date tr r.
Proof.
  unfold run_games. split.
  - intros H. destruct (truthy_str (args.standings a)) as [c|] eqn:Es.
    + split_bind H as p1 x1 H1. apply runs_call_inv in H1. subst p1.
      apply runs_Ret_inv in H. destruct H as [-> ->]. destruct x1.
      apply games_standings; assumption.
    + split_bind H as p1 gdl H1. apply runs_call_inv in H1. subst p1.
      destruct team as [t|].
      * destruct gdl as [|gd rest].
        -- apply runs_Ret_inv in H. destruct H as [-> ->].
           eapply games_none; eauto.
        -- apply select_and_play_inv in H.
           eapply games_play; eauto.
      * apply runs_Ret_inv in H. destruct H as [-> ->].
        apply games_no_team; auto.
  - intros H. destruct H as [c Es | gdl Es -> | t Es -> | t gd rest tr r Es -> H];
      rewrite Es.
    + apply runs_call_bind, runs_Ret.
    + apply runs_call_bind, runs_Ret.
    + apply runs_call_bind, runs_Ret.
    + apply runs_call_bind. apply select_and_play_runs, H.
Qed.

Lemma main_iff codes a tr r :
  runs (main codes a) tr r <-> main_run codes a tr r.
Proof.
  unfold main. split.
  - intros H. split_bind H as pre1 x H1. destruct x as [team feedtype].
    split_bind H as pre2 date H2. rewrite app_assoc.
    destruct (@read_options_inv _ _ _ _ H1) as (tr1 & tr2 & Et & -> & F1 & F2 & _).
    cbn in Et. subst team.
    apply main_run_intro with (feedtype := feedtype) (date := date); auto.
    + repeat (apply Forall_app; split); auto.
      * apply warning_setup.
      * eapply read_date_inv; eassumption.
    + apply run_games_iff, H.
  - intros H. destruct H as [pre1 pre2 feedtype date tr r H1 H2 _ H].
    rewrite <- app_assoc.
    eapply runs_bind; [eassumption|]. cbn.
    eapply runs_bind; [eassumption|]. apply run_games_iff, H.
Qed.

(* ===================================================================== *)
(** ** Projections of the runs *)
(* ===================================================================== *)

Lemma collect_app {A} (f : obs -> option A) tr1 tr2 :
  collect f (tr1 ++ tr2) = collect f tr1 ++ collect f tr2.
Proof.
  induction tr1 as [|o tr1 IH]; cbn; [reflexivity|].
  destruct (f o); cbn; rewrite IH; reflexivity.
Qed.

Lemma collect_setup {A} (f : obs -> option A) tr :
  (forall o, is_setup o = true -> f o = None) ->
  Forall (fun o => is_setup o = true) tr -> collect f tr = [].
Proof.
  intros Hf H. induction H as [|o tr Ho _ IH]; cbn; [reflexivity|].
  rewrite (Hf o Ho). exact IH.
Qed.

Ltac setup_none :=
  let o := fresh "o" in
  let T := fresh "T" in
  let e := fresh "e" in
  let x := fresh "x" in
  intros o; destruct o as [T e x]; destruct e; cbn;
  try discriminate; try reflexivity;
  match goal with l : level |- _ => destruct l; cbn; congruence end.

Lemma setup_no_fetch tr :
  Forall (fun o => is_setup o = true) tr -> collect fetch_of tr = [].
Proof. apply collect_setup. setup_none. Qed.

Lemma setup_no_select tr :
  Forall (fun o => is_setup o = true) tr -> collect select_of tr = [].
Proof. apply collect_setup. setup_none. Qed.

Lemma setup_no_play tr :
  Forall (fun o => is_setup o = true) tr -> collect play_of tr = [].
Proof. apply collect_setup. setup_none. Qed.

Lemma setup_no_sleep tr :
  Forall (fun o => is_setup o = true) tr -> collect sleep_of tr = [].
Proof. apply collect_setup. setup_none. Qed.

Lemma setup_no_check tr :
  Forall (fun o => is_setup o = true) tr -> collect check_of tr = [].
Proof. apply collect_setup. setup_none. Qed.

Lemma setup_no_standings tr :
  Forall (fun o => is_setup o = true) tr -> collect standings_of tr = [].
Proof. apply collect_setup. setup_none. Qed.

Lemma setup_no_print tr :
  Forall (fun o => is_setup o = true) tr -> collect print_of tr = [].
Proof. apply collect_setup. setup_none. Qed.

Lemma turn_sleep start count :
  collect sleep_of (turn start count) = [(10, Woke)].
Proof. unfold turn. destruct (_ =? _); reflexivity. Qed.

Lemma turn_check start count :
  collect check_of (turn start count) = [(start, false)].
Proof. unfold turn. destruct (_ =? _); reflexivity. Qed.

Lemma turn_print start count :
  collect print_of (turn start count) =
  if (count + 1) mod 6 =? 0 then ["."] else [].
Proof. unfold turn. destruct (_ =? _); reflexivity. Qed.

Lemma turn_fetch start count : collect fetch_of (turn start count) = [].
Proof. unfold turn. destruct (_ =? _); reflexivity. Qed.

Lemma turn_select start count : collect select_of (turn start count) = [].
Proof. unfold turn. destruct (_ =? _); reflexivity. Qed.

Lemma turn_play start count : collect play_of (turn start count) = [].
Proof. unfold turn. destruct (_ =? _); reflexivity. Qed.

Lemma turns_sleep start n : forall count,
  collect sleep_of (turns start count n) = repeat (10, Woke) n.
Proof.
  induction n as [|n IH]; intros count; cbn [turns repeat]; [reflexivity|].
  rewrite collect_app, turn_sleep, IH. reflexivity.
Qed.

Lemma turns_check start n : forall count,
  collect check_of (turns start count n) = repeat (start, false) n.
Proof.
  induction n as [|n IH]; intros count; cbn [turns repeat]; [reflexivity|].
  rewrite collect_app, turn_check, IH. reflexivity.
Qed.

Lemma turns_fetch start n : forall count,
  collect fetch_of (turns start count n) = [].
Proof.
  induction n as [|n IH]; intros count; cbn [turns]; [reflexivity|].
  rewrite collect_app, turn_fetch, IH. reflexivity.
Qed.

Lemma turns_select start n : forall count,
  collect select_of (turns start count n) = [].
Proof.
  induction n as [|n IH]; intros count; cbn [turns]; [reflexivity|].
  rewrite collect_app, turn_select, IH. reflexivity.
Qed.

Lemma turns_play start n : forall count,
  collect play_of (turns start count n) = [].
Proof.
  induction n as [|n IH]; intros count; cbn [turns]; [reflexivity|].
  rewrite collect_app, turn_play, IH. reflexivity.
Qed.

Lemma turns_seq start count n : forall k,
  turns start (count + Z.of_nat k) n =
  flat_map (fun i => turn start (count + Z.of_nat i)) (seq k n).
Proof.
  induction n as [|n IH]; intros k; [reflexivity|].
  cbn [turns seq flat_map]. f_equal.
  rewrite <- IH. f_equal. lia.
Qed.

(** The turns of the loop, one after the other. *)
Lemma turns_flat_map start n :
  turns start 0 n = flat_map (fun i => turn start (Z.of_nat i)) (seq 0 n).
Proof. exact (turns_seq start 0 n 0). Qed.

Lemma div6_succ c :
  0 <= c -> (c + 1) / 6 = c / 6 + (if (c + 1) mod 6 =? 0 then 1 else 0).
Proof.
  intros Hc. destruct ((c + 1) mod 6 =? 0) eqn:E.
  - apply Z.eqb_eq in E. Z.div_mod_to_equations. lia.
  - apply Z.eqb_neq in E. Z.div_mod_to_equations. lia.
Qed.

(** The progress dots of [n] turns: one for every sixth value of the
    counter. *)
Lemma turns_print start n : forall count,
  0 <= count ->
  collect print_of (turns start count n) =
  repeat "." (Z.to_nat ((count + Z.of_nat n) / 6 - count / 6)).
Proof.
  induction n as [|n IH]; intros count Hc; cbn [turns].
  - rewrite Z.add_0_r, Z.sub_diag. reflexivity.
  - rewrite collect_app, turn_print, IH by lia.
    replace (count + Z.of_nat (S n)) with (count + 1 + Z.of_nat n) by lia.
    assert (Hm : 0 <= (count + 1 + Z.of_nat n) / 6 - (count + 1) / 6).
    { apply Zle_minus_le_0, Z.div_le_mono; lia. }
    rewrite (div6_succ Hc) in *.
    destruct ((count + 1) mod 6 =? 0).
    + replace ((count + 1 + Z.of_nat n) / 6 - count / 6)
        with (Z.succ ((count + 1 + Z.of_nat n) / 6 - (count / 6 + 1))) by lia.
      rewrite Z2Nat.inj_succ by lia. reflexivity.
    + rewrite Z.add_0_r. reflexivity.
Qed.

(* ===================================================================== *)
(** ** Runs in a world *)
(* ===================================================================== *)

Lemma answers_app w tr1 tr2 w' :
  answers w (tr1 ++ tr2) w' <->
  exists w1, answers w tr1 w1 /\ answers w1 tr2 w'.
Proof.
  revert w. induction tr1 as [|[T e x] tr1 IH]; intros w; cbn.
  - split.
    + intros H. exists w. auto.
    + intros (w1 & -> & H). exact H.
  - rewrite IH. split.
    + intros (Hx & w1 & H1 & H2). exists w1. auto.
    + intros (w1 & (Hx & H1) & H2). split; [exact Hx|]. exists w1. auto.
Qed.

Lemma runs_in_bind {R S} w (t : itree mlbvE R) (k : R -> itree mlbvE S)
      tr1 x w1 tr2 s w2 :
  runs_in w t tr1 x w1 -> runs_in w1 (k x) tr2 s w2 ->
  runs_in w (ITree.bind t k) (tr1 ++ tr2) s w2.
Proof.
  intros [H1 A1] [H2 A2]. split.
  - eapply runs_bind; eassumption.
  - apply answers_app. exists w1. auto.
Qed.

Lemma runs_in_call {T} w (e : mlbvE T) :
  runs_in w (call e) [Obs e (fst (answer e w))] (fst (answer e w))
          (snd (answer e w)).
Proof. split; [apply runs_call|]. cbn. auto. Qed.

Lemma runs_in_Ret {R} w (x : R) : runs_in w (Ret x) [] x w.
Proof. split; [apply runs_Ret|reflexivity]. Qed.

(** The calls of the setup leave the world as it is. *)
Lemma answers_setup tr : forall w w',
  Forall (fun o => is_setup o = true) tr -> answers w tr w' -> w' = w.
Proof.
  induction tr as [|[T e x] tr IH]; intros w w' F H; cbn in H; [exact H|].
  inversion F as [|o l Ho Hl]; subst. destruct H as [_ H].
  apply IH in H; [|assumption]. rewrite H.
  destruct e; cbn in Ho; try discriminate; reflexivity.
Qed.

Lemma quiet_bind {R S} w (t : itree mlbvE R) (k : R -> itree mlbvE S) x s :
  quiet w t x -> quiet w (k x) s -> quiet w (ITree.bind t k) s.
Proof.
  intros (tr1 & H1 & F1) (tr2 & H2 & F2). exists (tr1 ++ tr2). split.
  - eapply runs_in_bind; eassumption.
  - apply Forall_app. auto.
Qed.

Lemma quiet_Ret {R} w (x : R) : quiet w (Ret x) x.
Proof. exists []. split; [apply runs_in_Ret|constructor]. Qed.

Lemma quiet_call {T} w (e : mlbvE T) :
  is_setup (Obs e (fst (answer e w))) = true ->
  quiet w (call e) (fst (answer e w)).
Proof.
  intros He. exists [Obs e (fst (answer e w))]. split.
  - assert (Hw : snd (answer e w) = w)
      by (destruct e; cbn in He; try discriminate; reflexivity).
    pose proof (runs_in_call w e) as H. rewrite Hw in H. exact H.
  - auto with setup.
Qed.

Lemma quiet_call_unit w (e : mlbvE unit) :
  is_setup (Obs e tt) = true -> quiet w (call e) tt.
Proof.
  intros He. pose proof (quiet_call w e) as H.
  destruct (fst (answer e w)). auto.
Qed.

Lemma quiet_when w (b : bool) (e : mlbvE unit) :
  is_setup (Obs e tt) = true -> quiet w (when b (call e)) tt.
Proof.
  intros He. destruct b; cbn; [apply quiet_call_unit, He|apply quiet_Ret].
Qed.

Lemma quiet_when_some {A} w (o : option A) (f : A -> mlbvE unit) :
  (forall v, is_setup (Obs (f v) tt) = true) ->
  quiet w (when_some o (fun v => call (f v))) tt.
Proof.
  intros He. destruct o as [v|]; cbn;
    [apply quiet_call_unit, He|apply quiet_Ret].
Qed.

Lemma read_team_quiet codes a w : quiet w (read_team codes a) (team_of a).
Proof.
  unfold read_team, team_of.
  destruct (truthy_str (args.team a)) as [t|]; cbn [option_map];
    [|apply quiet_Ret].
  eapply quiet_bind; [apply quiet_when; reflexivity|apply quiet_Ret].
Qed.

Lemma read_feed_quiet a w : quiet w (read_feed a) (feed_in w a).
Proof.
  unfold read_feed, feed_in.
  destruct (truthy_str (args.feed a)) as [f|]; cbn [option_map];
    [|apply quiet_Ret].
  eapply quiet_bind;
    [apply (quiet_call w (convert_to_long_feedtype (lower f))); reflexivity|].
  apply quiet_Ret.
Qed.

Lemma read_date_quiet a w : quiet w (read_date a) (date_in w a).
Proof.
  unfold read_date, date_in.
  destruct (args.yesterday a);
    [apply (quiet_call w (today_plus_days (-1))); reflexivity|].
  destruct (args.tomorrow a);
    [apply (quiet_call w (today_plus_days 1)); reflexivity|].
  destruct (args.date a);
    [apply quiet_Ret|apply (quiet_call w (today_plus_days 0)); reflexivity].
Qed.

Lemma read_options_quiet codes a w :
  quiet w (read_options codes a) (team_of a, feed_in w a).
Proof.
  unfold read_options.
  eapply quiet_bind; [apply (quiet_call_unit w MLBConfig); reflexivity|].
  eapply quiet_bind; [apply (quiet_call_unit w init_logging); reflexivity|].
  eapply quiet_bind; [apply (quiet_call_unit w GameData); reflexivity|].
  eapply quiet_bind; [apply quiet_when; reflexivity|].
  eapply quiet_bind; [apply quiet_when; reflexivity|].
  eapply quiet_bind;
    [apply (quiet_when_some w _ (fun v => config_set _ v)); reflexivity|].
  eapply quiet_bind;
    [apply (quiet_when_some w _ (fun v => config_set _ v)); reflexivity|].
  eapply quiet_bind;
    [apply (quiet_when_some w _ (fun v => config_set _ (str v))); reflexivity|].
  eapply quiet_bind; [apply read_team_quiet|].
  eapply quiet_bind; [apply read_feed_quiet|].
  eapply quiet_bind;
    [apply (quiet_when_some w _ (fun v => config_set _ v)); reflexivity|].
  eapply quiet_bind with (x := tt).
  { destruct (args.scores a).
    - apply (quiet_call_unit w (config_set "scores" "true")). reflexivity.
    - apply quiet_when. reflexivity. }
  eapply quiet_bind; [apply quiet_when; reflexivity|].
  eapply quiet_bind;
    [apply (quiet_when_some w _ (fun v => config_set _ v)); reflexivity|].
  eapply quiet_bind; [apply quiet_when; reflexivity|].
  apply quiet_Ret.
Qed.

(** What the setup evaluates to in a world. *)
Lemma read_feed_in a w tr x w' :
  runs_in w (read_feed a) tr x w' -> x = feed_in w a.
Proof.
  unfold read_feed, feed_in. intros [H A].
  destruct (truthy_str (args.feed a)) as [f|]; cbn [option_map].
  - split_bind H as p1 l H1. apply runs_call_inv in H1. subst p1.
    apply runs_Ret_inv in H. destruct H as [-> ->].
    cbn in A. destruct A as [-> _]. reflexivity.
  - apply runs_Ret_inv in H. tauto.
Qed.

Lemma read_date_in a w tr x w' :
  runs_in w (read_date a) tr x w' -> x = date_in w a.
Proof.
  unfold read_date, date_in. intros [H A].
  destruct (args.yesterday a); [|destruct (args.tomorrow a);
                                 [|destruct (args.date a)]];
    try (apply runs_call_inv in H; subst tr; cbn in A; tauto).
  apply runs_Ret_inv in H. tauto.
Qed.

Lemma read_options_in codes a w tr x w' :
  runs_in w (read_options codes a) tr x w' ->
  x = (team_of a, feed_in w a) /\ w' = w /\
  Forall (fun o => is_setup o = true) tr.
Proof.
  intros [H1 A1].
  assert (F : Forall (fun o => is_setup o = true) tr).
  { pose proof H1 as H. apply read_options_inv in H.
    destruct H as (tr1 & tr2 & _ & -> & F1 & F2 & _).
    repeat (apply Forall_app; split); auto. apply warning_setup. }
  split; [|split; [eapply answers_setup; eassumption|exact F]].
  clear F. unfold read_options in H1.
  split_bind H1 as p1 x1 H2. split_bind H1 as p2 x2 H3.
  split_bind H1 as p3 x3 H4. split_bind H1 as p4 x4 H5.
  split_bind H1 as p5 x5 H6. split_bind H1 as p6 x6 H7.
  split_bind H1 as p7 x7 H8. split_bind H1 as p8 x8 H9.
  split_bind H1 as pt team Ht. split_bind H1 as pf feed Hf.
  split_bind H1 as p9 x9 H10. split_bind H1 as p10 x10 H11.
  split_bind H1 as p11 x11 H12. split_bind H1 as p12 x12 H13.
  split_bind H1 as p13 x13 H14.
  apply runs_Ret_inv in H1. destruct H1 as [-> ->].
  repeat (apply answers_app in A1;
          let wi := fresh "wi" in
          let Ai := fresh "Ai" in
          destruct A1 as (wi & Ai & A1)).
  assert (Forall (fun o => is_setup o = true) p1) by setup_step.
  assert (Forall (fun o => is_setup o = true) p2) by setup_step.
  assert (Forall (fun o => is_setup o = true) p3) by setup_step.
  assert (Forall (fun o => is_setup o = true) p4) by setup_step.
  assert (Forall (fun o => is_setup o = true) p5) by setup_step.
  assert (Forall (fun o => is_setup o = true) p6) by setup_step.
  assert (Forall (fun o => is_setup o = true) p7) by setup_step.
  assert (Forall (fun o => is_setup o = true) p8) by setup_step.
  pose proof Ht as Et. apply read_team_inv in Et. destruct Et as [-> Et].
  assert (Forall (fun o => is_setup o = true) pt).
  { rewrite Et. apply warning_setup. }
  repeat match goal with
         | F : Forall _ ?p, A : answers _ ?p _ |- _ =>
             apply answers_setup in A; [|exact F]; subst
         end.
  f_equal. eapply read_feed_in. split; eassumption.
Qed.

(** In a world, [main] is its setup, which leaves the world as it is, and
    then lines 142-183 on what the setup evaluates to. *)
Lemma main_in_world codes a w tr r w' :
  runs_in w (run_games a (team_of a) (feed_in w a) (date_in w a)) tr r w' ->
  exists pre,
    runs_in w (main codes a) (pre ++ tr) r w' /\
    Forall (fun o => is_setup o = true) pre.
Proof.
  intros H.
  destruct (read_options_quiet codes a w) as (pre1 & H1 & F1).
  destruct (read_date_quiet a w) as (pre2 & H2 & F2).
  exists (pre1 ++ pre2). split; [|apply Forall_app; auto].
  unfold main. rewrite <- app_assoc.
  eapply runs_in_bind; [exact H1|]. cbn.
  eapply runs_in_bind; [exact H2|]. exact H.
Qed.

Lemma main_in_world_inv codes a w tr r w' :
  runs_in w (main codes a) tr r w' ->
  exists pre tr',
    tr = pre ++ tr' /\
    Forall (fun o => is_setup o = true) pre /\
    runs_in w (run_games a (team_of a) (feed_in w a) (date_in w a)) tr' r w'.
Proof.
  unfold main. intros [H A].
  split_bind H as pre1 x H1. destruct x as [team feedtype].
  split_bind H as pre2 date H2.
  apply answers_app in A. destruct A as (w1 & A1 & A).
  apply answers_app in A. destruct A as (w2 & A2 & A).
  destruct (@read_options_in _ _ _ _ _ _ (conj H1 A1)) as (E & -> & F1).
  injection E as -> ->.
  pose proof H2 as Fd. apply read_date_inv in Fd.
  pose proof A2 as E2. apply answers_setup in E2; [|exact Fd]. subst w2.
  assert (date = date_in w a) as ->
      by (eapply read_date_in; split; eassumption).
  exists (pre1 ++ pre2), q0.
  split; [rewrite <- !app_assoc; reflexivity|].
  split; [apply Forall_app; auto|].
  split; assumption.
Qed.

(* ===================================================================== *)
(** ** The wait in a world *)
(* ===================================================================== *)

(** A world answers in one way only. *)
Lemma runs_det {R} (t : itree mlbvE R) tr1 r1 :
  runs t tr1 r1 ->
  forall w w1 tr2 r2 w2,
    answers w tr1 w1 -> runs t tr2 r2 -> answers w tr2 w2 ->
    tr1 = tr2 /\ r1 = r2 /\ w1 = w2.
Proof.
  induction 1 as [t r Ht | t t' tr r Ht H IH | t T e k x tr r Ht H IH];
    intros w w1 tr2 r2 w2 A1 H2 A2.
  - destruct H2 as [t r2 Ht2 | t u tr2 r2 Ht2 H2 | t T2 e2 k2 x2 tr2 r2 Ht2 H2];
      rewrite Ht in Ht2; try discriminate.
    injection Ht2 as <-. cbn in A1, A2. subst. auto.
  - destruct H2 as [t r2 Ht2 | t u tr2 r2 Ht2 H2 | t T2 e2 k2 x2 tr2 r2 Ht2 H2];
      rewrite Ht in Ht2; try discriminate.
    injection Ht2 as <-. eapply IH; eassumption.
  - destruct H2 as [t r2 Ht2 | t u tr2 r2 Ht2 H2 | t T2 e2 k2 x2 tr2 r2 Ht2 H2];
      rewrite Ht in Ht2; try discriminate.
    apply eq_inv_VisF_weak in Ht2. destruct Ht2 as (p & Ee & Ek).
    destruct p. cbn in Ee, Ek. subst e2 k2.
    cbn in A1, A2. destruct A1 as [-> A1], A2 as [-> A2].
    destruct (IH _ _ _ _ _ A1 H2 A2) as (-> & -> & ->). auto.
Qed.

Lemma runs_in_det {R} w (t : itree mlbvE R) tr1 r1 w1 tr2 r2 w2 :
  runs_in w t tr1 r1 w1 -> runs_in w t tr2 r2 w2 ->
  tr1 = tr2 /\ r1 = r2 /\ w1 = w2.
Proof. intros [H1 A1] [H2 A2]. eapply runs_det; eassumption. Qed.

Lemma at_time_same w : sigint w = None -> at_time w (now w) None = w.
Proof. destruct w. cbn. intros ->. reflexivity. Qed.

Lemma at_time_at_time w t1 s1 t2 s2 :
  at_time (at_time w t1 s1) t2 s2 = at_time w t2 s2.
Proof. reflexivity. Qed.

Lemma now_at_time w t s : now (at_time w t s) = t.
Proof. reflexivity. Qed.

(** Without Ctrl-c, [n] turns are answered when the start is not reached
    at the last of their checks, and they take [10 * n] seconds. *)
Lemma turns_in_world start n : forall count w,
  sigint w = None ->
  (n <> O -> now w + 10 * Z.of_nat n - 10 < start) ->
  answers w (turns start count n) (at_time w (now w + 10 * Z.of_nat n) None).
Proof.
  induction n as [|n IH]; intros count w Hs Hn.
  - cbn. rewrite Z.add_0_r. apply at_time_same, Hs.
  - cbn [turns]. apply answers_app.
    exists (at_time w (now w + 10) None). split.
    + unfold turn. cbn. unfold reached, sleep_in. rewrite Hs. cbn.
      split; [symmetry; apply Z.leb_gt; lia|].
      split; [reflexivity|].
      destruct ((count + 1) mod 6 =? 0); cbn; auto.
    + pose proof (IH (count + 1) (at_time w (now w + 10) None) eq_refl) as A.
      rewrite at_time_at_time, now_at_time in A.
      replace (now w + 10 + 10 * Z.of_nat n)
        with (now w + 10 * Z.of_nat (S n)) in A by lia.
      apply A. intros Hn0. lia.
Qed.

Lemma polls_needed_bounds start t :
  t < start ->
  let n := polls_needed start t in
  (0 < n)%nat /\
  t + 10 * Z.of_nat n - 10 < start <= t + 10 * Z.of_nat n.
Proof.
  intros Hlt n. subst n. unfold polls_needed.
  assert (H1 : 1 <= (start - t + 9) / 10)
    by (apply Z.div_le_lower_bound; lia).
  rewrite Z2Nat.id by lia.
  split; [lia|].
  pose proof (Z.div_mod (start - t + 9) 10 ltac:(lia)) as E.
  pose proof (Z.mod_pos_bound (start - t + 9) 10 ltac:(lia)) as B.
  lia.
Qed.

Lemma standings_in_world a w c :
  truthy_str (args.standings a) = Some c ->
  runs_in w (run_games a (team_of a) (feed_in w a) (date_in w a))
          [Obs (get_standings c (date_in w a)) tt] (Returned 0) w.
Proof.
  intros Es. split.
  - apply run_games_iff. apply games_standings. exact Es.
  - cbn. auto.
Qed.

Lemma plan_play_runs a w team gd :
  sigint w = None \/
  args.wait a &&
  negb (reached (mlbdate (selector w gd team (args.game a))) w) = false ->
  runs_in w (select_and_play a team (feed_in w a) (date_in w a) gd)
          (fst (fst (plan_play a w team gd)))
          (snd (fst (plan_play a w team gd)))
          (snd (plan_play a w team gd)).
Proof.
  intros Hs. unfold plan_play.
  set (rec := selector w gd team (args.game a)) in *.
  destruct (args.wait a) eqn:Ew; cbn [andb] in *.
  - destruct (reached (mlbdate rec) w) eqn:Er; cbn [negb fst snd] in *.
    + split.
      * apply select_and_play_runs. apply play_started. exact Ew.
      * cbn. rewrite Er. auto.
    + destruct Hs as [Hs|Hs]; [|discriminate Hs].
      set (n := polls_needed (mlbdate rec) (now w)).
      set (w1 := at_time w (now w + 10 * Z.of_nat n) None).
      assert (Hlt : now w < mlbdate rec)
        by (unfold reached in Er; apply Z.leb_gt in Er; exact Er).
      destruct (polls_needed_bounds Hlt) as (Hn & Hlo & Hhi). fold n in Hn, Hlo, Hhi.
      assert (A : answers w
                    ([Obs (get_game_rec gd team (args.game a)) rec;
                      Obs (has_reached_time (mlbdate rec)) false] ++
                     waiting (mlbdate rec) (local_time w (mlbdate rec)) n None)
                    w1).
      { unfold waiting. cbn [app answers answer fst snd]. rewrite Er.
        repeat (split; [reflexivity|]).
        apply answers_app. exists w1. split.
        - apply turns_in_world; [exact Hs|]. intros _. exact Hlo.
        - cbn [leave answers answer fst snd]. unfold reached, w1.
          rewrite now_at_time.
          split; [symmetry; apply Z.leb_le; lia|reflexivity]. }
      unfold after_wait. fold w1.
      destruct (catalog w1 (now w1) (date_in w a) 1) as [|gd' rest] eqn:Ec;
        cbn [fst snd].
      * split.
        -- apply select_and_play_runs. apply play_refresh_empty. exact Ew.
        -- rewrite app_assoc. apply answers_app. exists w1.
           split; [exact A|].
           unfold refresh, play. cbn [app answers answer fst snd].
           rewrite Ec. repeat split.
      * split.
        -- apply select_and_play_runs. apply play_refreshed. exact Ew.
        -- rewrite app_assoc. apply answers_app. exists w1.
           split; [exact A|].
           unfold refresh, play. cbn [app answers answer fst snd].
           rewrite Ec. repeat split.
  - cbn [fst snd app]. split.
    + apply select_and_play_runs. apply play_no_wait. exact Ew.
    + cbn. auto.
Qed.

(** In a world without Ctrl-c, and in any world when there is no wait,
    lines 142-183 run as planned. *)
Lemma plan_runs a w :
  sigint w = None \/ waits a w = false ->
  runs_in w (run_games a (team_of a) (feed_in w a) (date_in w a))
          (fst (fst (plan a w))) (snd (fst (plan a w))) (snd (plan a w)).
Proof.
  intros Hs. unfold plan. unfold waits in Hs.
  destruct (truthy_str (args.standings a)) as [c|] eqn:Es; cbn [fst snd].
  - apply standings_in_world, Es.
  - destruct (team_of a) as [t|] eqn:Et.
    + destruct (catalog w (now w) (date_in w a) (args.days a))
        as [|gd rest] eqn:Ec; cbn [fst snd].
      * split.
        -- apply run_games_iff. eapply games_none; eauto.
        -- cbn. rewrite Ec. auto.
      * destruct (@plan_play_runs a w t gd Hs) as [H A].
        split.
        -- apply run_games_iff. eapply games_play; eauto.
           apply select_and_play_inv, H.
        -- cbn. rewrite Ec. split; [reflexivity|exact A].
    + cbn [fst snd]. split.
      * apply run_games_iff. apply games_no_team; auto.
      * cbn. auto.
Qed.

(** In a world without Ctrl-c, and in any world when there is no wait,
    [main] ends, and every run of it is setup calls followed by the
    plan. *)
Lemma main_plan codes a w :
  sigint w = None \/ waits a w = false ->
  (exists tr r w', runs_in w (main codes a) tr r w') /\
  forall tr r w', runs_in w (main codes a) tr r w' ->
    exists pre,
      Forall (fun o => is_setup o = true) pre /\
      tr = pre ++ fst (fst (plan a w)) /\
      r = snd (fst (plan a w)) /\
      w' = snd (plan a w).
Proof.
  intros Hs. pose proof (@plan_runs a w Hs) as P. split.
  - apply (main_in_world codes) in P. destruct P as (pre & H & _). eauto.
  - intros tr r w' H. apply main_in_world_inv in H.
    destruct H as (pre & tr' & -> & F & H).
    destruct (@runs_in_det _ _ _ _ _ _ _ _ _ H P) as (-> & -> & ->).
    exists pre. auto.
Qed.

(* ===================================================================== *)
(** ** The claims *)
(* ===================================================================== *)

Lemma main_inv codes a tr r :
  runs (main codes a) tr r ->
  exists pre feedtype date tr',
    tr = pre ++ tr' /\
    Forall (fun o => is_setup o = true) pre /\
    games_run a (team_of a) feedtype date tr' r.
Proof.
  intros H. apply main_iff in H.
  destruct H as [pre1 pre2 feedtype date tr r H1 H2 F Hg].
  exists (pre1 ++ pre2), feedtype, date, tr. auto.
Qed.

Ltac project F :=
  unfold waiting, refresh, play, leave;
  repeat
    (progress
       (repeat rewrite collect_app;
        rewrite ?(setup_no_fetch F), ?(setup_no_select F),
          ?(setup_no_check F), ?(setup_no_sleep F), ?(setup_no_play F),
          ?(setup_no_standings F), ?(setup_no_print F), ?turns_sleep,
          ?turns_check, ?turns_fetch, ?turns_select, ?turns_play;
        cbn [collect fetch_of select_of check_of sleep_of play_of
             standings_of print_of log_of app])).

(** C10: when the standings option is given (a category that Python
    takes as true), every run of [main] is setup calls followed by the one
    call of [get_standings], it returns 0, and it fetches no games, selects
    none, checks no start time, never sleeps and plays nothing, whatever the
    team and the wait flag; and in every world there is such a run. *)
Theorem standings_first codes a category :
  truthy_str (args.standings a) = Some category ->
  (forall w, exists tr, runs_in w (main codes a) tr (Returned 0) w) /\
  forall tr r, runs (main codes a) tr r ->
    r = Returned 0 /\
    (exists pre date,
        Forall (fun o => is_setup o = true) pre /\
        tr = pre ++ [Obs (get_standings category date) tt]) /\
    collect fetch_of tr = [] /\ collect select_of tr = [] /\
    collect check_of tr = [] /\ collect sleep_of tr = [] /\
    collect play_of tr = [].
Proof.
  intros Es. split.
  - intros w.
    pose proof (standings_in_world a w Es) as H.
    apply (main_in_world codes) in H. destruct H as (pre & H & _). eauto.
  - intros tr r H. apply main_inv in H.
    destruct H as (pre & feedtype & date & tr' & -> & F & Hg).
    destruct Hg as [c Es' | gdl Es' _ | t Es' _ | t gd rest tr r Es' _ _];
      try congruence.
    assert (c = category) as -> by congruence.
    split; [reflexivity|]. split; [eauto|].
    project F. repeat split.
Qed.

Lemma standings_first_witness :
  exists tr,
    runs_in (Sample.world 100 None 130)
            (main Sample.codes (Sample.with_standings "division")) tr
            (Returned 0) (Sample.world 100 None 130).
Proof.
  exact (proj1 (@standings_first Sample.codes
                  (Sample.with_standings "division") "division" eq_refl)
               (Sample.world 100 None 130)).
Defined.

Lemma games_run_dates a team feedtype date tr r :
  games_run a team feedtype date tr r ->
  forall f, In f (collect fetch_of tr) -> fst (fst (fst f)) = date.
Proof.
  intros Hg f.
  destruct Hg as [c Es | gdl Es Et | t Es Et | t gd rest tr r Es Et Hp].
  - intros [].
  - intros [<-|[]]. reflexivity.
  - intros [<-|[]]. reflexivity.
  - destruct Hp as [rec code Ew | rec code Ew | rec local n e Ew
                   | rec local n Ew | rec local n gd' rest' rec' code Ew];
      project (Forall_nil (fun o => is_setup o = true));
      rewrite ?app_nil_r; cbn;
      intros Hin; repeat (destruct Hin as [<-|Hin]; [reflexivity|]);
      destruct Hin.
Qed.

(** In a world, the games are fetched for the date of the invocation. *)
Lemma fetch_dates codes a w tr r w' :
  runs_in w (main codes a) tr r w' ->
  forall f, In f (collect fetch_of tr) -> fst (fst (fst f)) = date_in w a.
Proof.
  intros H f Hin. apply main_in_world_inv in H.
  destruct H as (pre & tr' & -> & F & [H _]).
  rewrite collect_app, (setup_no_fetch F) in Hin. cbn [app] in Hin.
  apply run_games_iff in H. eapply games_run_dates; eassumption.
Qed.

(** C9: every run of [main] calls [retrieve_and_display_game_data] at most
    twice: the first call is for the requested date and [--days], the second
    one, made after the wait only, is for the same date, one day, and with
    the display off.  In a world, the date is the date of the invocation. *)
Theorem at_most_two_fetches codes a tr r :
  runs (main codes a) tr r ->
  (List.length (collect fetch_of tr) <= 2)%nat /\
  (exists date,
    collect fetch_of tr = [] \/
    (exists gdl,
        collect fetch_of tr =
        [(date, args.days a,
          match team_of a with None => true | Some _ => false end, gdl)]) \/
    (exists gdl gdl',
        collect fetch_of tr =
        [(date, args.days a, false, gdl); (date, 1, false, gdl')])) /\
  (forall w w' f,
      answers w tr w' -> In f (collect fetch_of tr) ->
      fst (fst (fst f)) = date_in w a).
Proof.
  intros H. split; [|split].
  3: { intros w w' f A. apply (@fetch_dates codes a w tr r w'). split; auto. }
  all: apply main_inv in H;
    destruct H as (pre & feedtype & date & tr' & -> & F & Hg).
  all: assert (G : collect fetch_of (pre ++ tr') = [] \/
    (exists gdl,
        collect fetch_of (pre ++ tr') =
        [(date, args.days a,
          match team_of a with None => true | Some _ => false end, gdl)]) \/
    (exists gdl gdl',
        collect fetch_of (pre ++ tr') =
        [(date, args.days a, false, gdl); (date, 1, false, gdl')])).
  1, 3: destruct Hg as [c Es | gdl Es Et | t Es Et | t gd rest tr r Es Et Hp];
      try rewrite Et;
      [ left; project F; reflexivity
      | right; left; exists gdl; project F; reflexivity
      | right; left; exists []; project F; reflexivity
      | destruct Hp as [rec code Ew | rec code Ew | rec local n e Ew
                       | rec local n Ew | rec local n gd' rest' rec' code Ew];
        [ right; left; exists (gd :: rest); project F; reflexivity
        | right; left; exists (gd :: rest); project F; reflexivity
        | right; left; exists (gd :: rest); project F; reflexivity
        | right; right; exists (gd :: rest), []; project F; reflexivity
        | right; right; exists (gd :: rest), (gd' :: rest'); project F;
          reflexivity ] ].
  - destruct G as [-> | [(gdl & ->) | (gdl & gdl' & ->)]]; cbn; lia.
  - exists date. exact G.
Qed.

Lemma at_most_two_fetches_witness :
  (List.length
     (collect fetch_of
        (trace_in 100 (Sample.world 100 None 130)
           (main Sample.codes (Sample.with_team "BOS" true 2)))) <= 2)%nat.
Proof.
  refine (proj1 (@at_most_two_fetches Sample.codes
                   (Sample.with_team "BOS" true 2) _ (Returned 0) _)).
  apply (@exec_sound _ 100 _ (Sample.world 100 None 130) _ _
           (Sample.world 130 None 130)).
  vm_compute. reflexivity.
Defined.

(** C1: in a world without Ctrl-c, with [--wait], a team, no standings and
    a first fetch that is not empty, when the start of the selected game is
    strictly in the future, [main] ends, and every run of it sleeps exactly
    [n = polls_needed start now] times, 10 seconds each: all the checks of
    the start time before the last one fail, the last one, at time
    [now + 10 * n], succeeds, and this is the first multiple of 10 seconds
    at which the start is reached; the calls of the refresh follow.  The
    loop itself has no bound: whatever the number [k] of failed checks, it
    takes [k] turns. *)
Theorem wait_ends_at_start codes a w t gd rest :
  sigint w = None ->
  args.wait a = true ->
  truthy_str (args.standings a) = None ->
  truthy_str (args.team a) = Some t ->
  catalog w (now w) (date_in w a) (args.days a) = gd :: rest ->
  let start := mlbdate (selector w gd (lower t) (args.game a)) in
  now w < start ->
  let n := polls_needed start (now w) in
  (exists tr r w', runs_in w (main codes a) tr r w') /\
  (forall tr r w', runs_in w (main codes a) tr r w' ->
     (0 < n)%nat /\
     now w + 10 * Z.of_nat n - 10 < start <= now w + 10 * Z.of_nat n /\
     now w' = now w + 10 * Z.of_nat n /\
     collect sleep_of tr = repeat (10, Woke) n /\
     collect check_of tr = repeat (start, false) (S n) ++ [(start, true)] /\
     exists pre gdl post,
       tr = pre ++ turns start 0 n ++
            [Obs (has_reached_time start) true] ++
            refresh (date_in w a) gdl ++ post /\
       collect sleep_of pre = [] /\ collect sleep_of post = []) /\
  (forall k,
      runs (ITree.iter (poll start) 0) (turns start 0 k ++ leave start None)
           None).
Proof.
  intros Hs Ew Es Et Ec start Hlt n.
  destruct (@main_plan codes a w (or_introl Hs)) as [Hex Hall].
  split; [exact Hex|]. split; [|intros k; apply loop_runs].
  intros tr r w' H. apply Hall in H. clear Hex Hall.
  destruct H as (pre & F & -> & -> & ->).
  destruct (polls_needed_bounds Hlt) as (Hn & Hlo & Hhi).
  fold n in Hn, Hlo, Hhi.
  unfold plan. rewrite Es. unfold team_of. rewrite Et. cbn [option_map].
  rewrite Ec. cbn [fst snd]. unfold plan_play. rewrite Ew. fold start.
  assert (Er : reached start w = false)
    by (unfold reached; apply Z.leb_gt; exact Hlt).
  rewrite Er. cbn [andb negb fst snd]. fold n.
  set (w1 := at_time w (now w + 10 * Z.of_nat n) None).
  split; [exact Hn|]. split; [split; [exact Hlo|exact Hhi]|].
  split; [reflexivity|].
  assert (Ha : exists gdl post,
             fst (after_wait a w w1 (lower t)) =
             refresh (date_in w a) gdl ++ post /\
             collect sleep_of post = [] /\ collect check_of post = []).
  { unfold after_wait.
    destruct (catalog w1 (now w1) (date_in w a) 1) as [|gd' rest'];
      cbn [fst]; eexists; eexists; split; try reflexivity; split; reflexivity. }
  destruct Ha as (gdl & post & -> & Hp1 & Hp2).
  split; [|split].
  - project F. rewrite Hp1. rewrite !app_nil_r. reflexivity.
  - project F. rewrite Hp2. rewrite ?app_nil_r. reflexivity.
  - exists (pre ++
            [Obs (retrieve_and_display_game_data (date_in w a) (args.days a)
                    false) (gd :: rest);
             Obs (get_game_rec gd (lower t) (args.game a))
                 (selector w gd (lower t) (args.game a));
             Obs (has_reached_time start) false;
             Obs (convert_time_to_local start) (local_time w start);
             Obs (LOG info
                    ("Waiting for game to start. Local start time is " ++
                     local_time w start)%string) tt;
             Obs (print "Use Ctrl-c to quit .") tt]), gdl, post.
    split; [|split; [|exact Hp1]].
    + unfold waiting, leave. rewrite <- (app_assoc pre).
      cbn [app]. rewrite <- (app_assoc (turns start 0 n)). reflexivity.
    + rewrite collect_app, (setup_no_sleep F). reflexivity.
Qed.

Lemma wait_ends_at_start_witness :
  exists tr r w',
    runs_in (Sample.world 100 None 130)
            (main Sample.codes (Sample.with_team "BOS" true 1)) tr r w'.
Proof.
  refine (proj1 (@wait_ends_at_start Sample.codes
                   (Sample.with_team "BOS" true 1) (Sample.world 100 None 130)
                   "BOS" [Sample.game 130] []
                   eq_refl eq_refl eq_refl eq_refl eq_refl _)).
  cbn. lia.
Defined.

(** C3: every run of [main] with nothing to play returns 0 and never calls
    [play_stream]: when no team is given, when the first fetch answers the
    empty list, and when the fetch after the wait answers the empty list, in
    which case an error is logged as well.  Such runs exist: in every world
    [main] ends with 0 when no team is given or the catalog is empty, and
    in a world without Ctrl-c it does when the catalog is empty at the end
    of the wait. *)
Theorem nothing_to_play codes a :
  (forall tr r, runs (main codes a) tr r ->
     (truthy_str (args.team a) = None ->
      r = Returned 0 /\ collect play_of tr = []) /\
     (forall f rest,
         collect fetch_of tr = f :: rest -> snd f = [] ->
         r = Returned 0 /\ collect play_of tr = []) /\
     (forall f1 f2,
         collect fetch_of tr = [f1; f2] -> snd f2 = [] ->
         r = Returned 0 /\ collect play_of tr = [] /\
         In (error,
             "Unexpected error: no game data found after refresh on wait")
            (collect log_of tr))) /\
  (forall w,
      truthy_str (args.team a) = None \/
      catalog w (now w) (date_in w a) (args.days a) = [] ->
      exists tr, runs_in w (main codes a) tr (Returned 0) w) /\
  (forall w t gd rest,
      sigint w = None ->
      args.wait a = true ->
      truthy_str (args.standings a) = None ->
      truthy_str (args.team a) = Some t ->
      catalog w (now w) (date_in w a) (args.days a) = gd :: rest ->
      let start := mlbdate (selector w gd (lower t) (args.game a)) in
      now w < start ->
      let t1 := now w + 10 * Z.of_nat (polls_needed start (now w)) in
      catalog w t1 (date_in w a) 1 = [] ->
      exists tr w', runs_in w (main codes a) tr (Returned 0) w').
Proof.
  split; [|split].
  - intros tr r H. apply main_inv in H.
    destruct H as (pre & feedtype & date & tr' & -> & F & Hg).
    destruct Hg as [c Es | gdl Es Et | t Es Et | t gd rest tr r Es Et Hp].
    + project F. repeat split; intros; try discriminate; reflexivity.
    + project F. repeat split; intros; try discriminate; reflexivity.
    + project F. repeat split; intros; try discriminate; reflexivity.
    + assert (Hteam : truthy_str (args.team a) <> None).
      { unfold team_of in Et. destruct (truthy_str (args.team a));
          [discriminate|discriminate Et]. }
      destruct Hp as [rec code Ew | rec code Ew | rec local n e Ew
                     | rec local n Ew | rec local n gd' rest' rec' code Ew];
        project F; (split; [intros E; contradiction|]); split;
        try (intros f fs E Hf; injection E as <- <-; discriminate Hf);
        try (intros f1 f2 E Hf; discriminate E).
      * intros f1 f2 _ _. split; [reflexivity|]. split; [reflexivity|].
        apply in_or_app. right. right.
        apply in_or_app. right. right. left. reflexivity.
  - intros w Hc.
    assert (Hw : waits a w = false).
    { unfold waits. destruct (truthy_str (args.standings a)); [reflexivity|].
      destruct Hc as [Hc | Hc].
      - unfold team_of. rewrite Hc. reflexivity.
      - rewrite Hc. destruct (team_of a); reflexivity. }
    destruct (@main_plan codes a w (or_intror Hw))
      as [(tr & r & w' & H) Hall].
    destruct (Hall _ _ _ H) as (pre & F & _ & Er & Ew).
    assert (Hplan : snd (fst (plan a w)) = Returned 0 /\ snd (plan a w) = w).
    { unfold plan.
      destruct (truthy_str (args.standings a)); [split; reflexivity|].
      destruct Hc as [Hc | Hc].
      - unfold team_of. rewrite Hc. split; reflexivity.
      - rewrite Hc. destruct (team_of a); split; reflexivity. }
    destruct Hplan as [Hr Hw']. rewrite Hr in Er. rewrite Hw' in Ew.
    subst r w'. exists tr. exact H.
  - intros w t gd rest Hs Ew Es Et Ec start Hlt t1 Hc.
    destruct (@main_plan codes a w (or_introl Hs))
      as [(tr & r & w' & H) Hall].
    destruct (Hall _ _ _ H) as (pre & F & _ & Er & _).
    exists tr, w'. replace (Returned 0) with r; [exact H|].
    rewrite Er. unfold plan. rewrite Es. unfold team_of. rewrite Et.
    cbn [option_map]. rewrite Ec. cbn [fst snd]. unfold plan_play.
    rewrite Ew. fold start.
    assert (E : reached start w = false)
      by (unfold reached; apply Z.leb_gt; exact Hlt).
    rewrite E. cbn [andb negb fst snd]. unfold after_wait.
    rewrite now_at_time. fold t1.
    change (catalog (at_time w t1 None)) with (catalog w).
    rewrite Hc. reflexivity.
Qed.

Lemma nothing_to_play_witness :
  In (error, "Unexpected error: no game data found after refresh on wait")
     (collect log_of
        (trace_in 100 (Sample.vanishing_world 100 120 130)
           (main Sample.codes (Sample.with_team "BOS" true 1)))).
Proof.
  assert (H : runs (main Sample.codes (Sample.with_team "BOS" true 1))
                (trace_in 100 (Sample.vanishing_world 100 120 130)
                   (main Sample.codes (Sample.with_team "BOS" true 1)))
                (Returned 0)).
  { apply exec_runs. vm_compute. reflexivity. }
  destruct (proj1 (nothing_to_play Sample.codes
                     (Sample.with_team "BOS" true 1)) _ _ H) as (_ & _ & H3).
  refine (proj2 (proj2 (H3 ("2018-06-01", 1, false, [[Sample.game 130]])
                          ("2018-06-01", 1, false, []) _ eq_refl))).
  vm_compute. reflexivity.
Defined.

(** The first check of the start time is answered at the time of the
    invocation, for the start of the selected game. *)
Lemma first_check codes a tr r w w' start b checks :
  runs (main codes a) tr r -> answers w tr w' ->
  collect check_of tr = (start, b) :: checks ->
  b = reached start w /\
  exists gd t g rec sels,
    collect select_of tr = (gd, t, g, rec) :: sels /\ start = mlbdate rec.
Proof.
  intros H A Hc. apply main_inv in H.
  destruct H as (pre & feedtype & date & tr' & -> & F & Hg).
  apply answers_app in A. destruct A as (w1 & A1 & A).
  apply answers_setup in A1; [|exact F]. subst w1.
  rewrite collect_app, (setup_no_check F) in Hc. cbn [app] in Hc.
  rewrite collect_app, (setup_no_select F). cbn [app].
  destruct Hg as [c Es | gdl Es Et | t Es Et | t gd rest tr r Es Et Hp];
    try discriminate Hc.
  destruct Hp as [rec code Ew | rec code Ew | rec local n e Ew
                 | rec local n Ew | rec local n gd' rest' rec' code Ew];
    try discriminate Hc;
    cbn in Hc; injection Hc as <- <- _;
    cbn [app answers answer fst snd] in A;
    (split; [tauto|]); do 5 eexists; cbn; split; reflexivity.
Qed.

Lemma plan_no_wait a w :
  waits a w = false ->
  snd (plan a w) = w /\ collect sleep_of (fst (fst (plan a w))) = [].
Proof.
  unfold waits, plan, plan_play.
  destruct (truthy_str (args.standings a)); [split; reflexivity|].
  destruct (team_of a); [|split; reflexivity].
  destruct (catalog w (now w) (date_in w a) (args.days a));
    [split; reflexivity|].
  intros ->. cbn [fst snd]. split; [reflexivity|].
  destruct (args.wait a); reflexivity.
Qed.

(** C4: in every run of [main], without [--wait] the start time is never
    checked and there is no sleep; with [--wait], when the first check finds
    the start reached (in a world: when the start is at or before the
    current time), it is the only check and there is no sleep.  In both
    cases the record selected is played at once: it is the only selection,
    and [main] returns what [play_stream] returns for it.  In every world
    in which there is no [--wait] or the start of the selected game is
    reached, [main] ends without a sleep and no time has passed. *)
Theorem proceeds_without_polling codes a :
  (forall w,
      args.wait a = false \/ waits a w = false ->
      exists tr r,
        runs_in w (main codes a) tr r w /\ collect sleep_of tr = []) /\
  forall tr r,
    runs (main codes a) tr r ->
    (args.wait a = false -> collect check_of tr = []) /\
    (forall w w' start b checks,
        answers w tr w' -> collect check_of tr = (start, b) :: checks ->
        b = (start <=? now w)) /\
    (args.wait a = false \/
     (exists start checks, collect check_of tr = (start, true) :: checks) ->
     collect sleep_of tr = [] /\
     (List.length (collect check_of tr) <= 1)%nat /\
     forall gd t g rec sels,
       collect select_of tr = (gd, t, g, rec) :: sels ->
       sels = [] /\
       exists feedtype date code pre,
         tr = pre ++ [play a t feedtype date rec code] /\
         collect play_of pre = [] /\
         r = Returned code).
Proof.
  split.
  { intros w Hw.
    assert (Hw' : waits a w = false).
    { destruct Hw as [Hw|Hw]; [|exact Hw]. unfold waits. rewrite Hw.
      destruct (truthy_str (args.standings a)); [reflexivity|].
      destruct (team_of a); [|reflexivity].
      destruct (catalog w (now w) (date_in w a) (args.days a)); reflexivity. }
    destruct (@main_plan codes a w (or_intror Hw'))
      as [(tr & r & w' & H) Hall].
    destruct (Hall _ _ _ H) as (pre & F & Etr & _ & Ew).
    destruct (plan_no_wait a w Hw') as [E1 E2].
    rewrite E1 in Ew. subst w'. exists tr, r. split; [exact H|].
    rewrite Etr, collect_app, (setup_no_sleep F), E2. reflexivity. }
  intros tr r H.
  split; [|split].
  - intros Ew. apply main_inv in H.
    destruct H as (pre & feedtype & date & tr' & -> & F & Hg).
    destruct Hg as [c Es | gdl Es Et | t Es Et | t gd rest tr r Es Et Hp];
      try (project F; reflexivity).
    destruct Hp; try congruence. project F. reflexivity.
  - intros w w' start b checks A Hc.
    destruct (@first_check _ _ _ _ _ _ _ _ _ H A Hc) as [Hb _]. exact Hb.
  - intros Hw. apply main_inv in H.
    destruct H as (pre & feedtype & date & tr' & -> & F & Hg).
    destruct Hg as [c Es | gdl Es Et | t Es Et | t gd rest tr r Es Et Hp].
    + project F. split; [reflexivity|]. split; [cbn; lia|].
      intros gd0 t0 g rec0 sels E. discriminate E.
    + project F. split; [reflexivity|]. split; [cbn; lia|].
      intros gd0 t0 g rec0 sels E. discriminate E.
    + project F. split; [reflexivity|]. split; [cbn; lia|].
      intros gd0 t0 g rec0 sels E. discriminate E.
    + destruct Hp as [rec code Ew | rec code Ew | rec local n e Ew
                     | rec local n Ew | rec local n gd' rest' rec' code Ew];
        try (exfalso; destruct Hw as [Hw | (start & checks & Hw)];
             [congruence|];
             revert Hw; project F; intros Hw; discriminate Hw).
      * project F. split; [reflexivity|]. split; [cbn; lia|].
        intros gd0 t0 g rec0 sels E. injection E as <- <- <- <- <-.
        split; [reflexivity|].
        exists feedtype, date, code,
          (pre ++ [Obs (retrieve_and_display_game_data date (args.days a) false)
                       (gd :: rest);
                   Obs (get_game_rec gd t (args.game a)) rec]).
        split; [rewrite <- app_assoc; reflexivity|].
        split; [project F; reflexivity|reflexivity].
      * project F. split; [reflexivity|]. split; [cbn; lia|].
        intros gd0 t0 g rec0 sels E. injection E as <- <- <- <- <-.
        split; [reflexivity|].
        exists feedtype, date, code,
          (pre ++ [Obs (retrieve_and_display_game_data date (args.days a) false)
                       (gd :: rest);
                   Obs (get_game_rec gd t (args.game a)) rec;
                   Obs (has_reached_time (mlbdate rec)) true]).
        split; [rewrite <- app_assoc; reflexivity|].
        split; [project F; reflexivity|reflexivity].
Qed.

Lemma proceeds_without_polling_witness :
  collect sleep_of
    (trace_in 100 (Sample.world 200 None 130)
       (main Sample.codes (Sample.with_team "BOS" true 1))) = [].
Proof.
  assert (H : runs (main Sample.codes (Sample.with_team "BOS" true 1))
                (trace_in 100 (Sample.world 200 None 130)
                   (main Sample.codes (Sample.with_team "BOS" true 1)))
                (Returned 0)).
  { apply exec_runs. vm_compute. reflexivity. }
  refine (proj1 (proj2 (proj2 (proj2 (@proceeds_without_polling _ _) _ _ H))
                  _)).
  right. exists 130, []. vm_compute. reflexivity.
Defined.

(** C5: in every run of [main], when Ctrl-c ends a sleep of the polling
    loop, that sleep is the last call of the run, [KeyboardInterrupt] leaves
    [main], and [play_stream] is never called (nor is the catalog fetched
    again). *)
Theorem interrupt_stops_without_play codes a tr r secs :
  runs (main codes a) tr r ->
  In (secs, Interrupted) (collect sleep_of tr) ->
  r = Raised KeyboardInterrupt /\
  collect play_of tr = [] /\
  List.length (collect fetch_of tr) = 1%nat /\
  exists pre,
    tr = pre ++ [Obs (sleep 10) Interrupted] /\
    ~ In (secs, Interrupted) (collect sleep_of pre).
Proof.
  intros H Hin. apply main_inv in H.
  destruct H as (pre & feedtype & date & tr' & -> & F & Hg).
  assert (Hrep : forall n, ~ In (secs, Interrupted) (repeat (10, Woke) n)).
  { intros n Hn. apply repeat_spec in Hn. discriminate Hn. }
  destruct Hg as [c Es | gdl Es Et | t Es Et | t gd rest tr r Es Et Hp];
    try (revert Hin; project F; intros []).
  destruct Hp as [rec code Ew | rec code Ew | rec local n e Ew
                 | rec local n Ew | rec local n gd' rest' rec' code Ew];
    revert Hin; project F; rewrite ?app_nil_r; intros Hin.
  - destruct Hin.
  - destruct Hin.
  - destruct e. split; [reflexivity|]. split; [reflexivity|].
    split; [reflexivity|].
    exists (pre ++
            [Obs (retrieve_and_display_game_data date (args.days a) false)
                 (gd :: rest);
             Obs (get_game_rec gd t (args.game a)) rec;
             Obs (has_reached_time (mlbdate rec)) false] ++
            [Obs (convert_time_to_local (mlbdate rec)) local;
             Obs (LOG info
                    ("Waiting for game to start. Local start time is " ++
                     local)%string) tt;
             Obs (print "Use Ctrl-c to quit .") tt] ++
            turns (mlbdate rec) 0 n ++
            [Obs (has_reached_time (mlbdate rec)) false]).
    split.
    + rewrite <- !app_assoc. reflexivity.
    + project F. rewrite ?app_nil_r. apply Hrep.
  - exfalso. exact (Hrep _ Hin).
  - exfalso. exact (Hrep _ Hin).
Qed.

Lemma interrupt_stops_without_play_witness :
  result_in 100 (Sample.world 100 (Some 115) 130)
    (main Sample.codes (Sample.with_team "BOS" true 1)) =
  Some (Raised KeyboardInterrupt).
Proof.
  assert (H : exists r,
             result_in 100 (Sample.world 100 (Some 115) 130)
               (main Sample.codes (Sample.with_team "BOS" true 1)) = Some r /\
             runs (main Sample.codes (Sample.with_team "BOS" true 1))
               (trace_in 100 (Sample.world 100 (Some 115) 130)
                  (main Sample.codes (Sample.with_team "BOS" true 1))) r).
  { eexists. split; [vm_compute; reflexivity|].
    apply exec_runs. vm_compute. reflexivity. }
  destruct H as (r & E & H). rewrite E. f_equal.
  refine (proj1 (@interrupt_stops_without_play _ _ _ _ 10 H _)).
  vm_compute. auto.
Defined.

Lemma waiting_turns before start local n e post :
  collect check_of before = [] -> collect sleep_of before = [] ->
  collect print_of before = [] ->
  collect check_of post = [] -> collect sleep_of post = [] ->
  collect print_of post = [] ->
  exists pre,
    before ++ [Obs (has_reached_time start) false] ++
    waiting start local n e ++ post =
    pre ++ flat_map (fun i => turn start (Z.of_nat i)) (seq 0 n) ++
    leave start e ++ post /\
    collect check_of pre = [(start, false)] /\
    collect sleep_of pre = [] /\
    collect print_of pre = ["Use Ctrl-c to quit ."] /\
    collect check_of
      (before ++ [Obs (has_reached_time start) false] ++
       waiting start local n e ++ post) =
    (start, false) :: repeat (start, false) n ++
    [(start, match e with None => true | Some _ => false end)] /\
    collect sleep_of
      (before ++ [Obs (has_reached_time start) false] ++
       waiting start local n e ++ post) =
    repeat (10, Woke) n ++
    match e with None => [] | Some _ => [(10, Interrupted)] end /\
    collect print_of
      (before ++ [Obs (has_reached_time start) false] ++
       waiting start local n e ++ post) =
    "Use Ctrl-c to quit ." :: repeat "." (Z.to_nat (Z.of_nat n / 6)).
Proof.
  intros Hb1 Hb2 Hb3 Hp1 Hp2 Hp3.
  exists (before ++
          [Obs (has_reached_time start) false;
           Obs (convert_time_to_local start) local;
           Obs (LOG info
                  ("Waiting for game to start. Local start time is " ++
                   local)%string) tt;
           Obs (print "Use Ctrl-c to quit .") tt]).
  rewrite <- turns_flat_map. unfold waiting.
  split; [rewrite <- !app_assoc; reflexivity|].
  rewrite !collect_app, Hb1, Hb2, Hb3, Hp1, Hp2, Hp3, turns_check,
    turns_sleep, turns_print, !app_nil_r by lia.
  rewrite Z.add_0_l. change (0 / 6) with 0. rewrite Z.sub_0_r.
  do 3 (split; [reflexivity|]).
  destruct e; cbn [leave collect check_of sleep_of print_of app];
    rewrite ?app_nil_r; repeat split; reflexivity.
Qed.

(** C6: the polling loop, turn by turn.  A run of [main] in which no check
    of the start time fails never sleeps and prints nothing.  Every other
    run is: calls with one check, which fails, no sleep, and the line
    [Use Ctrl-c to quit .] as their only output; then the turns of the
    loop, numbered from 0, turn [i] being a failed check of the start time,
    a sleep of 10 seconds and, exactly when [i + 1] is a multiple of 6, a
    dot; then the way out of the loop, which is the check that succeeds,
    or a failed check and the sleep that Ctrl-c ends; then calls without
    check, sleep or output.  So every sleep is of 10 seconds and is
    followed by a check of the same start time, [n] turns print [n / 6]
    dots, and the run returns unless Ctrl-c ended it. *)
Theorem polling_turns codes a tr r :
  runs (main codes a) tr r ->
  (Forall (fun c => snd c = true) (collect check_of tr) /\
   collect sleep_of tr = [] /\ collect print_of tr = []) \/
  (exists pre start n e post,
      tr = pre ++
           flat_map
             (fun i =>
                [Obs (has_reached_time start) false; Obs (sleep 10) Woke] ++
                (if (Z.of_nat i + 1) mod 6 =? 0 then [Obs (print ".") tt]
                 else []))
             (seq 0 n) ++
           match e with
           | None => [Obs (has_reached_time start) true]
           | Some _ => [Obs (has_reached_time start) false;
                        Obs (sleep 10) Interrupted]
           end ++ post /\
      collect check_of pre = [(start, false)] /\
      collect sleep_of pre = [] /\
      collect print_of pre = ["Use Ctrl-c to quit ."] /\
      collect check_of post = [] /\ collect sleep_of post = [] /\
      collect print_of post = [] /\
      collect check_of tr =
      (start, false) :: repeat (start, false) n ++
      [(start, match e with None => true | Some _ => false end)] /\
      collect sleep_of tr =
      repeat (10, Woke) n ++
      match e with None => [] | Some _ => [(10, Interrupted)] end /\
      collect print_of tr =
      "Use Ctrl-c to quit ." :: repeat "." (Z.to_nat (Z.of_nat n / 6)) /\
      match e with
      | None => exists code, r = Returned code
      | Some x => r = Raised x
      end).
Proof.
  intros H. apply main_inv in H.
  destruct H as (pre & feedtype & date & tr' & -> & F & Hg).
  destruct Hg as [c Es | gdl Es Et | t Es Et | t gd rest tr r Es Et Hp];
    try (left; project F; repeat split; constructor).
  assert (Hshape : forall rec local n e post,
    collect check_of post = [] -> collect sleep_of post = [] ->
    collect print_of post = [] ->
    exists pre',
      pre ++
      Obs (retrieve_and_display_game_data date (args.days a) false)
          (gd :: rest) ::
      [Obs (get_game_rec gd t (args.game a)) rec;
       Obs (has_reached_time (mlbdate rec)) false] ++
      waiting (mlbdate rec) local n e ++ post =
      pre' ++
      flat_map (fun i => turn (mlbdate rec) (Z.of_nat i)) (seq 0 n) ++
      leave (mlbdate rec) e ++ post /\
      collect check_of pre' = [(mlbdate rec, false)] /\
      collect sleep_of pre' = [] /\
      collect print_of pre' = ["Use Ctrl-c to quit ."] /\
      collect check_of
        (pre ++
         Obs (retrieve_and_display_game_data date (args.days a) false)
             (gd :: rest) ::
         [Obs (get_game_rec gd t (args.game a)) rec;
          Obs (has_reached_time (mlbdate rec)) false] ++
         waiting (mlbdate rec) local n e ++ post) =
      (mlbdate rec, false) :: repeat (mlbdate rec, false) n ++
      [(mlbdate rec, match e with None => true | Some _ => false end)] /\
      collect sleep_of
        (pre ++
         Obs (retrieve_and_display_game_data date (args.days a) false)
             (gd :: rest) ::
         [Obs (get_game_rec gd t (args.game a)) rec;
          Obs (has_reached_time (mlbdate rec)) false] ++
         waiting (mlbdate rec) local n e ++ post) =
      repeat (10, Woke) n ++
      match e with None => [] | Some _ => [(10, Interrupted)] end /\
      collect print_of
        (pre ++
         Obs (retrieve_and_display_game_data date (args.days a) false)
             (gd :: rest) ::
         [Obs (get_game_rec gd t (args.game a)) rec;
          Obs (has_reached_time (mlbdate rec)) false] ++
         waiting (mlbdate rec) local n e ++ post) =
      "Use Ctrl-c to quit ." :: repeat "." (Z.to_nat (Z.of_nat n / 6))).
  { intros rec local n e post Hp1 Hp2 Hp3.
    assert (Hb : collect check_of
                   (pre ++
                    [Obs (retrieve_and_display_game_data date (args.days a)
                            false) (gd :: rest);
                     Obs (get_game_rec gd t (args.game a)) rec]) = [] /\
                 collect sleep_of
                   (pre ++
                    [Obs (retrieve_and_display_game_data date (args.days a)
                            false) (gd :: rest);
                     Obs (get_game_rec gd t (args.game a)) rec]) = [] /\
                 collect print_of
                   (pre ++
                    [Obs (retrieve_and_display_game_data date (args.days a)
                            false) (gd :: rest);
                     Obs (get_game_rec gd t (args.game a)) rec]) = []).
    { rewrite !collect_app, (setup_no_check F), (setup_no_sleep F),
        (setup_no_print F). repeat split; reflexivity. }
    destruct Hb as (Hb1 & Hb2 & Hb3).
    pose proof (@waiting_turns _ (mlbdate rec) local n e post
                  Hb1 Hb2 Hb3 Hp1 Hp2 Hp3) as W.
    rewrite <- !app_assoc in W. exact W. }
  destruct Hp as [rec code Ew | rec code Ew | rec local n e Ew
                 | rec local n Ew | rec local n gd' rest' rec' code Ew].
  - left. project F. repeat split; constructor.
  - left. project F. repeat split; repeat constructor.
  - right.
    destruct (Hshape rec local n (Some e) [] eq_refl eq_refl eq_refl)
      as (pre' & E & Hrest).
    rewrite !app_nil_r in *.
    exists pre', (mlbdate rec), n, (Some e), [].
    rewrite !app_nil_r.
    split; [exact E|]. tauto.
  - right.
    destruct (Hshape rec local n None
                (refresh date [] ++
                 [Obs (LOG error
                    "Unexpected error: no game data found after refresh on wait")
                    tt]) eq_refl eq_refl eq_refl)
      as (pre' & E & Hrest).
    exists pre', (mlbdate rec), n, None,
      (refresh date [] ++
       [Obs (LOG error
          "Unexpected error: no game data found after refresh on wait") tt]).
    split; [exact E|].
    repeat (split; [tauto || reflexivity|]). eauto.
  - right.
    destruct (Hshape rec local n None
                (refresh date (gd' :: rest') ++
                 [Obs (get_game_rec gd' t (args.game a)) rec';
                  play a t feedtype date rec' code]) eq_refl eq_refl eq_refl)
      as (pre' & E & Hrest).
    exists pre', (mlbdate rec), n, None,
      (refresh date (gd' :: rest') ++
       [Obs (get_game_rec gd' t (args.game a)) rec';
        play a t feedtype date rec' code]).
    split; [exact E|].
    repeat (split; [tauto || reflexivity|]). eauto.
Qed.

Lemma polling_turns_witness :
  exists pre post,
    trace_in 200 (Sample.world 100 None 230)
      (main Sample.codes (Sample.with_team "BOS" true 1)) =
    pre ++
    flat_map
      (fun i =>
         [Obs (has_reached_time 230) false; Obs (sleep 10) Woke] ++
         (if (Z.of_nat i + 1) mod 6 =? 0 then [Obs (print ".") tt] else []))
      (seq 0 13) ++
    [Obs (has_reached_time 230) true] ++ post /\
    collect print_of
      (trace_in 200 (Sample.world 100 None 230)
         (main Sample.codes (Sample.with_team "BOS" true 1))) =
    ["Use Ctrl-c to quit ."; "."; "."].
Proof.
  assert (H : runs (main Sample.codes (Sample.with_team "BOS" true 1))
                (trace_in 200 (Sample.world 100 None 230)
                   (main Sample.codes (Sample.with_team "BOS" true 1)))
                (Returned 0)).
  { apply exec_runs. vm_compute. reflexivity. }
  assert (Ec : hd (0, true)
                 (collect check_of
                    (trace_in 200 (Sample.world 100 None 230)
                       (main Sample.codes (Sample.with_team "BOS" true 1)))) =
               (230, false)) by (vm_compute; reflexivity).
  assert (Es : collect sleep_of
                 (trace_in 200 (Sample.world 100 None 230)
                    (main Sample.codes (Sample.with_team "BOS" true 1))) =
               repeat (10, Woke) 13) by (vm_compute; reflexivity).
  destruct (@polling_turns _ _ _ _ H)
    as [(_ & Hs & _) |
        (pre & start & n & e & post & E & _ & _ & _ & _ & _ & _ &
         Hchk & Hsl & Hpr & _)].
  - rewrite Es in Hs. discriminate Hs.
  - rewrite Hchk in Ec. cbn [hd] in Ec. injection Ec as ->.
    rewrite Es in Hsl. destruct e as [x|].
    + apply (f_equal (fun l => last l (10, Woke))) in Hsl.
      rewrite last_last in Hsl. discriminate Hsl.
    + rewrite app_nil_r in Hsl.
      apply (f_equal (@List.length _)) in Hsl.
      rewrite !repeat_length in Hsl. subst n.
      exists pre, post. split; [exact E|exact Hpr].
Defined.

(** C2 as stated fails: with [--wait] and a start time already reached,
    the game is played after one fetch and one selection only. *)
Lemma refresh_without_wait_counterexample :
  runs (main Sample.codes (Sample.with_team "BOS" true 1))
       (trace_in 100 (Sample.world 200 None 130)
          (main Sample.codes (Sample.with_team "BOS" true 1)))
       (Returned 0) /\
  collect check_of
    (trace_in 100 (Sample.world 200 None 130)
       (main Sample.codes (Sample.with_team "BOS" true 1))) = [(130, true)] /\
  collect play_of
    (trace_in 100 (Sample.world 200 None 130)
       (main Sample.codes (Sample.with_team "BOS" true 1))) =
  [(Sample.game 130, "bos", None, "2018-06-01")] /\
  collect fetch_of
    (trace_in 100 (Sample.world 200 None 130)
       (main Sample.codes (Sample.with_team "BOS" true 1))) =
  [("2018-06-01", 1, false, [[Sample.game 130]])] /\
  collect select_of
    (trace_in 100 (Sample.world 200 None 130)
       (main Sample.codes (Sample.with_team "BOS" true 1))) =
  [([Sample.game 130], "bos", "1", Sample.game 130)].
Proof.
  split; [apply exec_runs; vm_compute; reflexivity|].
  repeat split; vm_compute; reflexivity.
Qed.

(** C2, amended: in every run of [main] that plays a game, when the wait
    took place (the first check found the start not reached), the run ends
    with the fetch for the same date, one day and no display, the selection
    for the same team and game number in the first day of its answer, and
    the playing of the record so selected; before them there are one fetch
    and one selection and nothing is played.  When no wait took place, the
    games are fetched once, and the record of the one selection is
    played. *)
Theorem refresh_after_wait codes a tr r :
  runs (main codes a) tr r ->
  collect play_of tr <> [] ->
  match collect check_of tr with
  | (_, false) :: _ =>
      exists pre date gd rest team rec feedtype code first gd0 rec0,
        tr = pre ++ refresh date (gd :: rest) ++
             [Obs (get_game_rec gd team (args.game a)) rec;
              play a team feedtype date rec code] /\
        collect fetch_of pre = [(date, args.days a, false, first)] /\
        collect select_of pre = [(gd0, team, args.game a, rec0)] /\
        collect play_of pre = [] /\
        r = Returned code
  | _ =>
      exists date first gd team rec feedtype,
        collect fetch_of tr = [(date, args.days a, false, first)] /\
        collect select_of tr = [(gd, team, args.game a, rec)] /\
        collect play_of tr = [(rec, team, feedtype, date)]
  end.
Proof.
  intros H Hplay. apply main_inv in H.
  destruct H as (pre & feedtype & date & tr' & -> & F & Hg).
  destruct Hg as [c Es | gdl Es Et | t Es Et | t gd rest tr r Es Et Hp];
    try (exfalso; apply Hplay; project F; reflexivity).
  destruct Hp as [rec code Ew | rec code Ew | rec local n e Ew
                 | rec local n Ew | rec local n gd' rest' rec' code Ew];
    try (exfalso; apply Hplay; project F; rewrite ?app_nil_r; reflexivity).
  - project F. exists date, (gd :: rest), gd, t, rec, feedtype.
    repeat split.
  - project F. exists date, (gd :: rest), gd, t, rec, feedtype.
    repeat split.
  - assert (Hc : exists checks,
               collect check_of
                 (pre ++
                  Obs (retrieve_and_display_game_data date (args.days a) false)
                      (gd :: rest) ::
                  [Obs (get_game_rec gd t (args.game a)) rec;
                   Obs (has_reached_time (mlbdate rec)) false] ++
                  waiting (mlbdate rec) local n None ++
                  refresh date (gd' :: rest') ++
                  [Obs (get_game_rec gd' t (args.game a)) rec';
                   play a t feedtype date rec' code]) =
               (mlbdate rec, false) :: checks).
    { project F. eexists. reflexivity. }
    destruct Hc as (checks & ->).
    exists (pre ++
            Obs (retrieve_and_display_game_data date (args.days a) false)
                (gd :: rest) ::
            [Obs (get_game_rec gd t (args.game a)) rec;
             Obs (has_reached_time (mlbdate rec)) false] ++
            waiting (mlbdate rec) local n None),
      date, gd', rest', t, rec', feedtype, code, (gd :: rest), gd, rec.
    split; [rewrite <- !app_assoc; reflexivity|].
    project F. repeat split.
Qed.

Lemma refresh_after_wait_witness :
  exists pre date gd rest team rec feedtype code first gd0 rec0,
    trace_in 100 (Sample.world 100 None 130)
      (main Sample.codes (Sample.with_team "BOS" true 2)) =
    pre ++ refresh date (gd :: rest) ++
    [Obs (get_game_rec gd team "1") rec;
     play (Sample.with_team "BOS" true 2) team feedtype date rec code] /\
    collect fetch_of pre = [(date, 2, false, first)] /\
    collect select_of pre = [(gd0, team, "1", rec0)] /\
    collect play_of pre = [] /\
    Returned 0 = Returned code.
Proof.
  assert (H : runs (main Sample.codes (Sample.with_team "BOS" true 2))
                (trace_in 100 (Sample.world 100 None 130)
                   (main Sample.codes (Sample.with_team "BOS" true 2)))
                (Returned 0)).
  { apply exec_runs. vm_compute. reflexivity. }
  refine (@refresh_after_wait _ _ _ _ H _).
  vm_compute. discriminate.
Defined.

(** C7 as stated fails: with [--days 2] the catalog answers two days, and
    the selection is made in the first day only; the second day, with a
    game of the same team, is passed to no call of [get_game_rec]. *)
Lemma first_day_only_counterexample :
  runs (main Sample.codes (Sample.with_team "BOS" false 2))
       (trace_in 100 (Sample.world 100 None 130)
          (main Sample.codes (Sample.with_team "BOS" false 2)))
       (Returned 0) /\
  collect fetch_of
    (trace_in 100 (Sample.world 100 None 130)
       (main Sample.codes (Sample.with_team "BOS" false 2))) =
  [("2018-06-01", 2, false,
    [[Sample.game 130]; [Sample.other (130 + 86400)]])] /\
  collect select_of
    (trace_in 100 (Sample.world 100 None 130)
       (main Sample.codes (Sample.with_team "BOS" false 2))) =
  [([Sample.game 130], "bos", "1", Sample.game 130)] /\
  ~ In [Sample.other (130 + 86400)]
       (map (fun s => fst (fst (fst s)))
          (collect select_of
             (trace_in 100 (Sample.world 100 None 130)
                (main Sample.codes (Sample.with_team "BOS" false 2))))).
Proof.
  split; [apply exec_runs; vm_compute; reflexivity|].
  split; [vm_compute; reflexivity|].
  split; [vm_compute; reflexivity|].
  vm_compute. intros [E|[]]. discriminate E.
Qed.

(** C7, amended: in every run of [main] that selects a game, the first
    selection comes right after the fetch for the requested date and
    [--days], which is the first call after the setup, and it is made, for
    the lowered team and [--game], in the first day of the answer of that
    fetch: the other days of the span are not passed to it.  In a world,
    the date of the fetch is the date of the invocation. *)
Theorem selects_in_first_day codes a tr r s sels :
  runs (main codes a) tr r ->
  collect select_of tr = s :: sels ->
  (exists pre date gd rest t rec post,
      tr = pre ++
           Obs (retrieve_and_display_game_data date (args.days a) false)
               (gd :: rest) ::
           Obs (get_game_rec gd t (args.game a)) rec :: post /\
      Forall (fun o => is_setup o = true) pre /\
      truthy_str (args.team a) <> None /\
      team_of a = Some t /\
      s = (gd, t, args.game a, rec)) /\
  (forall w w' f,
      answers w tr w' -> In f (collect fetch_of tr) ->
      fst (fst (fst f)) = date_in w a).
Proof.
  intros H Hs. split.
  2: { intros w w' f A. apply (@fetch_dates codes a w tr r w'). split; auto. }
  apply main_inv in H.
  destruct H as (pre & feedtype & date & tr' & -> & F & Hg).
  rewrite collect_app, (setup_no_select F) in Hs. cbn [app] in Hs.
  destruct Hg as [c Es | gdl Es Et | t Es Et | t gd rest tr r Es Et Hp];
    try discriminate Hs.
  assert (Hteam : truthy_str (args.team a) <> None).
  { unfold team_of in Et. destruct (truthy_str (args.team a));
      [discriminate|discriminate Et]. }
  destruct Hp as [rec code Ew | rec code Ew | rec local n e Ew
                 | rec local n Ew | rec local n gd' rest' rec' code Ew];
    cbn in Hs; injection Hs as <- _;
    exists pre, date, gd, rest, t, rec; eexists;
    (split; [cbn [app]; reflexivity|]); auto.
Qed.

Lemma selects_in_first_day_witness :
  exists pre date gd rest t rec post,
    trace_in 100 (Sample.world 100 None 130)
      (main Sample.codes (Sample.with_team "BOS" false 2)) =
    pre ++
    Obs (retrieve_and_display_game_data date 2 false) (gd :: rest) ::
    Obs (get_game_rec gd t "1") rec :: post /\
    Forall (fun o => is_setup o = true) pre /\
    Some "BOS" <> None /\
    Some "bos" = Some t /\
    ([Sample.game 130], "bos", "1", Sample.game 130) = (gd, t, "1", rec).
Proof.
  assert (H : runs (main Sample.codes (Sample.with_team "BOS" false 2))
                (trace_in 100 (Sample.world 100 None 130)
                   (main Sample.codes (Sample.with_team "BOS" false 2)))
                (Returned 0)).
  { apply exec_runs. vm_compute. reflexivity. }
  refine (proj1 (@selects_in_first_day _ _ _ _
                   ([Sample.game 130], "bos", "1", Sample.game 130) [] H _)).
  vm_compute. reflexivity.
Defined.

Lemma main_codes codes a tr r :
  runs (main codes a) tr r ->
  exists tr1 tr2,
    tr = tr1 ++ warning codes a ++ tr2 /\
    forall codes', runs (main codes' a) (tr1 ++ warning codes' a ++ tr2) r.
Proof.
  unfold main. intros H. split_bind H as pre1 x H1.
  apply read_options_inv in H1.
  destruct H1 as (tr1 & tr2 & _ & -> & _ & _ & Hall).
  exists tr1, (tr2 ++ q). split; [rewrite <- !app_assoc; reflexivity|].
  intros codes'. specialize (Hall codes').
  replace (tr1 ++ warning codes' a ++ tr2 ++ q)
    with ((tr1 ++ warning codes' a ++ tr2) ++ q)
    by (rewrite <- !app_assoc; reflexivity).
  eapply runs_bind; eassumption.
Qed.

(* ===================================================================== *)
(** ** The arguments that [main] looks at *)
(* ===================================================================== *)

Lemma truthy_str_idem o : truthy_str (truthy_str o) = truthy_str o.
Proof.
  destruct o as [s|]; [|reflexivity]. cbn.
  destruct (s =? "")%string eqn:E; [reflexivity|]. cbn. rewrite E. reflexivity.
Qed.

Lemma truthy_int_idem o : truthy_int (truthy_int o) = truthy_int o.
Proof.
  destruct o as [n|]; [|reflexivity]. cbn.
  destruct (n =? 0) eqn:E; [reflexivity|]. cbn. rewrite E. reflexivity.
Qed.

(** X1: options that Python takes as false are as good as absent: [main] is
    the same program for [--team ''], [--feed ''], [--standings ''],
    [--username ''], [--password ''], [--resolution ''], [--favs ''] and
    [--inning-offset 0] as without them. *)
Theorem empty_options_are_absent codes a :
  main codes (without_empty a) = main codes a.
Proof.
  unfold main, read_options, read_team, read_feed, read_date, run_games,
    select_and_play, wait_for_start, without_empty.
  cbn [args.date args.inning args.inning_offset args.from_start args.days
       args.tomorrow args.yesterday args.team args.feed args.favs
       args.filter args.game args.resolution args.scores args.no_scores
       args.linescore args.username args.password args.fetch args.wait
       args.standings args.verbose args.debug].
  rewrite !truthy_str_idem, truthy_int_idem. reflexivity.
Qed.

Lemma lower_ascii_idem c : lower_ascii (lower_ascii c) = lower_ascii c.
Proof.
  destruct c as [[] [] [] [] [] [] [] []]; reflexivity.
Qed.

Lemma lower_idem s : lower (lower s) = lower s.
Proof.
  induction s as [|c s IH]; cbn; [reflexivity|].
  rewrite lower_ascii_idem, IH. reflexivity.
Qed.

Lemma truthy_str_lower o :
  truthy_str (option_map lower o) = option_map lower (truthy_str o).
Proof.
  destruct o as [[|c s]|]; reflexivity.
Qed.

Lemma read_team_lower codes a :
  read_team codes (in_lower_case a) = read_team codes a.
Proof.
  unfold read_team, in_lower_case. cbn [args.team].
  rewrite truthy_str_lower.
  destruct (truthy_str (args.team a)) as [t|]; cbn [option_map];
    [|reflexivity].
  rewrite lower_idem. reflexivity.
Qed.

Lemma read_feed_lower a : read_feed (in_lower_case a) = read_feed a.
Proof.
  unfold read_feed, in_lower_case. cbn [args.feed].
  rewrite truthy_str_lower.
  destruct (truthy_str (args.feed a)) as [t|]; cbn [option_map];
    [|reflexivity].
  rewrite lower_idem. reflexivity.
Qed.

Lemma main_lower codes a : main codes (in_lower_case a) = main codes a.
Proof.
  unfold main, read_options. rewrite read_team_lower, read_feed_lower.
  destruct a. reflexivity.
Qed.

(** X2: the case of the letters of [--team] and [--feed] does not matter:
    [main] is the same program for arguments that differ in it only. *)
Theorem team_and_feed_ignore_case codes a a' :
  in_lower_case a = in_lower_case a' -> main codes a = main codes a'.
Proof.
  intros E. rewrite <- (main_lower codes a), <- (main_lower codes a'), E.
  reflexivity.
Qed.

Lemma team_and_feed_ignore_case_witness :
  main Sample.codes (Sample.with_team "BOS" true 1) =
  main Sample.codes (Sample.with_team "Bos" true 1).
Proof.
  apply team_and_feed_ignore_case. reflexivity.
Defined.

(** X3: flags that give way: [main] is the same program when [--no-scores] is
    dropped under [--scores], [--tomorrow] under [--yesterday], and [--date]
    under [--yesterday] or [--tomorrow]. *)
Theorem overridden_options_are_ignored codes a :
  main codes (without_overridden a) = main codes a.
Proof.
  destruct a as [date inning offset from_start days tomorrow yesterday team
                 feed favs filter game resolution scores no_scores linescore
                 username password fetch wait standings verbose debug].
  destruct yesterday, tomorrow, scores, no_scores; reflexivity.
Qed.

(* ===================================================================== *)
(** ** The configuration and the order of the calls *)
(* ===================================================================== *)

Lemma config_when (b : bool) k v tr x :
  runs (when b (call (config_set k v))) tr x ->
  collect config_of tr = if b then [(k, v)] else [].
Proof.
  destruct b; cbn; intros H.
  - apply runs_call_inv in H. subst. reflexivity.
  - apply runs_Ret_inv in H. destruct H; subst. reflexivity.
Qed.

Lemma config_when_some {A} (o : option A) k (f : A -> string) tr x :
  runs (when_some o (fun v => call (config_set k (f v)))) tr x ->
  collect config_of tr = match o with Some v => [(k, f v)] | None => [] end.
Proof.
  destruct o; cbn; intros H.
  - apply runs_call_inv in H. subst. reflexivity.
  - apply runs_Ret_inv in H. destruct H; subst. reflexivity.
Qed.

Lemma read_options_config codes a tr x :
  runs (read_options codes a) tr x -> collect config_of tr = config_plan a.
Proof.
  unfold read_options. intros H.
  split_bind H as p1 x1 H1. split_bind H as p2 x2 H2.
  split_bind H as p3 x3 H3. split_bind H as p4 x4 H4.
  split_bind H as p5 x5 H5. split_bind H as p6 x6 H6.
  split_bind H as p7 x7 H7. split_bind H as p8 x8 H8.
  split_bind H as pt team Ht. split_bind H as pf feedtype Hf.
  split_bind H as p9 x9 H9. split_bind H as p10 x10 H10.
  split_bind H as p11 x11 H11. split_bind H as p12 x12 H12.
  split_bind H as p13 x13 H13.
  apply runs_Ret_inv in H. destruct H as [-> ->].
  apply runs_call_inv in H1, H2, H3. subst p1 p2 p3.
  apply config_when in H4, H5, H11, H13.
  apply (config_when_some _ "username" (fun v => v)) in H6.
  apply (config_when_some _ "password" (fun v => v)) in H7.
  apply (config_when_some _ "stream_start_offset_secs" str) in H8.
  apply (config_when_some _ "resolution" (fun v => v)) in H9.
  apply (config_when_some _ "favs" (fun v => v)) in H12.
  assert (Et : collect config_of pt = []).
  { apply read_team_inv in Ht. destruct Ht as [_ ->]. unfold warning.
    destruct (team_of a); [|reflexivity].
    destruct (str_in _ _); reflexivity. }
  assert (Ef : collect config_of pf = []).
  { unfold read_feed in Hf. destruct (truthy_str (args.feed a)).
    - split_bind Hf as q1 l Hq. apply runs_call_inv in Hq. subst q1.
      apply runs_Ret_inv in Hf. destruct Hf as [-> _]. reflexivity.
    - apply runs_Ret_inv in Hf. destruct Hf as [-> _]. reflexivity. }
  assert (Es : collect config_of p10 =
               if args.scores a then [("scores", "true")]
               else if args.no_scores a then [("scores", "false")] else []).
  { destruct (args.scores a).
    - apply runs_call_inv in H10. subst. reflexivity.
    - apply config_when in H10. exact H10. }
  unfold config_plan. rewrite !collect_app.
  rewrite H4, H5, H6, H7, H8, Et, Ef, H9, Es, H11, H12, H13.
  cbn [collect config_of app]. rewrite app_nil_r. reflexivity.
Qed.

Lemma read_date_shape a tr x :
  runs (read_date a) tr x ->
  tr = [] \/ exists d, tr = [Obs (today_plus_days d) x].
Proof.
  unfold read_date.
  destruct (args.yesterday a); [|destruct (args.tomorrow a);
                                 [|destruct (args.date a)]];
    intros H;
    try (apply runs_call_inv in H; subst; right; eexists; reflexivity).
  apply runs_Ret_inv in H. destruct H; subst. left. reflexivity.
Qed.

Lemma games_run_work a team feedtype date tr r :
  games_run a team feedtype date tr r ->
  Forall (fun o => is_work o = true) tr.
Proof.
  assert (Hturns : forall start n count,
             Forall (fun o => is_work o = true) (turns start count n)).
  { intros start n. induction n as [|n IH]; intros count; cbn [turns].
    - constructor.
    - apply Forall_app. split; [|apply IH].
      unfold turn. destruct (_ =? _); repeat constructor. }
  assert (Hleave : forall start e,
             Forall (fun o => is_work o = true) (leave start e)).
  { intros start [e|]; repeat constructor. }
  intros Hg.
  destruct Hg as [c Es | gdl Es Et | t Es Et | t gd rest tr r Es Et Hp];
    try (repeat constructor).
  destruct Hp as [rec code Ew | rec code Ew | rec local n e Ew
                 | rec local n Ew | rec local n gd' rest' rec' code Ew];
    unfold waiting, refresh, play;
    repeat (apply Forall_app; split); auto; repeat constructor.
Qed.

Lemma work_no_config tr :
  Forall (fun o => is_work o = true) tr -> collect config_of tr = [].
Proof.
  induction 1 as [|[T e x] tr Ho _ IH]; [reflexivity|].
  destruct e; cbn in Ho; try discriminate; cbn; exact IH.
Qed.

Lemma distinct_NoDup l : distinct l = true -> NoDup l.
Proof.
  induction l as [|x l IH]; cbn; [constructor|].
  intros H. apply andb_prop in H. destruct H as [H1 H2].
  constructor; [|apply IH, H2].
  intros Hin. apply negb_true_iff in H1.
  assert (E : existsb (String.eqb x) l = true).
  { apply existsb_exists. exists x. split; [exact Hin|apply String.eqb_refl]. }
  congruence.
Qed.

(** X4: every run of [main] is setup calls (configuration, the warning about
    the team, the name of the feed, today's date) followed by calls that are
    not: nothing is written to the configuration, and no warning is logged,
    once the standings or the games have been asked for. *)
Theorem setup_then_work codes a tr r :
  runs (main codes a) tr r ->
  exists pre post,
    tr = pre ++ post /\
    Forall (fun o => is_setup o = true) pre /\
    Forall (fun o => is_work o = true) post /\
    collect config_of post = [] /\
    (forall m, ~ In (warn, m) (collect log_of post)).
Proof.
  intros H. apply main_inv in H.
  destruct H as (pre & feedtype & date & tr' & -> & F & Hg).
  pose proof (games_run_work Hg) as W.
  exists pre, tr'. split; [reflexivity|]. split; [exact F|].
  split; [exact W|]. split; [apply work_no_config, W|].
  intros m. clear - W. induction W as [|[T e x] tr Ho _ IH]; [intros []|].
  destruct e; cbn in Ho; try discriminate; cbn; try exact IH.
  destruct l; try discriminate; cbn; intros [E|Hin];
    try discriminate E; exact (IH Hin).
Qed.

Lemma setup_then_work_witness :
  exists pre post,
    trace_in 100 (Sample.world 100 None 130)
      (main Sample.codes (Sample.with_team "NL" true 1)) = pre ++ post /\
    Forall (fun o => is_setup o = true) pre /\
    Forall (fun o => is_work o = true) post /\
    collect config_of post = [] /\
    (forall m, ~ In (warn, m) (collect log_of post)).
Proof.
  assert (H : runs (main Sample.codes (Sample.with_team "NL" true 1))
                (trace_in 100 (Sample.world 100 None 130)
                   (main Sample.codes (Sample.with_team "NL" true 1)))
                (Returned 0)).
  { apply exec_runs. vm_compute. reflexivity. }
  exact (@setup_then_work _ _ _ _ H).
Defined.

(** X5: what a run of [main] writes to the configuration depends on the
    arguments only, not on what the collaborators answer, nor on how the run
    ends: it is [config_plan], in which no key comes twice. *)
Theorem config_written codes a tr r :
  runs (main codes a) tr r ->
  collect config_of tr = config_plan a /\
  NoDup (map fst (collect config_of tr)).
Proof.
  intros H.
  assert (E : collect config_of tr = config_plan a).
  { unfold main in H. split_bind H as pre1 x H1. destruct x as [team feed].
    split_bind H as pre2 date H2.
    apply read_options_config in H1.
    apply read_date_shape in H2.
    apply run_games_iff, games_run_work, work_no_config in H.
    rewrite !collect_app, H1, H.
    assert (E2 : collect config_of pre2 = [])
      by (destruct H2 as [-> | (d & ->)]; reflexivity).
    rewrite E2, !app_nil_r. reflexivity. }
  split; [exact E|]. rewrite E. unfold config_plan.
  apply distinct_NoDup.
  destruct (args.debug a), (args.verbose a), (truthy_str (args.username a)),
    (truthy_str (args.password a)), (truthy_int (args.inning_offset a)),
    (truthy_str (args.resolution a)), (args.scores a), (args.no_scores a),
    (args.linescore a), (truthy_str (args.favs a)), (args.filter a);
    reflexivity.
Qed.

Lemma config_written_witness :
  collect config_of
    (trace_in 100 (Sample.world 100 None 130)
       (main Sample.codes (Sample.with_standings "division"))) =
  config_plan (Sample.with_standings "division").
Proof.
  assert (H : runs (main Sample.codes (Sample.with_standings "division"))
                (trace_in 100 (Sample.world 100 None 130)
                   (main Sample.codes (Sample.with_standings "division")))
                (Returned 0)).
  { apply exec_runs. vm_compute. reflexivity. }
  exact (proj1 (@config_written _ _ _ _ H)).
Defined.

(* ===================================================================== *)
(** ** The date, the feed and the playing *)
(* ===================================================================== *)

Lemma config_call {T} (e : mlbvE T) tr x :
  (forall y, is_config (Obs e y) = true) ->
  runs (call e) tr x -> Forall (fun o => is_config o = true) tr.
Proof.
  intros He H. apply runs_call_inv in H. subst. constructor; auto.
Qed.

Lemma config_when_call (b : bool) (e : mlbvE unit) tr x :
  (forall y, is_config (Obs e y) = true) ->
  runs (when b (call e)) tr x -> Forall (fun o => is_config o = true) tr.
Proof.
  intros He H. destruct b; cbn in H.
  - eapply config_call; eauto.
  - apply runs_Ret_inv in H. destruct H; subst. constructor.
Qed.

Lemma config_when_some_call {A} (o : option A) (f : A -> mlbvE unit) tr x :
  (forall v y, is_config (Obs (f v) y) = true) ->
  runs (when_some o (fun v => call (f v))) tr x ->
  Forall (fun o => is_config o = true) tr.
Proof.
  intros He H. destruct o; cbn in H.
  - eapply config_call; eauto.
  - apply runs_Ret_inv in H. destruct H; subst. constructor.
Qed.

Ltac config_step :=
  first
    [ eapply config_call; [|eassumption]; reflexivity
    | eapply config_when_call; [|eassumption]; reflexivity
    | eapply (@config_when_some_call _ _ (fun v => config_set _ v));
      [|eassumption]; reflexivity
    | eapply (@config_when_some_call _ _ (fun v => config_set _ (str v)));
      [|eassumption]; reflexivity ].

(** The calls of lines 94-133, part by part. *)
Lemma read_options_parts codes a tr x :
  runs (read_options codes a) tr x ->
  exists before pf after feedtype,
    tr = before ++ warning codes a ++ pf ++ after /\
    x = (team_of a, feedtype) /\
    runs (read_feed a) pf feedtype /\
    Forall (fun o => is_config o = true) before /\
    Forall (fun o => is_config o = true) after.
Proof.
  unfold read_options. intros H.
  split_bind H as p1 x1 H1. split_bind H as p2 x2 H2.
  split_bind H as p3 x3 H3. split_bind H as p4 x4 H4.
  split_bind H as p5 x5 H5. split_bind H as p6 x6 H6.
  split_bind H as p7 x7 H7. split_bind H as p8 x8 H8.
  split_bind H as pt team Ht. split_bind H as pf feedtype Hf.
  split_bind H as p9 x9 H9. split_bind H as p10 x10 H10.
  split_bind H as p11 x11 H11. split_bind H as p12 x12 H12.
  split_bind H as p13 x13 H13.
  apply runs_Ret_inv in H. destruct H as [-> ->].
  apply read_team_inv in Ht. destruct Ht as [-> ->].
  exists (p1 ++ p2 ++ p3 ++ p4 ++ p5 ++ p6 ++ p7 ++ p8), pf,
         (p9 ++ p10 ++ p11 ++ p12 ++ p13), feedtype.
  split; [rewrite <- !app_assoc, app_nil_r; reflexivity|].
  split; [reflexivity|]. split; [exact Hf|]. split.
  - repeat (apply Forall_app; split); config_step.
  - repeat (apply Forall_app; split); try config_step.
    destruct (args.scores a); config_step.
Qed.

Lemma read_feed_shape a tr x :
  runs (read_feed a) tr x ->
  match truthy_str (args.feed a) with
  | Some f => exists l, tr = [Obs (convert_to_long_feedtype (lower f)) l] /\
                        x = Some l
  | None => tr = [] /\ x = None
  end.
Proof.
  unfold read_feed. destruct (truthy_str (args.feed a)) as [f|]; intros H.
  - split_bind H as p l H1. apply runs_call_inv in H1. subst p.
    apply runs_Ret_inv in H. destruct H as [-> ->].
    exists l. split; reflexivity.
  - apply runs_Ret_inv in H. exact H.
Qed.

Lemma collect_none {A} (f : obs -> option A) (p : obs -> bool) tr :
  (forall o, p o = true -> f o = None) ->
  Forall (fun o => p o = true) tr -> collect f tr = [].
Proof.
  intros Hf H. induction H as [|o tr Ho _ IH]; cbn; [reflexivity|].
  rewrite (Hf o Ho). exact IH.
Qed.

Ltac kind_none :=
  let o := fresh "o" in
  let T := fresh "T" in
  let e := fresh "e" in
  let x := fresh "x" in
  intros o; destruct o as [T e x]; destruct e; cbn;
  try discriminate; try reflexivity;
  match goal with l : level |- _ => destruct l; cbn; congruence end.

(** The runs of [main], part by part: the configuration, the warning, the
    name of the feed, the configuration again, today's date if it is
    needed, and lines 142-183. *)
Lemma main_parts codes a tr r :
  runs (main codes a) tr r ->
  exists before pf after feedtype pd date tr',
    tr = before ++ warning codes a ++ pf ++ after ++ pd ++ tr' /\
    Forall (fun o => is_config o = true) before /\
    Forall (fun o => is_config o = true) after /\
    runs (read_feed a) pf feedtype /\
    runs (read_date a) pd date /\
    games_run a (team_of a) feedtype date tr' r.
Proof.
  unfold main. intros H. split_bind H as pre1 x H1.
  apply read_options_parts in H1.
  destruct H1 as (before & pf & after & feedtype & -> & -> & Hf & F1 & F2).
  split_bind H as pd date Hd. apply run_games_iff in H.
  exists before, pf, after, feedtype, pd, date, q0.
  split; [rewrite <- !app_assoc; reflexivity|]. auto.
Qed.

Lemma config_is_setup tr :
  Forall (fun o => is_config o = true) tr ->
  Forall (fun o => is_setup o = true) tr.
Proof.
  apply Forall_impl. intros [T e x] H. destruct e; cbn in *; congruence.
Qed.

Lemma turns_poll start n : forall count,
  Forall (fun o => is_poll o = true) (turns start count n).
Proof.
  induction n as [|n IH]; intros count; cbn [turns]; [constructor|].
  apply Forall_app. split; [|apply IH].
  unfold turn. destruct (_ =? _); repeat constructor.
Qed.

Lemma leave_poll start e : Forall (fun o => is_poll o = true) (leave start e).
Proof. destruct e; repeat constructor. Qed.

Lemma poll_no_date tr :
  Forall (fun o => is_poll o = true) tr -> collect date_of tr = [].
Proof. apply collect_none. kind_none. Qed.

Lemma poll_no_play_call tr :
  Forall (fun o => is_poll o = true) tr -> collect play_call_of tr = [].
Proof. apply collect_none. kind_none. Qed.

Lemma setup_no_date tr :
  Forall (fun o => is_setup o = true) tr -> collect date_of tr = [].
Proof. apply collect_none. kind_none. Qed.

Lemma setup_no_play_call tr :
  Forall (fun o => is_setup o = true) tr -> collect play_call_of tr = [].
Proof. apply collect_none. kind_none. Qed.

Lemma config_no_today tr :
  Forall (fun o => is_config o = true) tr -> collect today_of tr = [].
Proof. apply collect_none. kind_none. Qed.

Lemma config_no_feed_conv tr :
  Forall (fun o => is_config o = true) tr -> collect feed_conv_of tr = [].
Proof. apply collect_none. kind_none. Qed.

Lemma work_no_today tr :
  Forall (fun o => is_work o = true) tr -> collect today_of tr = [].
Proof. apply collect_none. kind_none. Qed.

Lemma work_no_feed_conv tr :
  Forall (fun o => is_work o = true) tr -> collect feed_conv_of tr = [].
Proof. apply collect_none. kind_none. Qed.

Lemma warning_no_today codes a : collect today_of (warning codes a) = [].
Proof.
  unfold warning. destruct (team_of a); [|reflexivity].
  destruct (str_in _ _); reflexivity.
Qed.

Lemma warning_no_feed_conv codes a :
  collect feed_conv_of (warning codes a) = [].
Proof.
  unfold warning. destruct (team_of a); [|reflexivity].
  destruct (str_in _ _); reflexivity.
Qed.

Lemma games_run_one_date a team feedtype date tr r :
  games_run a team feedtype date tr r ->
  Forall (fun d => d = date) (collect date_of tr).
Proof.
  intros Hg.
  destruct Hg as [c Es | gdl Es Et | t Es Et | t gd rest tr r Es Et Hp];
    [repeat constructor | repeat constructor | repeat constructor |].
  change (Forall (fun d => d = date) (date :: collect date_of tr)).
  constructor; [reflexivity|].
  destruct Hp as [rec code Ew | rec code Ew | rec local n e Ew
                 | rec local n Ew | rec local n gd' rest' rec' code Ew];
    unfold waiting, refresh, play;
    repeat rewrite collect_app;
    rewrite ?(poll_no_date (turns_poll _ _ _)),
      ?(poll_no_date (leave_poll _ _));
    cbn; repeat constructor.
Qed.

Lemma read_date_today a tr x :
  runs (read_date a) tr x ->
  collect today_of tr =
  (if args.yesterday a then [-1]
   else if args.tomorrow a then [1]
   else match args.date a with None => [0] | Some _ => [] end) /\
  collect date_of tr = [] /\ collect feed_conv_of tr = [].
Proof.
  unfold read_date.
  destruct (args.yesterday a); [|destruct (args.tomorrow a);
                                 [|destruct (args.date a)]];
    intros H;
    try (apply runs_call_inv in H; subst; repeat split; reflexivity).
  apply runs_Ret_inv in H. destruct H; subst. repeat split; reflexivity.
Qed.

(** X6: one date for the whole run: in a world, the date given to
    [get_standings], to every fetch and to [play_stream] is yesterday's
    under [--yesterday], else tomorrow's under [--tomorrow], else [--date]
    as it is written (even empty), else today's; today's date is read once,
    and not at all when [--date] is used. *)
Theorem one_date codes a w tr r w' :
  runs_in w (main codes a) tr r w' ->
  Forall (fun d => d = date_in w a) (collect date_of tr) /\
  date_in w a =
  (if args.yesterday a then calendar w (-1)
   else if args.tomorrow a then calendar w 1
   else match args.date a with None => calendar w 0 | Some d => d end) /\
  collect today_of tr =
  (if args.yesterday a then [-1]
   else if args.tomorrow a then [1]
   else match args.date a with None => [0] | Some _ => [] end).
Proof.
  intros [H A]. split; [|split; [reflexivity|]].
  - pose proof (conj H A) as HA. apply main_in_world_inv in HA.
    destruct HA as (pre & tr' & -> & F & [Hg _]).
    apply run_games_iff, games_run_one_date in Hg.
    rewrite collect_app, (setup_no_date F). exact Hg.
  - apply main_parts in H.
    destruct H as (before & pf & after & feedtype & pd & date & tr' &
                   -> & F1 & F2 & Hf & Hd & Hg).
    apply read_date_today in Hd. destruct Hd as (Hd & _).
    apply games_run_work, work_no_today in Hg.
    assert (Ef : collect today_of pf = []).
    { apply read_feed_shape in Hf.
      destruct (truthy_str (args.feed a));
        [destruct Hf as (l & -> & _)|destruct Hf as [-> _]]; reflexivity. }
    rewrite !collect_app, (config_no_today F1), (config_no_today F2),
      warning_no_today, Ef, Hd, Hg, app_nil_r. reflexivity.
Qed.

Lemma one_date_witness :
  Forall (fun d => d = "2018-06-01")
    (collect date_of
       (trace_in 100 (Sample.world 100 None 130)
          (main Sample.codes (Sample.with_team "BOS" true 2)))).
Proof.
  assert (H : exec 100 (main Sample.codes (Sample.with_team "BOS" true 2))
                (Sample.world 100 None 130) =
              Some (Returned 0,
                    trace_in 100 (Sample.world 100 None 130)
                      (main Sample.codes (Sample.with_team "BOS" true 2)),
                    Sample.world 130 None 130)).
  { vm_compute. reflexivity. }
  apply exec_sound in H.
  exact (proj1 (@one_date _ _ _ _ _ _ H)).
Defined.

Ltac no_play_call :=
  unfold waiting, refresh, play, leave;
  repeat
    (progress
       (repeat rewrite collect_app;
        rewrite ?(poll_no_play_call (turns_poll _ _ _));
        cbn [collect play_call_of app]));
  try reflexivity.

Lemma games_run_play_last a team feedtype date tr r :
  games_run a team feedtype date tr r ->
  (collect play_call_of tr = [] /\
   (r = Returned 0 \/ r = Raised KeyboardInterrupt)) \/
  (exists pre rec t code,
      tr = pre ++ [play a t feedtype date rec code] /\
      collect play_call_of pre = [] /\ r = Returned code /\
      team = Some t /\
      exists sels gd fs n rest,
        collect select_of pre = sels ++ [(gd, t, args.game a, rec)] /\
        collect fetch_of pre = fs ++ [(date, n, false, gd :: rest)]).
Proof.
  intros Hg.
  destruct Hg as [c Es | gdl Es Et | t Es Et | t gd rest tr r Es Et Hp];
    try (left; split; [reflexivity|left; reflexivity]).
  destruct Hp as [rec code Ew | rec code Ew | rec local n e Ew
                 | rec local n Ew | rec local n gd' rest' rec' code Ew].
  - right.
    exists [Obs (retrieve_and_display_game_data date (args.days a) false)
                (gd :: rest);
            Obs (get_game_rec gd t (args.game a)) rec], rec, t, code.
    repeat split; auto.
    exists [], gd, [], (args.days a), rest. split; reflexivity.
  - right.
    exists [Obs (retrieve_and_display_game_data date (args.days a) false)
                (gd :: rest);
            Obs (get_game_rec gd t (args.game a)) rec;
            Obs (has_reached_time (mlbdate rec)) true], rec, t, code.
    repeat split; auto.
    exists [], gd, [], (args.days a), rest. split; reflexivity.
  - left. destruct e. split; [|right; reflexivity]. no_play_call.
  - left. split; [|left; reflexivity]. no_play_call.
  - right.
    exists (Obs (retrieve_and_display_game_data date (args.days a) false)
                (gd :: rest) ::
            [Obs (get_game_rec gd t (args.game a)) rec;
             Obs (has_reached_time (mlbdate rec)) false] ++
            waiting (mlbdate rec) local n None ++
            refresh date (gd' :: rest') ++
            [Obs (get_game_rec gd' t (args.game a)) rec']), rec', t, code.
    split; [cbn [app]; rewrite <- !app_assoc; reflexivity|].
    split; [no_play_call|].
    split; [reflexivity|]. split; [exact Et|].
    exists [(gd, t, args.game a, rec)], gd',
      [(date, args.days a, false, gd :: rest)], 1, rest'.
    split; project (Forall_nil (fun o => is_setup o = true));
      rewrite ?app_nil_r; reflexivity.
Qed.

(** X7: [play_stream] ends the run: every run of [main] calls it at most once,
    as its last call, and returns what it returns; a run that does not call
    it returns 0, unless Ctrl-c ends it.  So a code other than 0 comes from
    [play_stream] only. *)
Theorem play_is_last codes a tr r :
  runs (main codes a) tr r ->
  (collect play_call_of tr = [] /\
   (r = Returned 0 \/ r = Raised KeyboardInterrupt)) \/
  (exists pre rec t f d fe fs i code,
      tr = pre ++ [Obs (play_stream rec t f d fe fs i) code] /\
      collect play_call_of pre = [] /\
      r = Returned code).
Proof.
  intros H. apply main_inv in H.
  destruct H as (pre & feedtype & date & tr' & -> & F & Hg).
  apply games_run_play_last in Hg.
  destruct Hg as [[Hp Hr] | (pre' & rec & t & code & -> & Hp & Hr & _)].
  - left. split; [|exact Hr].
    rewrite collect_app, (setup_no_play_call F), Hp. reflexivity.
  - right. exists (pre ++ pre'), rec, t, feedtype, date, (args.fetch a),
      (args.from_start a), (args.inning a), code.
    split; [rewrite <- app_assoc; reflexivity|]. split; [|exact Hr].
    rewrite collect_app, (setup_no_play_call F), Hp. reflexivity.
Qed.

Lemma play_is_last_witness :
  exists pre rec t f d fe fs i code,
    trace_in 100 (Sample.world 100 None 130)
      (main Sample.codes (Sample.with_team "BOS" true 2)) =
    pre ++ [Obs (play_stream rec t f d fe fs i) code] /\
    collect play_call_of pre = [] /\
    Returned 0 = Returned code.
Proof.
  assert (H : runs (main Sample.codes (Sample.with_team "BOS" true 2))
                (trace_in 100 (Sample.world 100 None 130)
                   (main Sample.codes (Sample.with_team "BOS" true 2)))
                (Returned 0)).
  { apply exec_runs. vm_compute. reflexivity. }
  destruct (@play_is_last _ _ _ _ H) as [[E _] | E]; [|exact E].
  vm_compute in E. discriminate E.
Defined.

(** X8: what is played: in every run of [main] that calls [play_stream], the
    record is the answer of the last [get_game_rec], which was asked in the
    first day of the answer of the last fetch; the team is the lowered
    [--team]; the feed is the answer of [convert_to_long_feedtype] for the
    lowered [--feed], or [None] without one; the date is that of the fetch;
    and [--fetch], [--from-start] and [--inning] are passed as they are. *)
Theorem play_arguments codes a tr r rec t f d flags code :
  runs (main codes a) tr r ->
  In (rec, t, f, d, flags, code) (collect play_call_of tr) ->
  flags = (args.fetch a, args.from_start a, args.inning a) /\
  (exists t0, truthy_str (args.team a) = Some t0 /\ t = lower t0) /\
  match truthy_str (args.feed a) with
  | Some f0 =>
      exists l, collect feed_conv_of tr = [(lower f0, l)] /\ f = Some l
  | None => collect feed_conv_of tr = [] /\ f = None
  end /\
  exists sels gd fs n rest,
    collect select_of tr = sels ++ [(gd, t, args.game a, rec)] /\
    collect fetch_of tr = fs ++ [(d, n, false, gd :: rest)].
Proof.
  intros H Hin. apply main_parts in H.
  destruct H as (before & pf & after & feedtype & pd & date & tr' &
                 -> & F1 & F2 & Hf & Hd & Hg).
  assert (Ffeed : Forall (fun o => is_setup o = true) pf)
    by (eapply read_feed_inv; eassumption).
  assert (Fdate : Forall (fun o => is_setup o = true) pd)
    by (eapply read_date_inv; eassumption).
  apply config_is_setup in F1 as S1. apply config_is_setup in F2 as S2.
  pose proof (warning_setup codes a) as Sw.
  assert (Econv : collect feed_conv_of
                    (before ++ warning codes a ++ pf ++ after ++ pd ++ tr') =
                  collect feed_conv_of pf).
  { apply read_date_today in Hd. destruct Hd as (_ & _ & Hd).
    pose proof (work_no_feed_conv (games_run_work Hg)) as Hw.
    rewrite !collect_app, (config_no_feed_conv F1), (config_no_feed_conv F2),
      warning_no_feed_conv, Hd, Hw, !app_nil_r. reflexivity. }
  rewrite Econv. clear Econv.
  assert (Eplay : collect play_call_of
                    (before ++ warning codes a ++ pf ++ after ++ pd ++ tr') =
                  collect play_call_of tr').
  { rewrite !collect_app, (setup_no_play_call S1), (setup_no_play_call S2),
      (setup_no_play_call Sw), (setup_no_play_call Ffeed),
      (setup_no_play_call Fdate). reflexivity. }
  rewrite Eplay in Hin. clear Eplay.
  assert (Esel : collect select_of
                   (before ++ warning codes a ++ pf ++ after ++ pd ++ tr') =
                 collect select_of tr').
  { rewrite !collect_app, (setup_no_select S1), (setup_no_select S2),
      (setup_no_select Sw), (setup_no_select Ffeed),
      (setup_no_select Fdate). reflexivity. }
  assert (Efetch : collect fetch_of
                     (before ++ warning codes a ++ pf ++ after ++ pd ++ tr') =
                   collect fetch_of tr').
  { rewrite !collect_app, (setup_no_fetch S1), (setup_no_fetch S2),
      (setup_no_fetch Sw), (setup_no_fetch Ffeed),
      (setup_no_fetch Fdate). reflexivity. }
  rewrite Esel, Efetch. clear Esel Efetch.
  apply games_run_play_last in Hg.
  destruct Hg as [[Hp _] | (pre' & rec' & t' & code' & -> & Hp & _ & Ht &
                            sels & gd & fs & n & rest & Es & Ef)].
  { rewrite Hp in Hin. destruct Hin. }
  rewrite collect_app, Hp in Hin. cbn in Hin.
  destruct Hin as [E|[]]. injection E as <- <- <- <- <- <-.
  split; [reflexivity|]. split.
  { unfold team_of in Ht. destruct (truthy_str (args.team a)) as [t0|];
      [|discriminate Ht].
    injection Ht as <-. eauto. }
  split.
  { apply read_feed_shape in Hf.
    destruct (truthy_str (args.feed a)) as [f0|].
    - destruct Hf as (l & -> & ->). exists l. split; reflexivity.
    - destruct Hf as [-> ->]. split; reflexivity. }
  exists sels, gd, fs, n, rest.
  rewrite !collect_app, Es, Ef. cbn. rewrite !app_nil_r. split; reflexivity.
Qed.

Lemma play_arguments_witness :
  exists sels gd fs n rest,
    collect select_of
      (trace_in 100 (Sample.world 100 None 130)
         (main Sample.codes (Sample.with_team "BOS" true 2))) =
    sels ++ [(gd, "bos", "1", Sample.game 130)] /\
    collect fetch_of
      (trace_in 100 (Sample.world 100 None 130)
         (main Sample.codes (Sample.with_team "BOS" true 2))) =
    fs ++ [("2018-06-01", n, false, gd :: rest)].
Proof.
  assert (H : runs (main Sample.codes (Sample.with_team "BOS" true 2))
                (trace_in 100 (Sample.world 100 None 130)
                   (main Sample.codes (Sample.with_team "BOS" true 2)))
                (Returned 0)).
  { apply exec_runs. vm_compute. reflexivity. }
  refine (proj2 (proj2 (proj2
            (@play_arguments _ _ _ _ (Sample.game 130) "bos" None
               "2018-06-01" (false, false, None) 0 H _)))).
  vm_compute. left. reflexivity.
Defined.

(* ===================================================================== *)
(** ** Ctrl-c in a world *)
(* ===================================================================== *)

(** With Ctrl-c at [s], [k] turns are answered when [s] is not before the
    end of the last of their sleeps and the start is not reached at the
    last of their checks. *)
Lemma turns_before_sigint start s k : forall count w,
  sigint w = Some s ->
  now w + 10 * Z.of_nat k <= s ->
  (k <> O -> now w + 10 * Z.of_nat k - 10 < start) ->
  answers w (turns start count k)
          (at_time w (now w + 10 * Z.of_nat k) (Some s)).
Proof.
  induction k as [|k IH]; intros count w Hs Hk Hn.
  - cbn. rewrite Z.add_0_r. destruct w. cbn in *. subst. reflexivity.
  - cbn [turns]. apply answers_app.
    exists (at_time w (now w + 10) (Some s)). split.
    + unfold turn. cbn. unfold reached, sleep_in. rewrite Hs.
      assert (E : (s <? now w + 10) = false) by (apply Z.ltb_ge; lia).
      rewrite E. cbn.
      split; [symmetry; apply Z.leb_gt; lia|].
      split; [reflexivity|].
      destruct ((count + 1) mod 6 =? 0); cbn; auto.
    + pose proof (IH (count + 1) (at_time w (now w + 10) (Some s)) eq_refl)
        as A.
      rewrite at_time_at_time, now_at_time in A.
      replace (now w + 10 + 10 * Z.of_nat k)
        with (now w + 10 * Z.of_nat (S k)) in A by lia.
      apply A; [lia|]. intros _. lia.
Qed.

(** X9: Ctrl-c during the wait: in a world in which [main] waits for a start
    in the future and Ctrl-c comes before the end of the last sleep that the
    wait would need, [main] ends, and every run of it is left by
    [KeyboardInterrupt] in the sleep during which Ctrl-c comes, after the
    [(s - now) / 10] sleeps that end before it, at the time of Ctrl-c, and
    without a second fetch or a call of [play_stream]. *)
Theorem ctrl_c_ends_the_wait codes a w s t gd rest :
  sigint w = Some s ->
  args.wait a = true ->
  truthy_str (args.standings a) = None ->
  truthy_str (args.team a) = Some t ->
  catalog w (now w) (date_in w a) (args.days a) = gd :: rest ->
  let start := mlbdate (selector w gd (lower t) (args.game a)) in
  now w < start ->
  s < now w + 10 * Z.of_nat (polls_needed start (now w)) ->
  let k := Z.to_nat ((s - now w) / 10) in
  (exists tr w', runs_in w (main codes a) tr (Raised KeyboardInterrupt) w') /\
  forall tr r w', runs_in w (main codes a) tr r w' ->
    r = Raised KeyboardInterrupt /\
    collect sleep_of tr = repeat (10, Woke) k ++ [(10, Interrupted)] /\
    now w' = Z.max (now w) s /\
    List.length (collect fetch_of tr) = 1%nat /\
    collect play_of tr = [].
Proof.
  intros Hs Ew Es Et Ec start Hlt Hbefore k.
  destruct (polls_needed_bounds Hlt) as (Hn & Hlo & Hhi).
  set (n := polls_needed start (now w)) in *.
  set (rec := selector w gd (lower t) (args.game a)).
  assert (Hk : Z.of_nat k = Z.max 0 ((s - now w) / 10))
    by (unfold k; rewrite ZifyInst.of_nat_to_nat_eq; reflexivity).
  assert (Hk1 : 10 * Z.of_nat k <= Z.max 0 (s - now w)).
  { rewrite Hk. pose proof (Z.mul_div_le (s - now w) 10 ltac:(lia)). lia. }
  assert (Hk2 : Z.max 0 (s - now w) < 10 * Z.of_nat k + 10).
  { rewrite Hk.
    pose proof (Z.mul_succ_div_gt (s - now w) 10 ltac:(lia)). lia. }
  assert (Hkn : (k < n)%nat).
  { apply Nat2Z.inj_lt. lia. }
  set (w1 := at_time w (Z.max (now w) s) None).
  set (tr0 :=
         Obs (retrieve_and_display_game_data (date_in w a) (args.days a) false)
             (gd :: rest) ::
         [Obs (get_game_rec gd (lower t) (args.game a)) rec;
          Obs (has_reached_time start) false] ++
         waiting start (local_time w start) k (Some KeyboardInterrupt)).
  assert (Hrun : runs_in w
                   (run_games a (team_of a) (feed_in w a) (date_in w a))
                   tr0 (Raised KeyboardInterrupt) w1).
  { split.
    - apply run_games_iff. unfold tr0.
      eapply games_play; [exact Es|unfold team_of; rewrite Et; reflexivity|].
      apply (play_interrupted a (lower t) (feed_in w a) (date_in w a) gd rec
               (local_time w start) k KeyboardInterrupt Ew).
    - unfold tr0, waiting. cbn [app answers answer fst snd]. fold rec start.
      rewrite Ec.
      assert (Er : reached start w = false)
        by (unfold reached; apply Z.leb_gt; exact Hlt).
      rewrite Er. repeat (split; [reflexivity|]).
      destruct (Z_le_gt_dec (now w) s) as [Hle|Hgt].
      + apply answers_app.
        exists (at_time w (now w + 10 * Z.of_nat k) (Some s)). split.
        * apply turns_before_sigint; [exact Hs|lia|intros _; lia].
        * cbn [leave answers answer fst snd]. unfold reached, sleep_in.
          cbn [now sigint at_time].
          assert (E1 : (start <=? now w + 10 * Z.of_nat k) = false)
            by (apply Z.leb_gt; lia).
          assert (E2 : (s <? now w + 10 * Z.of_nat k + 10) = true)
            by (apply Z.ltb_lt; lia).
          rewrite E1, E2. cbn [fst snd].
          repeat (split; [reflexivity|]).
          unfold w1, at_time.
          cbn [now sigint catalog selector player long_feedtype calendar
               local_time].
          f_equal. lia.
      + assert (k = O) as -> by lia. cbn [turns app].
        cbn [leave answers answer fst snd]. unfold sleep_in. rewrite Hs.
        assert (E2 : (s <? now w + 10) = true) by (apply Z.ltb_lt; lia).
        rewrite E2, Er. cbn [fst snd]. repeat (split; [reflexivity|]).
        reflexivity. }
  pose proof Hrun as Hmain. apply (main_in_world codes) in Hmain.
  destruct Hmain as (pre & Hmain & F).
  split; [eauto|].
  intros tr r w' H.
  destruct (@runs_in_det _ _ _ _ _ _ _ _ _ H Hmain) as (-> & -> & ->).
  split; [reflexivity|]. unfold tr0.
  split; [project F; rewrite ?app_nil_r; reflexivity|].
  split; [reflexivity|].
  split; project F; rewrite ?app_nil_r; reflexivity.
Qed.

Lemma ctrl_c_ends_the_wait_witness :
  exists tr w',
    runs_in (Sample.world 100 (Some 115) 130)
            (main Sample.codes (Sample.with_team "BOS" true 1)) tr
            (Raised KeyboardInterrupt) w'.
Proof.
  refine (proj1 (@ctrl_c_ends_the_wait Sample.codes
                   (Sample.with_team "BOS" true 1)
                   (Sample.world 100 (Some 115) 130) 115 "BOS"
                   [Sample.game 130] []
                   eq_refl eq_refl eq_refl eq_refl eq_refl _ _)).
  - cbn. lia.
  - vm_compute. reflexivity.
Defined.

(* ===================================================================== *)
(** ** [main] ends *)
(* ===================================================================== *)

Lemma plan_result a w :
  (exists code, snd (fst (plan a w)) = Returned code) /\
  now (snd (plan a w)) =
  now w + 10 * Z.of_nat (List.length (collect sleep_of (fst (fst (plan a w))))) /\
  (sigint w = None -> sigint (snd (plan a w)) = None).
Proof.
  unfold plan.
  destruct (truthy_str (args.standings a));
    [cbn; split; [eauto|split; [lia|auto]]|].
  destruct (team_of a) as [t|]; [|cbn; split; [eauto|split; [lia|auto]]].
  destruct (catalog w (now w) (date_in w a) (args.days a)) as [|gd rest];
    [cbn; split; [eauto|split; [lia|auto]]|].
  cbn [fst snd]. unfold plan_play.
  destruct (args.wait a &&
            negb (reached (mlbdate (selector w gd t (args.game a))) w)) eqn:E;
    cbn [fst snd].
  - split; [|split; [|reflexivity]].
    + unfold after_wait. destruct (catalog _ _ _ _); cbn [snd]; eauto.
    + rewrite now_at_time. do 2 f_equal.
      assert (Ha : collect sleep_of
                     (fst (after_wait a w
                             (at_time w
                                (now w + 10 * Z.of_nat
                                   (polls_needed
                                      (mlbdate (selector w gd t (args.game a)))
                                      (now w))) None) t)) = []).
      { unfold after_wait. destruct (catalog _ _ _ _); reflexivity. }
      project (Forall_nil (fun o => is_setup o = true)).
      rewrite Ha, !app_nil_r, repeat_length. reflexivity.
  - split; [eauto|]. split; [|auto].
    destruct (args.wait a); cbn; lia.
Qed.

(** X10: in a world without Ctrl-c [main] always ends, whatever its arguments:
    there is a run, and every run returns a code (no exception leaves
    [main]); the time that has passed is 10 seconds for each sleep. *)
Theorem main_ends codes a w :
  sigint w = None ->
  (exists tr code w', runs_in w (main codes a) tr (Returned code) w') /\
  forall tr r w', runs_in w (main codes a) tr r w' ->
    (exists code, r = Returned code) /\
    now w' = now w + 10 * Z.of_nat (List.length (collect sleep_of tr)) /\
    sigint w' = None.
Proof.
  intros Hs. destruct (@main_plan codes a w (or_introl Hs)) as [Hex Hall].
  destruct (plan_result a w) as ((code & Hc) & Hn & Hsig).
  assert (G : forall tr r w', runs_in w (main codes a) tr r w' ->
    (exists code, r = Returned code) /\
    now w' = now w + 10 * Z.of_nat (List.length (collect sleep_of tr)) /\
    sigint w' = None).
  { intros tr r w' H. apply Hall in H.
    destruct H as (pre & F & -> & -> & ->).
    split; [eauto|]. split; [|auto].
    rewrite collect_app, (setup_no_sleep F). exact Hn. }
  split; [|exact G].
  destruct Hex as (tr & r & w' & H).
  destruct (G _ _ _ H) as ((code' & ->) & _). eauto.
Qed.

Lemma main_ends_witness :
  exists tr code w',
    runs_in (Sample.world 100 None 130)
            (main Sample.codes (Sample.with_team "BOS" true 1)) tr
            (Returned code) w'.
Proof.
  exact (proj1 (@main_ends Sample.codes (Sample.with_team "BOS" true 1)
                  (Sample.world 100 None 130) eq_refl)).
Defined.

(* ===================================================================== *)
(** ** The announcement of the wait *)
(* ===================================================================== *)

Lemma setup_no_local tr :
  Forall (fun o => is_setup o = true) tr -> collect local_of tr = [].
Proof. apply collect_none. kind_none. Qed.

Lemma setup_no_info tr :
  Forall (fun o => is_setup o = true) tr -> collect info_of tr = [].
Proof. apply collect_none. kind_none. Qed.

Lemma poll_no_local tr :
  Forall (fun o => is_poll o = true) tr -> collect local_of tr = [].
Proof. apply collect_none. kind_none. Qed.

Lemma poll_dots start e n :
  Forall (fun p => p = ".")
         (collect print_of (turns start 0 n ++ leave start e)).
Proof.
  rewrite collect_app, turns_print by lia.
  apply Forall_app. split.
  - apply Forall_forall. intros p Hin. apply repeat_spec in Hin. exact Hin.
  - destruct e; constructor.
Qed.

(** X11: the wait is announced exactly when the first check of the start
    time fails.  A run of [main] without a failed check asks for no local
    time, logs nothing at level [info], prints nothing and never sleeps.  In
    any other run the first selection and its failed check are followed at
    once by the local time of the start of the selected record, the log
    message that carries the answer, and the line [Use Ctrl-c to quit .];
    nothing is checked, printed or slept before, and afterwards no local
    time is asked for and only dots are printed. *)
Theorem wait_is_announced codes a tr r :
  runs (main codes a) tr r ->
  (Forall (fun c => snd c = true) (collect check_of tr) /\
   collect local_of tr = [] /\ collect info_of tr = [] /\
   collect print_of tr = [] /\ collect sleep_of tr = []) \/
  (exists pre gd t rec local post,
      tr = pre ++
           [Obs (get_game_rec gd t (args.game a)) rec;
            Obs (has_reached_time (mlbdate rec)) false;
            Obs (convert_time_to_local (mlbdate rec)) local;
            Obs (LOG info
                   ("Waiting for game to start. Local start time is "
                    ++ local)%string) tt;
            Obs (print "Use Ctrl-c to quit .") tt] ++ post /\
      args.wait a = true /\
      collect select_of pre = [] /\ collect check_of pre = [] /\
      collect print_of pre = [] /\ collect sleep_of pre = [] /\
      collect local_of post = [] /\
      Forall (fun p => p = ".") (collect print_of post)).
Proof.
  intros H. apply main_inv in H.
  destruct H as (pre & feedtype & date & tr' & -> & F & Hg).
  destruct Hg as [c Es | gdl Es Et | t Es Et | t gd rest tr r Es Et Hp];
    try (left; rewrite !collect_app, (setup_no_check F), (setup_no_local F),
           (setup_no_info F), (setup_no_print F), (setup_no_sleep F);
         cbn; repeat split; constructor).
  destruct Hp as [rec code Ew | rec code Ew | rec local n e Ew
                 | rec local n Ew | rec local n gd' rest' rec' code Ew].
  1, 2: left; rewrite !collect_app, (setup_no_check F), (setup_no_local F),
          (setup_no_info F), (setup_no_print F), (setup_no_sleep F);
        cbn; repeat split; repeat constructor.
  all: right;
    exists (pre ++ [Obs (retrieve_and_display_game_data date (args.days a)
                           false) (gd :: rest)]), gd, t, rec, local.
  - exists (turns (mlbdate rec) 0 n ++ leave (mlbdate rec) (Some e)).
    split; [unfold waiting; cbn [app]; rewrite <- !app_assoc; reflexivity|].
    split; [exact Ew|].
    do 4 (split; [rewrite collect_app, ?(setup_no_select F),
                    ?(setup_no_check F), ?(setup_no_print F),
                    ?(setup_no_sleep F); reflexivity|]).
    split; [|apply poll_dots].
    rewrite collect_app, (poll_no_local (turns_poll _ _ _)),
      (poll_no_local (leave_poll _ _)). reflexivity.
  - exists (turns (mlbdate rec) 0 n ++ leave (mlbdate rec) None ++
            refresh date [] ++
            [Obs (LOG error
                    "Unexpected error: no game data found after refresh on wait")
                 tt]).
    split; [unfold waiting; cbn [app]; rewrite <- !app_assoc; reflexivity|].
    split; [exact Ew|].
    do 4 (split; [rewrite collect_app, ?(setup_no_select F),
                    ?(setup_no_check F), ?(setup_no_print F),
                    ?(setup_no_sleep F); reflexivity|]).
    split.
    + rewrite !collect_app, (poll_no_local (turns_poll _ _ _)),
        (poll_no_local (leave_poll _ _)). reflexivity.
    + rewrite app_assoc, collect_app. apply Forall_app.
      split; [apply poll_dots|constructor].
  - exists (turns (mlbdate rec) 0 n ++ leave (mlbdate rec) None ++
            refresh date (gd' :: rest') ++
            [Obs (get_game_rec gd' t (args.game a)) rec';
             play a t feedtype date rec' code]).
    split; [unfold waiting; cbn [app]; rewrite <- !app_assoc; reflexivity|].
    split; [exact Ew|].
    do 4 (split; [rewrite collect_app, ?(setup_no_select F),
                    ?(setup_no_check F), ?(setup_no_print F),
                    ?(setup_no_sleep F); reflexivity|]).
    split.
    + rewrite !collect_app, (poll_no_local (turns_poll _ _ _)),
        (poll_no_local (leave_poll _ _)). reflexivity.
    + rewrite app_assoc, collect_app. apply Forall_app.
      split; [apply poll_dots|constructor].
Qed.

Lemma wait_is_announced_witness :
  exists pre gd t rec local post,
    trace_in 100 (Sample.world 100 None 130)
      (main Sample.codes (Sample.with_team "BOS" true 1)) =
    pre ++
    [Obs (get_game_rec gd t
            (args.game (Sample.with_team "BOS" true 1))) rec;
     Obs (has_reached_time (mlbdate rec)) false;
     Obs (convert_time_to_local (mlbdate rec)) local;
     Obs (LOG info
            ("Waiting for game to start. Local start time is "
             ++ local)%string) tt;
     Obs (print "Use Ctrl-c to quit .") tt] ++ post.
Proof.
  assert (H : runs (main Sample.codes (Sample.with_team "BOS" true 1))
                (trace_in 100 (Sample.world 100 None 130)
                   (main Sample.codes (Sample.with_team "BOS" true 1)))
                (Returned 0)).
  { apply exec_runs. vm_compute. reflexivity. }
  destruct (@wait_is_announced _ _ _ _ H)
    as [(_ & _ & _ & _ & E) | (pre & gd & t & rec & local & post & E & _)].
  - vm_compute in E. discriminate E.
  - exists pre, gd, t, rec, local, post. exact E.
Defined.

(* ===================================================================== *)
(** ** The team code *)
(* ===================================================================== *)

Lemma config_no_warn tr :
  Forall (fun o => is_config o = true) tr -> collect warn_of tr = [].
Proof. apply collect_none. kind_none. Qed.

Lemma work_no_warn tr :
  Forall (fun o => is_work o = true) tr -> collect warn_of tr = [].
Proof. apply collect_none. kind_none. Qed.

(** The warnings of a run of [main] are those of line 119. *)
Lemma main_warned codes a tr r :
  runs (main codes a) tr r ->
  collect warn_of tr = collect warn_of (warning codes a).
Proof.
  intros H. apply main_parts in H.
  destruct H as (before & pf & after & feedtype & pd & date & tr' & -> &
                 F1 & F2 & Hf & Hd & Hg).
  apply read_feed_shape in Hf. apply read_date_shape in Hd.
  apply games_run_work, work_no_warn in Hg.
  rewrite !collect_app, (config_no_warn F1), (config_no_warn F2), Hg.
  assert (E1 : collect warn_of pf = []).
  { destruct (truthy_str (args.feed a)).
    - destruct Hf as (l & -> & _). reflexivity.
    - destruct Hf as [-> _]. reflexivity. }
  assert (E2 : collect warn_of pd = []).
  { destruct Hd as [-> | (d & ->)]; reflexivity. }
  rewrite E1, E2, !app_nil_r. reflexivity.
Qed.

(** C8: when a team is given (a string that Python takes as true, written
    in ASCII, where [lower] is [str.lower()]), every run of [main] goes on
    with the lowered code, known or not.  Its warnings are the one for this
    code when it is not in the team codes, and none when it is.  Unless the
    standings are asked for, the games are fetched with the display off, as
    for any team, and when the answer has a first day the game is selected
    there for the lowered code, and without [--wait] it is played for the
    lowered code; no other team is ever given to [get_game_rec] or to
    [play_stream].  And the run is, but for the warning, a run of [main] for
    any other set of team codes, with the same result: the team is never
    rejected. *)
Theorem unknown_team_is_not_rejected codes a t tr r :
  truthy_str (args.team a) = Some t ->
  ascii_only t = true ->
  runs (main codes a) tr r ->
  collect warn_of tr =
  (if str_in (lower t) codes then []
   else [("Unexpected team code: " ++ lower t)%string]) /\
  (str_in (lower t) codes = false ->
   In (warn, ("Unexpected team code: " ++ lower t)%string)
      (collect log_of tr)) /\
  (truthy_str (args.standings a) = None ->
   exists date gdl fetches,
     collect fetch_of tr = (date, args.days a, false, gdl) :: fetches /\
     match gdl with
     | [] => collect select_of tr = [] /\ r = Returned 0
     | gd :: _ =>
         exists rec sels,
           collect select_of tr = (gd, lower t, args.game a, rec) :: sels /\
           (args.wait a = false ->
            exists f code,
              collect play_of tr = [(rec, lower t, f, date)] /\
              r = Returned code)
     end) /\
  (forall gd t' g rec,
      In (gd, t', g, rec) (collect select_of tr) -> t' = lower t) /\
  (forall rec t' f d,
      In (rec, t', f, d) (collect play_of tr) -> t' = lower t) /\
  exists tr1 tr2,
    tr = tr1 ++ warning codes a ++ tr2 /\
    (warning codes a =
     if str_in (lower t) codes then []
     else [Obs (LOG warn ("Unexpected team code: " ++ lower t)%string) tt]) /\
    forall codes', runs (main codes' a) (tr1 ++ warning codes' a ++ tr2) r.
Proof.
  intros Et _ H.
  assert (Hteam : team_of a = Some (lower t))
    by (unfold team_of; rewrite Et; reflexivity).
  assert (Hwarn : warning codes a =
     if str_in (lower t) codes then []
     else [Obs (LOG warn ("Unexpected team code: " ++ lower t)%string) tt])
    by (unfold warning; rewrite Hteam; reflexivity).
  destruct (@main_codes _ _ _ _ H) as (tr1 & tr2 & E & Hall).
  split; [|split; [|split; [|split; [|split]]]].
  - rewrite (@main_warned _ _ _ _ H), Hwarn.
    destruct (str_in (lower t) codes); reflexivity.
  - intros Hin. rewrite E, Hwarn, Hin, !collect_app.
    apply in_or_app. right. apply in_or_app. left. left. reflexivity.
  - intros Es0. apply main_inv in H.
    destruct H as (pre & feedtype & date & tr' & -> & F & Hg).
    destruct Hg as [c Es | gdl Es Et' | t0 Es Et' | t0 gd rest tr r Es Et' Hp];
      [congruence|congruence| |].
    + exists date, [], []. project F. repeat split; reflexivity.
    + assert (t0 = lower t) as -> by congruence.
      exists date, (gd :: rest), (collect fetch_of tr).
      split; [rewrite collect_app, (setup_no_fetch F); reflexivity|].
      destruct Hp as [rec code Ew | rec code Ew | rec local n e Ew
                     | rec local n Ew | rec local n gd' rest' rec' code Ew].
      * exists rec, [].
        split; [project F; rewrite ?app_nil_r; reflexivity|].
        intros _. exists feedtype, code. project F.
        split; reflexivity.
      * exists rec, [].
        split; [project F; rewrite ?app_nil_r; reflexivity|congruence].
      * exists rec, [].
        split; [project F; rewrite ?app_nil_r; reflexivity|congruence].
      * exists rec, [].
        split; [project F; rewrite ?app_nil_r; reflexivity|congruence].
      * exists rec, [(gd', lower t, args.game a, rec')].
        split; [project F; rewrite ?app_nil_r; reflexivity|congruence].
  - apply main_inv in H.
    destruct H as (pre & feedtype & date & tr' & -> & F & Hg).
    intros gd0 t' g rec0.
    destruct Hg as [c Es | gdl Es Et' | t0 Es Et' | t0 gd rest tr r Es Et' Hp];
      try (project F; intros []).
    assert (t0 = lower t) as -> by congruence.
    destruct Hp as [rec code Ew | rec code Ew | rec local n e Ew
                   | rec local n Ew | rec local n gd' rest' rec' code Ew];
      project F; rewrite ?app_nil_r; cbn; intros Hin;
      repeat (destruct Hin as [Ei|Hin];
              [injection Ei as _ <- _ _; reflexivity|]);
      destruct Hin.
  - apply main_inv in H.
    destruct H as (pre & feedtype & date & tr' & -> & F & Hg).
    intros rec0 t' f d.
    destruct Hg as [c Es | gdl Es Et' | t0 Es Et' | t0 gd rest tr r Es Et' Hp];
      try (project F; intros []).
    assert (t0 = lower t) as -> by congruence.
    destruct Hp as [rec code Ew | rec code Ew | rec local n e Ew
                   | rec local n Ew | rec local n gd' rest' rec' code Ew];
      project F; rewrite ?app_nil_r; cbn; intros Hin;
      repeat (destruct Hin as [Ei|Hin];
              [injection Ei as _ <- _ _; reflexivity|]);
      destruct Hin.
  - exists tr1, tr2. auto.
Qed.

Lemma unknown_team_is_not_rejected_witness :
  In (warn, "Unexpected team code: nl")
     (collect log_of
        (trace_in 100 (Sample.world 200 None 130)
           (main Sample.codes (Sample.with_team "NL" false 1)))) /\
  collect warn_of
    (trace_in 100 (Sample.world 200 None 130)
       (main Sample.codes (Sample.with_team "NL" false 1))) =
  ["Unexpected team code: nl"] /\
  exists gd rec sels f d,
    collect select_of
      (trace_in 100 (Sample.world 200 None 130)
         (main Sample.codes (Sample.with_team "NL" false 1))) =
    (gd, "nl", "1", rec) :: sels /\
    collect play_of
      (trace_in 100 (Sample.world 200 None 130)
         (main Sample.codes (Sample.with_team "NL" false 1))) =
    [(rec, "nl", f, d)].
Proof.
  assert (H : runs (main Sample.codes (Sample.with_team "NL" false 1))
                (trace_in 100 (Sample.world 200 None 130)
                   (main Sample.codes (Sample.with_team "NL" false 1)))
                (Returned 0)).
  { apply exec_runs. vm_compute. reflexivity. }
  assert (Ec : collect fetch_of
                 (trace_in 100 (Sample.world 200 None 130)
                    (main Sample.codes (Sample.with_team "NL" false 1))) =
               [("2018-06-01", 1, false, [[Sample.game 130]])])
    by (vm_compute; reflexivity).
  destruct (@unknown_team_is_not_rejected Sample.codes
              (Sample.with_team "NL" false 1) "NL" _ _ eq_refl eq_refl H)
    as (Hw & Hin & Hgo & _).
  split; [exact (Hin eq_refl)|]. split; [exact Hw|].
  destruct (Hgo eq_refl) as (date & gdl & fetches & Ef & Hm).
  rewrite Ec in Ef. destruct gdl as [|gd rest]; [discriminate Ef|].
  destruct Hm as (rec & sels & Es & Hp).
  destruct (Hp eq_refl) as (f & code & Ep & _).
  exists gd, rec, sels, f, date. split; [exact Es|exact Ep].
Defined.
